(** * RealEstateSpider: article extraction and idempotent ingestion

    A shallow embedding of the three scrapers ([scrape_credaily.py],
    [scrape_multifamilydive.py], [scrape_multihousing.py]), of the
    MultifamilyDive part of [db_connector.py] and of the reading and the
    embedding of its table in [qdrant_embedding.py], followed by the
    properties of the specification that concern them.

    Conventions of the embedding:
    - a Python [str] is a Rocq [string]; its characters are read as the code
      points U+0000..U+00FF;
    - a Python [dict] with string keys is a [gmap string pyval]; a dict that
      is passed around and assigned to lives in a heap of dicts and is
      named by its location, so that aliasing is visible;
    - the parsed document (a BeautifulSoup tree) is the inductive [node];
      the library calls the scrapers make on it ([find], [find_all],
      [decompose], [.text], [.get], [.contents]) are functions on [node];
      [decompose] changes the tree in place, so the tree is threaded
      through the code that follows it;
    - an exception is a value [Raise e] of [result]; [try]/[except] is
      [try_except];
    - the table [multifamilydive_articles] is a list of rows in insertion
      order, with the sequence behind [id SERIAL], the committed and the
      in-transaction contents kept apart, and the failed state of a
      transaction in which a statement was refused. *)

From stdpp Require Import base option list strings gmap.
From Stdlib Require Import Ascii String Sorted.

Local Open Scope string_scope.
Local Open Scope list_scope.

(** ** Python strings *)

Module PyStr.

(** [str.isspace] on one character, for code points below 256:
    TAB..CR, FS..US, SPACE, NEL and NBSP. *)
Definition isspace (c : ascii) : bool :=
  let n := nat_of_ascii c in
  (Nat.leb 9 n && Nat.leb n 13) || (Nat.leb 28 n && Nat.leb n 32)
  || Nat.eqb n 133 || Nat.eqb n 160.

Definition is_empty (s : string) : bool :=
  match s with EmptyString => true | String _ _ => false end.

(** [not s] is [is_empty s]; [truthy s] is the test [if s:]. *)
Definition truthy (s : string) : bool := negb (is_empty s).

Fixpoint lstrip_by (drop : ascii -> bool) (s : string) : string :=
  match s with
  | EmptyString => EmptyString
  | String c s' => if drop c then lstrip_by drop s' else s
  end.

Fixpoint rstrip_by (drop : ascii -> bool) (s : string) : string :=
  match s with
  | EmptyString => EmptyString
  | String c s' =>
      let r := rstrip_by drop s' in
      if is_empty r && drop c then EmptyString else String c r
  end.

(** [s.strip()] *)
Definition strip (s : string) : string :=
  lstrip_by isspace (rstrip_by isspace s).

(** [s.rstrip(',')] *)
Definition rstrip_comma (s : string) : string :=
  rstrip_by (Ascii.eqb ",") s.

(** [s.startswith(p)] *)
Fixpoint startswith (p s : string) : bool :=
  match p, s with
  | EmptyString, _ => true
  | String _ _, EmptyString => false
  | String a p', String b s' => Ascii.eqb a b && startswith p' s'
  end.

(** [sub in s] *)
Fixpoint contains (sub s : string) : bool :=
  startswith sub s
  || match s with
     | EmptyString => false
     | String _ s' => contains sub s'
     end.

(** [sep.join(l)] *)
Fixpoint join (sep : string) (l : list string) : string :=
  match l with
  | [] => ""
  | [x] => x
  | x :: l' => x +:+ sep +:+ join sep l'
  end.

(** [s.replace(old, new)] for a non-empty [old]: the occurrences are
    found from the left and do not overlap. [skip] counts the characters
    of a match that are still to be passed over. *)
Fixpoint replace_from (old new : string) (skip : nat) (s : string) : string :=
  match s with
  | EmptyString => EmptyString
  | String c s' =>
      match skip with
      | S k => replace_from old new k s'
      | O =>
          if startswith old s
          then new +:+ replace_from old new (String.length old - 1) s'
          else String c (replace_from old new 0 s')
      end
  end.

Definition replace (old new s : string) : string := replace_from old new 0 s.

End PyStr.

(** ** Python values, exceptions and the heap of dicts *)

Inductive pyval :=
| PNone
| PStr (s : string)
| PList (l : list string).

(** The test [if v:] on the result of [d.get(k)]: a missing key gives
    [None], and [None], [''] and [[]] are false. *)
Definition py_truthy (v : option pyval) : bool :=
  match v with
  | None | Some PNone => false
  | Some (PStr s) => PyStr.truthy s
  | Some (PList l) => match l with [] => false | _ :: _ => true end
  end.

Inductive exn :=
| KeyError (key : string)
| AttributeError (name : string)
| IndexError
| TypeError
| ValueError
| ParserRejectedMarkup
| NotNullViolation (column : string)
| NumericValueOutOfRange
| InvalidRowCountInLimitClause
| InvalidRowCountInResultOffsetClause
| SequenceLimitExceeded
| ProgramLimitExceeded
| InFailedSqlTransaction.

Inductive result (A : Type) :=
| Ok (a : A)
| Raise (e : exn).
Arguments Ok {A} a.
Arguments Raise {A} e.

#[global] Instance result_ret : MRet result := @Ok.
#[global] Instance result_bind : MBind result :=
  fun A B f r => match r with Ok a => f a | Raise e => Raise e end.

Definition is_ok {A} (r : result A) : bool :=
  match r with Ok _ => true | Raise _ => false end.

(** A dict object is named by its location; [brief_info.copy()] makes a
    new object with the same items (the values are shared, and no code
    here changes a value in place). *)
Abbreviation dict := (gmap string pyval).
Abbreviation loc := nat.
Abbreviation heap := (gmap nat (gmap string pyval)).

Definition deref (h : heap) (r : loc) : dict := default ∅ (h !! r).

(** Code that may raise and that reads and writes a state [S]: the heap
    of dicts for the scrapers, the database for the connector. *)
Definition ST (S A : Type) : Type := S -> result A * S.

#[global] Instance ST_ret {S} : MRet (ST S) := fun A a h => (Ok a, h).
#[global] Instance ST_bind {S} : MBind (ST S) :=
  fun A B f m h =>
    match m h with
    | (Ok a, h') => f a h'
    | (Raise e, h') => (Raise e, h')
    end.

Definition lift {S A} (r : result A) : ST S A := fun h => (r, h).

(** [try: body except Exception as e: handler]: what [body] did to the
    state before it raised stays done. *)
Definition try_except {S A} (body : ST S A) (handler : exn -> ST S A) : ST S A :=
  fun h =>
    match body h with
    | (Ok a, h') => (Ok a, h')
    | (Raise e, h') => handler e h'
    end.

Abbreviation M := (ST (gmap nat (gmap string pyval))).

(** [d.get(k)] *)
Definition dict_get (d : loc) (k : string) : M (option pyval) :=
  fun h => (Ok (deref h d !! k), h).

(** [d[k] = v] *)
Definition dict_set (d : loc) (k : string) (v : pyval) : M unit :=
  fun h => (Ok tt, <[d := <[k := v]> (deref h d)]> h).

(** [d.copy()] *)
Definition dict_copy (d : loc) : M loc :=
  fun h => let d' := fresh (dom h) in (Ok d', <[d' := deref h d]> h).

(** ** The parsed document *)

(** An attribute value: [class], [rel] and the other multi-valued
    attributes are lists of tokens, every other attribute is a string. *)
Inductive attr :=
| AStr (s : string)
| AList (l : list string).

#[warnings="-register-all"]
Inductive node :=
| NText (s : string)
| NElem (name : string) (attrs : gmap string attr) (contents : list node).

Module Soup.

Definition attr_value (a : attr) : pyval :=
  match a with AStr s => PStr s | AList l => PList l end.

(** [tag.get(k)] on the attributes; a text node has none. *)
Definition get (k : string) (n : node) : option attr :=
  match n with
  | NText _ => None
  | NElem _ attrs _ => attrs !! k
  end.

(** [tag[k]] *)
Definition getitem (k : string) (n : node) : result pyval :=
  match get k n with
  | Some a => Ok (attr_value a)
  | None => Raise (KeyError k)
  end.

(** [tag.contents] *)
Definition contents (n : node) : list node :=
  match n with
  | NText _ => []
  | NElem _ _ cs => cs
  end.

(** [tag.text]: the strings below the node, in document order. *)
Fixpoint text (n : node) : string :=
  match n with
  | NText s => s
  | NElem _ _ cs =>
      (fix go (l : list node) : string :=
         match l with
         | [] => ""
         | c :: l' => text c +:+ go l'
         end) cs
  end.

(** [tag.find_all(...)]: every descendant that passes the filter, in
    document order; the node itself is not a candidate. *)
Fixpoint find_all (P : node -> bool) (n : node) : list node :=
  match n with
  | NText _ => []
  | NElem _ _ cs =>
      (fix go (l : list node) : list node :=
         match l with
         | [] => []
         | c :: l' => (if P c then [c] else []) ++ find_all P c ++ go l'
         end) cs
  end.

(** [tag.find(...)]: the first result of [find_all], or [None]. *)
Definition find (P : node -> bool) (n : node) : option node :=
  head (find_all P n).

(** [for el in tag.find_all(...): el.decompose()]: every descendant that
    passes the filter is taken out of the tree, with all it contains. *)
Fixpoint decompose_all (P : node -> bool) (n : node) : node :=
  match n with
  | NText s => NText s
  | NElem t a cs =>
      NElem t a
        ((fix go (l : list node) : list node :=
            match l with
            | [] => []
            | c :: l' => if P c then go l' else decompose_all P c :: go l'
            end) cs)
  end.

(** The tree after the object returned by [find P] has been changed by
    [f] in place: the first descendant (document order) that passes [P]
    is replaced by its image. [None] when there is no such descendant. *)
Fixpoint update_first (P : node -> bool) (f : node -> node) (n : node)
  : option node :=
  match n with
  | NText _ => None
  | NElem t a cs =>
      NElem t a <$>
        (fix go (l : list node) : option (list node) :=
           match l with
           | [] => None
           | c :: l' =>
               if P c then Some (f c :: l')
               else match update_first P f c with
                    | Some c' => Some (c' :: l')
                    | None => cons c <$> go l'
                    end
           end) cs
  end.

Definition in_place (P : node -> bool) (f : node -> node) (soup : node) : node :=
  default soup (update_first P f soup).

(** *** Filters *)

(** A tag whose name is one of [names]. *)
Definition tag_in (names : list string) (n : node) : bool :=
  match n with
  | NText _ => false
  | NElem t _ _ => existsb (String.eqb t) names
  end.

(** How a filter value is matched against an attribute: an absent
    attribute does not match; a string attribute is tested itself; of a
    multi-valued attribute each token is tested, then the tokens joined
    by a space. *)
Definition attr_matches (f : string -> bool) (v : option attr) : bool :=
  match v with
  | None => false
  | Some (AStr s) => f s
  | Some (AList l) => existsb f l || f (PyStr.join " " l)
  end.

(** [find(names, class_='c')], [find(names, id='i')], [find('a', rel='r')] *)
Definition by_attr (names : list string) (k v : string) (n : node) : bool :=
  tag_in names n && attr_matches (String.eqb v) (get k n).

Definition by_class (names : list string) (c : string) : node -> bool :=
  by_attr names "class" c.

(** [find_all(names, class_=lambda c: c and (...))] *)
Definition by_class_fn (names : list string) (f : string -> bool) (n : node)
  : bool :=
  tag_in names n
  && attr_matches (fun c => PyStr.truthy c && f c) (get "class" n).

(** [c in tag.get('class', [])] *)
Definition class_list_has (c : string) (n : node) : bool :=
  match get "class" n with
  | None => false
  | Some (AList l) => existsb (String.eqb c) l
  | Some (AStr s) => PyStr.contains c s
  end.

End Soup.

(** ** Helpers shared by the three scrapers *)

(** [if l:] on a list. *)
Definition nonempty {A} (l : list A) : bool :=
  match l with [] => false | _ :: _ => true end.

(** [tag.text.strip()] *)
Definition stripped_text (n : node) : string := PyStr.strip (Soup.text n).

(** [' '.join([p.text.strip() for p in paragraphs])] *)
Definition join_paragraphs (paragraphs : list node) : string :=
  PyStr.join " " (stripped_text <$> paragraphs).

(** [[p.text.strip() for p in paragraphs if len(p.text.strip()) > 40]] *)
Definition long_paragraphs (paragraphs : list node) : list string :=
  List.filter (fun s => Nat.ltb 40 (String.length s))
    (stripped_text <$> paragraphs).

(** A method of [str] called on a value: only a string has it. *)
Definition as_str (method : string) (v : pyval) : result string :=
  match v with
  | PStr s => Ok s
  | PNone | PList _ => Raise (AttributeError method)
  end.

(** [for item in items: ...] where the body may raise and otherwise
    gives the new value of the accumulated list. *)
Fixpoint for_each {A B} (body : A -> list B -> result (list B))
  (items : list A) (acc : list B) : result (list B) :=
  match items with
  | [] => Ok acc
  | item :: rest => acc' ← body item acc; for_each body rest acc'
  end.

(** The last resort common to the three content parsers: the whole
    [body], without header, footer, nav and aside, keeping the paragraphs
    of more than 40 characters. *)
Definition body_fallback (soup : node) (content : string) : node * string :=
  match Soup.find (Soup.tag_in ["body"]) soup with
  | Some body =>
      let chrome := Soup.tag_in ["header"; "footer"; "nav"; "aside"] in
      let body := Soup.decompose_all chrome body in
      let soup := Soup.in_place (Soup.tag_in ["body"]) (Soup.decompose_all chrome) soup in
      let paragraphs := Soup.find_all (Soup.tag_in ["p"]) body in
      let content_paragraphs := long_paragraphs paragraphs in
      (soup, if nonempty content_paragraphs
             then PyStr.join " " content_paragraphs else content)
  | None => (soup, content)
  end.

(** The [except] block of the three content parsers: a message is
    printed, and a copy of the record with an empty content returned. *)
Definition content_failed (brief_info : loc) (e : exn) : M loc :=
  brief_info_copy ← dict_copy brief_info;
  _ ← dict_set brief_info_copy "content" (PStr "");
  mret brief_info_copy.

(** [a or b] on two results of [find]. *)
Definition or_else {A} (a b : option A) : option A :=
  match a with Some _ => a | None => b end.

(** ** scrape_credaily.py *)

Module Credaily.
Section Scraper.

(** [BeautifulSoup(html_content, 'html.parser')]: the parser of the
    library, which gives the tree or rejects the markup. *)
Variable BeautifulSoup : string -> result node.

(** One turn of the loop of [parse_brief_links] (lines 19-51). *)
Definition brief_item (item : node) (links : list dict) : result (list dict) :=
  match Soup.find (Soup.by_class ["h5"] "c-brief-list__item-title") item with
  | None => Ok links
  | Some title_element =>
      match Soup.find (Soup.tag_in ["a"]) title_element with
      | None => Ok links
      | Some a =>
          link ← Soup.getitem "href" a;
          let title := stripped_text a in
          let summary :=
            match Soup.find (Soup.by_class ["p"] "c-brief-list__item-text") item with
            | Some summary_element => stripped_text summary_element
            | None => ""
            end in
          let author :=
            match Soup.find (Soup.by_class ["div"] "c-brief-list__item-author") item with
            | Some author_element =>
                PyStr.strip (PyStr.replace "By" "" (Soup.text author_element))
            | None => ""
            end in
          let date :=
            match Soup.find (Soup.by_class ["div"] "c-brief-list__item-date") item with
            | Some date_element => stripped_text date_element
            | None => ""
            end in
          let categories :=
            match Soup.find (Soup.by_class ["div"] "c-brief-list__item-category") item with
            | Some categories_element =>
                stripped_text <$>
                  Soup.find_all (Soup.by_class ["a"] "c-articles__category")
                    categories_element
            | None => []
            end in
          Ok (links ++ [ <["link" := link]> (<["title" := PStr title]>
                         (<["summary" := PStr summary]> (<["author" := PStr author]>
                         (<["date" := PStr date]>
                         (<["categories" := PList categories]> ∅))))) ])
      end
  end.

(** The [try] block of [parse_brief_links]. *)
Definition parse_brief_links_try (html_content : string) : result (list dict) :=
  soup ← BeautifulSoup html_content;
  let brief_items := Soup.find_all (Soup.by_class ["div"] "c-brief-list__item") soup in
  for_each brief_item brief_items [].

(** [parse_brief_links(html_content, page_num)]: any exception of the
    block is caught, a message is printed and [[]] is returned. *)
Definition parse_brief_links (html_content : string) (page_num : nat)
  : result (list dict) :=
  match parse_brief_links_try html_content with
  | Ok links => Ok links
  | Raise _ => Ok []
  end.

(** *** The cascade of [parse_brief_content] (lines 62-115) *)

(** Lines 66-70: the article content div. *)
Definition article_content (soup : node) (content : string) : string :=
  match Soup.find (Soup.by_class ["div"] "c-article__content") soup with
  | Some content_element =>
      let paragraphs := Soup.find_all (Soup.tag_in ["p"]) content_element in
      if nonempty paragraphs then join_paragraphs paragraphs else content
  | None => content
  end.

(** Lines 75-79: the article body section. *)
Definition article_body (soup : node) (content : string) : string :=
  match Soup.find (Soup.by_class ["div"] "c-article__body") soup with
  | Some article_body =>
      let paragraphs := Soup.find_all (Soup.tag_in ["p"]) article_body in
      if nonempty paragraphs then join_paragraphs paragraphs else content
  | None => content
  end.

(** Lines 83-91: the main content area, its header, nav and aside
    elements taken out of the tree first. *)
Definition main_content (soup : node) (content : string) : node * string :=
  let is_main := Soup.by_attr ["main"] "id" "main-content" in
  match Soup.find is_main soup with
  | Some main_content =>
      let headers := Soup.tag_in ["header"; "nav"; "aside"] in
      let main_content := Soup.decompose_all headers main_content in
      let soup := Soup.in_place is_main (Soup.decompose_all headers) soup in
      let paragraphs := Soup.find_all (Soup.tag_in ["p"]) main_content in
      (soup, if nonempty paragraphs then join_paragraphs paragraphs else content)
  | None => (soup, content)
  end.

(** Line 96: [lambda c: c and ('article' in c or 'content' in c)]. *)
Definition article_like : node -> bool :=
  Soup.by_class_fn ["div"]
    (fun c => PyStr.contains "article" c || PyStr.contains "content" c).

(** Lines 97-101: the first div of the list with at least two
    paragraphs gives the content and ends the loop. *)
Fixpoint scan_article_divs (article_divs : list node) (content : string)
  : string :=
  match article_divs with
  | [] => content
  | div :: rest =>
      let paragraphs := Soup.find_all (Soup.tag_in ["p"]) div in
      if nonempty paragraphs && Nat.leb 2 (List.length paragraphs)
      then join_paragraphs paragraphs
      else scan_article_divs rest content
  end.

(** Lines 94-101. *)
Definition heuristic (soup : node) (content : string) : string :=
  scan_article_divs (Soup.find_all article_like soup) content.

(** Lines 63-115: the value of [content], and the tree as the
    [decompose] calls have left it. *)
Definition resolve (soup : node) : node * string :=
  let content := "" in
  let content := article_content soup content in
  let content :=
    if PyStr.is_empty content then article_body soup content else content in
  let '(soup, content) :=
    if PyStr.is_empty content then main_content soup content
    else (soup, content) in
  let content :=
    if PyStr.is_empty content then heuristic soup content else content in
  if PyStr.is_empty content then body_fallback soup content
  else (soup, content).

(** The [try] block of [parse_brief_content]. *)
Definition parse_brief_content_try (html_content : string) (brief_info : loc)
  : M loc :=
  soup ← lift (BeautifulSoup html_content);
  let '(_, content) := resolve soup in
  brief_info_copy ← dict_copy brief_info;
  _ ← dict_set brief_info_copy "content" (PStr content);
  mret brief_info_copy.

(** [parse_brief_content(html_content, brief_info)] *)
Definition parse_brief_content (html_content : string) (brief_info : loc)
  : M loc :=
  try_except (parse_brief_content_try html_content brief_info)
    (content_failed brief_info).

End Scraper.
End Credaily.

(** ** scrape_multifamilydive.py *)

Module Multifamilydive.
Section Scraper.

Variable BeautifulSoup : string -> result node.

Definition origin : string := "https://www.multifamilydive.com".

(** One turn of the loop of [parse_article_links] (lines 20-51). *)
Definition article_item (item : node) (links : list dict) : result (list dict) :=
  if Soup.class_list_has "feed-item-ad" item then Ok links
  else
    match Soup.find (Soup.by_class ["h3"] "feed__title") item with
    | None => Ok links
    | Some title_element =>
        match Soup.find (Soup.tag_in ["a"]) title_element with
        | None => Ok links
        | Some a =>
            href ← Soup.getitem "href" a;
            link ← as_str "startswith" href;
            let link :=
              if negb (PyStr.startswith "http" link) then origin +:+ link
              else link in
            let title := stripped_text a in
            let summary :=
              match Soup.find (Soup.by_class ["p"] "feed__description") item with
              | Some desc_element => stripped_text desc_element
              | None => ""
              end in
            let category :=
              match Soup.find (Soup.by_class ["span"] "label") item with
              | Some label_element => stripped_text label_element
              | None => ""
              end in
            Ok (links ++ [ <["link" := PStr link]> (<["title" := PStr title]>
                           (<["summary" := PStr summary]> (<["author" := PStr ""]>
                           (<["author_title" := PStr ""]> (<["date" := PStr ""]>
                           (<["categories" :=
                                PList (if PyStr.truthy category then [category] else [])]>
                           (<["source" := PStr "multifamilydive"]> ∅))))))) ])
        end
    end.

(** The [try] block of [parse_article_links]. *)
Definition parse_article_links_try (html_content : string) : result (list dict) :=
  soup ← BeautifulSoup html_content;
  let article_items := Soup.find_all (Soup.by_class ["li"] "feed__item") soup in
  for_each article_item article_items [].

(** [parse_article_links(html_content, page_num)] *)
Definition parse_article_links (html_content : string) (page_num : nat)
  : result (list dict) :=
  match parse_article_links_try html_content with
  | Ok links => Ok links
  | Raise _ => Ok []
  end.

(** *** [parse_article_content] *)

(** Line 67: the filter that finds the article container. *)
Definition container_filter (soup : node) : node -> bool :=
  match Soup.find (Soup.by_class ["article"] "brief") soup with
  | Some _ => Soup.by_class ["article"] "brief"
  | None => Soup.tag_in ["article"]
  end.

(** Lines 70-86: author and author title. *)
Definition set_author (article_container : node) (article_info_copy : loc)
  : M unit :=
  match or_else
          (Soup.find (Soup.by_class ["div"] "author-name-with-headshot") article_container)
          (Soup.find (Soup.by_class ["div"] "author-name") article_container) with
  | Some author_element =>
      _ ← match Soup.find (Soup.by_attr ["a"] "rel" "author") author_element with
          | Some author_link =>
              dict_set article_info_copy "author" (PStr (stripped_text author_link))
          | None => mret tt
          end;
      match Soup.find (Soup.by_class ["span"] "author-title") author_element with
      | Some author_title =>
          dict_set article_info_copy "author_title" (PStr (stripped_text author_title))
      | None => mret tt
      end
  | None =>
      match Soup.find (Soup.by_class ["div"] "article__byline") article_container with
      | Some byline_element =>
          dict_set article_info_copy "author" (PStr (stripped_text byline_element))
      | None => mret tt
      end
  end.

(** Lines 89-92: date. *)
Definition set_date (article_container : node) (article_info_copy : loc)
  : M unit :=
  match or_else
          (Soup.find (Soup.by_class ["div"] "date") article_container)
          (Soup.find (Soup.by_class ["span"] "published-info") article_container) with
  | Some date_element =>
      dict_set article_info_copy "date" (PStr (stripped_text date_element))
  | None => mret tt
  end.

(** Lines 95-102: categories, looked up in the whole page. *)
Definition set_categories (soup : node) (article_info_copy : loc) : M unit :=
  match Soup.find (Soup.by_class ["div"] "post-article-topics") soup with
  | Some categories_div =>
      let category_links := Soup.find_all (Soup.by_class ["a"] "topic") categories_div in
      if nonempty category_links then
        let categories :=
          (fun link => PyStr.rstrip_comma (stripped_text link)) <$> category_links in
        if nonempty categories
        then dict_set article_info_copy "categories" (PList categories)
        else mret tt
      else mret tt
  | None => mret tt
  end.

(** Line 108: [lambda c: c and ('ad' in c or 'widget' in c or 'hybrid-ad' in c)]. *)
Definition embedded_ad : node -> bool :=
  Soup.by_class_fn ["div"; "aside"]
    (fun c => PyStr.contains "ad" c || PyStr.contains "widget" c
              || PyStr.contains "hybrid-ad" c).

(** Lines 105-113: the article body inside the container, its embedded
    ads and widgets taken out of the tree first. *)
Definition container_body (soup article_container : node) (content : string)
  : node * string :=
  let is_body := Soup.by_class ["div"] "article-body" in
  match Soup.find is_body article_container with
  | Some body =>
      let body := Soup.decompose_all embedded_ad body in
      let soup :=
        Soup.in_place (container_filter soup)
          (Soup.in_place is_body (Soup.decompose_all embedded_ad)) soup in
      let paragraphs := Soup.find_all (Soup.tag_in ["p"]) body in
      (soup, if nonempty paragraphs then join_paragraphs paragraphs else content)
  | None => (soup, content)
  end.

(** Line 121: [lambda c: c and ('ad' in c or 'hybrid' in c)]. *)
Definition hybrid_ad : node -> bool :=
  Soup.by_class_fn ["div"]
    (fun c => PyStr.contains "ad" c || PyStr.contains "hybrid" c).

(** Lines 118-126: an article body anywhere in the page. *)
Definition any_article_body (soup : node) (content : string) : node * string :=
  let is_body := Soup.by_class ["div"] "article-body" in
  match Soup.find is_body soup with
  | Some article_body =>
      let article_body := Soup.decompose_all hybrid_ad article_body in
      let soup := Soup.in_place is_body (Soup.decompose_all hybrid_ad) soup in
      let paragraphs := Soup.find_all (Soup.tag_in ["p"]) article_body in
      (soup, if nonempty paragraphs then join_paragraphs paragraphs else content)
  | None => (soup, content)
  end.

(** Lines 131-139: the main element. *)
Definition main_content (soup : node) (content : string) : node * string :=
  let is_main := Soup.tag_in ["main"] in
  match Soup.find is_main soup with
  | Some main_content =>
      let chrome := Soup.tag_in ["header"; "nav"; "aside"] in
      let main_content := Soup.decompose_all chrome main_content in
      let soup := Soup.in_place is_main (Soup.decompose_all chrome) soup in
      let paragraphs := Soup.find_all (Soup.tag_in ["p"]) main_content in
      (soup, if nonempty paragraphs then join_paragraphs paragraphs else content)
  | None => (soup, content)
  end.

(** Lines 116-154: what follows the container block. *)
Definition fallbacks (soup : node) (content : string) : node * string :=
  let '(soup, content) :=
    if PyStr.is_empty content then any_article_body soup content
    else (soup, content) in
  if PyStr.is_empty content then
    let '(soup, content) := main_content soup content in
    if PyStr.is_empty content then body_fallback soup content
    else (soup, content)
  else (soup, content).

(** The [try] block of [parse_article_content]. *)
Definition parse_article_content_try (html_content : string) (article_info : loc)
  : M loc :=
  soup ← lift (BeautifulSoup html_content);
  article_info_copy ← dict_copy article_info;
  let content := "" in
  '(soup, content) ←
    match Soup.find (container_filter soup) soup with
    | Some article_container =>
        _ ← set_author article_container article_info_copy;
        _ ← set_date article_container article_info_copy;
        _ ← set_categories soup article_info_copy;
        mret (container_body soup article_container content)
    | None => mret (soup, content)
    end;
  let '(_, content) := fallbacks soup content in
  _ ← dict_set article_info_copy "content" (PStr content);
  mret article_info_copy.

(** [parse_article_content(html_content, article_info)] *)
Definition parse_article_content (html_content : string) (article_info : loc)
  : M loc :=
  try_except (parse_article_content_try html_content article_info)
    (content_failed article_info).

End Scraper.
End Multifamilydive.

(** ** scrape_multihousing.py *)

Module Multihousing.
Section Scraper.

Variable BeautifulSoup : string -> result node.

(** Lines 33-44: author and date from the post meta element. The date
    is the last child of the element when that child is a string. *)
Definition meta_author_date (item : node) : result (string * string) :=
  match Soup.find (Soup.by_class ["div"] "fl-post-meta") item with
  | None => Ok ("", "")
  | Some meta_element =>
      let author :=
        match Soup.find (Soup.tag_in ["a"]) meta_element with
        | Some author_element => stripped_text author_element
        | None => ""
        end in
      match Soup.find (Soup.by_class ["span"] "fl-post-meta-sep") meta_element with
      | None => Ok (author, "")
      | Some _ =>
          match last (Soup.contents meta_element) with
          | None => Raise IndexError
          | Some (NText date_text) => Ok (author, PyStr.strip date_text)
          | Some (NElem _ _ _) => Ok (author, "")
          end
      end
  end.

(** One turn of the loop of [parse_brief_links] (lines 19-67). *)
Definition brief_item (item : node) (links : list dict) : result (list dict) :=
  match Soup.find (Soup.by_class ["h2"] "fl-post-title") item with
  | None => Ok links
  | Some title_element =>
      match Soup.find (Soup.tag_in ["a"]) title_element with
      | None => Ok links
      | Some a =>
          link ← Soup.getitem "href" a;
          let title := stripped_text a in
          let summary :=
            match Soup.find (Soup.by_class ["div"] "fl-post-excerpt") item with
            | Some summary_element =>
                match Soup.find (Soup.tag_in ["p"]) summary_element with
                | Some p => stripped_text p
                | None => ""
                end
            | None => ""
            end in
          '(author, date) ← meta_author_date item;
          let categories :=
            match Soup.find (Soup.by_class ["div"] "cpe-categories") item with
            | Some categories_element =>
                stripped_text <$> Soup.find_all (Soup.tag_in ["a"]) categories_element
            | None => []
            end in
          image_url ←
            match Soup.find (Soup.by_class ["div"] "fl-post-image") item with
            | Some image_element =>
                match Soup.find (Soup.tag_in ["img"]) image_element with
                | Some img => Soup.getitem "src" img
                | None => Ok (PStr "")
                end
            | None => Ok (PStr "")
            end;
          Ok (links ++ [ <["link" := link]> (<["title" := PStr title]>
                         (<["summary" := PStr summary]> (<["author" := PStr author]>
                         (<["date" := PStr date]>
                         (<["categories" := PList categories]>
                         (<["image_url" := image_url]> ∅)))))) ])
      end
  end.

(** The [try] block of [parse_brief_links]. *)
Definition parse_brief_links_try (html_content : string) : result (list dict) :=
  soup ← BeautifulSoup html_content;
  let brief_items := Soup.find_all (Soup.by_class ["div"] "cpe-posts-category-page") soup in
  for_each brief_item brief_items [].

(** [parse_brief_links(html_content, page_num)] *)
Definition parse_brief_links (html_content : string) (page_num : nat)
  : result (list dict) :=
  match parse_brief_links_try html_content with
  | Ok links => Ok links
  | Raise _ => Ok []
  end.

(** *** [parse_brief_content] *)

(** [if not brief_info.get(key): el = main_content.find(...);
     if el: brief_info[key] = el.get_text().strip()]
    (lines 85-88, 91-94 and 97-100): the assignment is to the record
    that was passed in. *)
Definition fill_if_missing (brief_info : loc) (key : string)
  (filter : node -> bool) (main_content : node) : M unit :=
  v ← dict_get brief_info key;
  if negb (py_truthy v) then
    match Soup.find filter main_content with
    | Some element => dict_set brief_info key (PStr (stripped_text element))
    | None => mret tt
    end
  else mret tt.

(** Lines 103-106: categories. *)
Definition fill_categories (brief_info : loc) (main_content : node) : M unit :=
  match Soup.find (Soup.by_class ["div"] "post_categories") main_content with
  | Some categories_element =>
      v ← dict_get brief_info "categories";
      if negb (py_truthy v) then
        let category_links :=
          Soup.find_all (Soup.by_class ["a"] "post_cat") categories_element in
        dict_set brief_info "categories" (PList (stripped_text <$> category_links))
      else mret tt
  | None => mret tt
  end.

(** Lines 109-129: the paragraphs of the post content and of the rich
    text sections, empty ones left out. *)
Definition main_paragraphs (main_content : node) : list string :=
  let content_elements :=
    match Soup.find (Soup.by_class ["div"] "cmw_single_post_content") main_content with
    | Some post_content => [post_content]
    | None => []
    end
    ++ Soup.find_all (Soup.by_class ["div"] "fl-rich-text") main_content in
  List.filter PyStr.truthy
    (stripped_text <$>
       flat_map (Soup.find_all (Soup.tag_in ["p"])) content_elements).

(** The [try] block of [parse_brief_content]. *)
Definition parse_brief_content_try (html_content : string) (brief_info : loc)
  : M loc :=
  soup ← lift (BeautifulSoup html_content);
  let content := "" in
  content ←
    match Soup.find (Soup.by_attr ["div"] "id" "cmw_main_content") soup with
    | Some main_content =>
        _ ← fill_if_missing brief_info "title"
              (Soup.by_class ["h1"] "fl-heading") main_content;
        _ ← fill_if_missing brief_info "author"
              (Soup.by_class ["a"] "tdb-author-name") main_content;
        _ ← fill_if_missing brief_info "date"
              (Soup.by_class ["span"] "fl-post-info-date") main_content;
        _ ← fill_categories brief_info main_content;
        let paragraphs := main_paragraphs main_content in
        mret (if nonempty paragraphs then PyStr.join " " paragraphs else content)
    | None => mret content
    end;
  let '(_, content) :=
    if PyStr.is_empty content then body_fallback soup content
    else (soup, content) in
  brief_info_copy ← dict_copy brief_info;
  _ ← dict_set brief_info_copy "content" (PStr content);
  mret brief_info_copy.

(** [parse_brief_content(html_content, brief_info)] *)
Definition parse_brief_content (html_content : string) (brief_info : loc)
  : M loc :=
  try_except (parse_brief_content_try html_content brief_info)
    (content_failed brief_info).

End Scraper.
End Multihousing.

(** ** db_connector.py: the table of MultifamilyDive articles *)

Module Db.

(** A row of [multifamilydive_articles] (lines 45-57). [title] and
    [link] are [NOT NULL]; a nullable column holds [None] for [NULL]. *)
Record row := {
  row_id : nat;
  row_title : string;
  row_link : string;
  row_summary : option string;
  row_author : option string;
  row_author_title : option string;
  row_date : option string;
  row_categories : option string;
  row_content : option string;
  row_source : option string;
  row_created_at : Z
}.

(** The nine values bound to the statement, in the order of its columns. *)
Record params := {
  p_title : option string;
  p_link : option string;
  p_summary : option string;
  p_author : option string;
  p_author_title : option string;
  p_date : option string;
  p_categories : option string;
  p_content : option string;
  p_source : option string
}.

(** The connection: the committed rows, the rows as the open transaction
    sees them, the sequence of [id SERIAL] (never rolled back), the
    number of transactions ended so far, and whether a statement of the
    open transaction has failed: the server then refuses every statement
    until the transaction ends. A transaction that has changed no row
    and has not failed is not told apart from no transaction. *)
Record db := {
  committed : list row;
  pending : list row;
  next_id : nat;
  txn : nat;
  aborted : bool
}.

(** The connection after the server has refused a statement. *)
Definition failed (s : db) : db :=
  {| committed := committed s; pending := pending s; next_id := next_id s;
     txn := txn s; aborted := true |}.

(** The largest value of the sequence behind [id SERIAL]. *)
Definition max_serial : N := 2147483647.

(** A string with the character U+0000, which the driver does not bind. *)
Fixpoint has_nul (s : string) : bool :=
  match s with
  | EmptyString => false
  | String c s' => Ascii.eqb c Ascii.zero || has_nul s'
  end.

Definition has_link (l : string) (r : row) : bool := String.eqb (row_link r) l.

(** [DO UPDATE SET ...]: every column of the statement but [link] takes
    the new value; [id] and [created_at] are not in the list. *)
Definition do_update (title : string) (p : params) (r : row) : row :=
  {| row_id := row_id r;
     row_title := title;
     row_link := row_link r;
     row_summary := p_summary p;
     row_author := p_author p;
     row_author_title := p_author_title p;
     row_date := p_date p;
     row_categories := p_categories p;
     row_content := p_content p;
     row_source := p_source p;
     row_created_at := row_created_at r |}.

Definition new_row (id : nat) (now : Z) (title link : string) (p : params) : row :=
  {| row_id := id;
     row_title := title;
     row_link := link;
     row_summary := p_summary p;
     row_author := p_author p;
     row_author_title := p_author_title p;
     row_date := p_date p;
     row_categories := p_categories p;
     row_content := p_content p;
     row_source := p_source p;
     row_created_at := now |}.

(** [INSERT ... ON CONFLICT (link) DO UPDATE SET ...] on the rows. *)
Definition insert_on_conflict (id : nat) (now : Z) (title link : string)
  (p : params) (rows : list row) : list row :=
  if existsb (has_link link) rows
  then (fun r => if has_link link r then do_update title p r else r) <$> rows
  else rows ++ [new_row id now title link p].

(** The characters of a string, as [','.join(s)] sees a string argument. *)
Fixpoint chars (s : string) : list string :=
  match s with
  | EmptyString => []
  | String c s' => String c "" :: chars s'
  end.

(** Line 97: [','.join(article.get('categories', []))]. *)
Definition join_categories (article : dict) : result string :=
  match default (PList []) (article !! "categories") with
  | PList l => Ok (PyStr.join "," l)
  | PStr s => Ok (PyStr.join "," (chars s))
  | PNone => Raise TypeError
  end.

Section Connector.

(** [CURRENT_TIMESTAMP] of the n-th transaction of the connection. *)
Variable CURRENT_TIMESTAMP : nat -> Z.

(** What the driver and the server make of a Python list bound to a
    [TEXT] column. The scrapers bind strings only. *)
Variable adapt_list : list string -> result (option string).

(** What else the server checks of the values of a row: the index
    entry of [link], which is refused above 2704 bytes (a long link
    that does not compress), and the size of a field. *)
Variable server_takes : params -> bool.

(** A Python value as a statement parameter: [None] is [NULL], and the
    driver raises [ValueError] for a string with a NUL character. *)
Definition adapt (v : pyval) : result (option string) :=
  match v with
  | PNone => Ok None
  | PStr s => if has_nul s then Raise ValueError else Ok (Some s)
  | PList l => adapt_list l
  end.

(** [article.get(k, dflt)] as a parameter. *)
Definition param (article : dict) (k dflt : string) : result (option string) :=
  adapt (default (PStr dflt) (article !! k)).

(** Lines 97 and 114-124: the tuple of parameters. *)
Definition statement_params (article : dict) : result params :=
  categories ← join_categories article;
  title ← param article "title" "";
  link ← param article "link" "";
  summary ← param article "summary" "";
  author ← param article "author" "";
  author_title ← param article "author_title" "";
  date ← param article "date" "";
  categories ← adapt (PStr categories);
  content ← param article "content" "";
  source ← param article "source" "multifamilydive";
  Ok {| p_title := title; p_link := link; p_summary := summary;
        p_author := author; p_author_title := author_title; p_date := date;
        p_categories := categories; p_content := content;
        p_source := source |}.

(** [self.cursor.execute(insert_query, ...)] with the parameters bound:
    a failed transaction refuses the statement; otherwise the sequence
    gives the next id, unless it is used up, the [NOT NULL] columns and
    the sizes are checked, and the rows of the transaction are changed.
    A statement the server refuses leaves the transaction failed. *)
Definition execute (p : params) : ST db unit :=
  fun s =>
    if aborted s then (Raise InFailedSqlTransaction, s)
    else if (max_serial <? N.of_nat (next_id s))%N
    then (Raise SequenceLimitExceeded, failed s)
    else
      let id := next_id s in
      let s := {| committed := committed s; pending := pending s;
                  next_id := S (next_id s); txn := txn s;
                  aborted := false |} in
      match p_title p, p_link p with
      | None, _ => (Raise (NotNullViolation "title"), failed s)
      | Some _, None => (Raise (NotNullViolation "link"), failed s)
      | Some title, Some link =>
          if server_takes p then
            (Ok tt,
             {| committed := committed s;
                pending := insert_on_conflict id (CURRENT_TIMESTAMP (txn s))
                             title link p (pending s);
                next_id := next_id s; txn := txn s; aborted := false |})
          else (Raise ProgramLimitExceeded, failed s)
      end.

(** [self.conn.commit()]: the server ends a failed transaction by
    rolling it back. *)
Definition commit : ST db unit :=
  fun s =>
    let rows := if aborted s then committed s else pending s in
    (Ok tt, {| committed := rows; pending := rows;
               next_id := next_id s; txn := S (txn s); aborted := false |}).

(** [self.conn.rollback()] *)
Definition rollback : ST db unit :=
  fun s => (Ok tt, {| committed := committed s; pending := committed s;
                      next_id := next_id s; txn := S (txn s);
                      aborted := false |}).

(** [insert_multifamilydive_article(article)] (lines 93-130) *)
Definition insert_multifamilydive_article (article : dict) : ST db bool :=
  try_except
    (p ← lift (statement_params article);
     _ ← execute p;
     _ ← commit;
     mret true)
    (fun e => _ ← rollback; mret false).

(** The loop of [insert_multifamilydive_articles] (lines 170-172). *)
Fixpoint insert_loop (articles : list dict) (success_count : nat) : ST db nat :=
  match articles with
  | [] => mret success_count
  | article :: rest =>
      insert_multifamilydive_article article ≫= fun ok : bool =>
      insert_loop rest (if ok then (success_count + 1)%nat else success_count)
  end.

(** [insert_multifamilydive_articles(articles)] (lines 167-175) *)
Definition insert_multifamilydive_articles (articles : list dict) : ST db nat :=
  insert_loop articles 0.

End Connector.

(** Modelled from the spec: the reading back of the stored categories,
    which the repository does not contain ("stored and re-read", the
    stored string split on the delimiter). It is [s.split(',')]: the
    pieces between the commas, empty pieces included; the empty string
    gives one empty piece. *)
Fixpoint split_categories (s : string) : list string :=
  match s with
  | EmptyString => [""]
  | String c s' =>
      if Ascii.eqb c ","
      then "" :: split_categories s'
      else match split_categories s' with
           | [] => [String c ""]
           | w :: ws => String c w :: ws
           end
  end.

End Db.

(** ** qdrant_embedding.py: reading the table, and the text to embed *)

Module Embedding.

(** The dict [get_articles] makes of a row (lines 109-119): its keys
    are fixed, [id] is a number and the other values are strings. *)
Record article := {
  id : nat;
  title : string;
  summary : string;
  content : string;
  link : string;
  author : string;
  date : string;
  categories : string;
  source : string
}.

(** [row[i] or ""] on a nullable column. *)
Definition or_empty (v : option string) : string :=
  match v with
  | Some s => if PyStr.is_empty s then "" else s
  | None => ""
  end.

Definition article_of (source : string) (r : Db.row) : article :=
  {| id := Db.row_id r;
     title := or_empty (Some (Db.row_title r));
     summary := or_empty (Db.row_summary r);
     content := or_empty (Db.row_content r);
     link := or_empty (Some (Db.row_link r));
     author := or_empty (Db.row_author r);
     date := or_empty (Db.row_date r);
     categories := or_empty (Db.row_categories r);
     source := source |}.

(** [ORDER BY id] *)
Fixpoint insert_by_id (r : Db.row) (sorted : list Db.row) : list Db.row :=
  match sorted with
  | [] => [r]
  | x :: rest =>
      if Nat.leb (Db.row_id r) (Db.row_id x) then r :: x :: rest
      else x :: insert_by_id r rest
  end.

Definition order_by_id (rows : list Db.row) : list Db.row :=
  foldr insert_by_id [] rows.

(** The [bigint] values: the server reads [LIMIT] and [OFFSET] as one. *)
Definition max_bigint : Z := 9223372036854775807.
Definition min_bigint : Z := -9223372036854775808.

Definition is_bigint (x : Z) : bool :=
  ((min_bigint <=? x) && (x <=? max_bigint))%Z.

(** [self.db.cursor.execute(query, (limit, offset))] and [fetchall()],
    for [SELECT ... FROM multifamilydive_articles ORDER BY id LIMIT %s
    OFFSET %s] on a connection that is open. A failed transaction
    refuses the statement; the server refuses a limit or an offset that
    is no [bigint], then a negative offset, then a negative limit, and
    the transaction has then failed. *)
Definition select_page (limit offset : Z) : ST Db.db (list Db.row) :=
  fun s =>
    if Db.aborted s then (Raise InFailedSqlTransaction, s)
    else if negb (is_bigint limit && is_bigint offset)
    then (Raise NumericValueOutOfRange, Db.failed s)
    else if (offset <? 0)%Z
    then (Raise InvalidRowCountInResultOffsetClause, Db.failed s)
    else if (limit <? 0)%Z
    then (Raise InvalidRowCountInLimitClause, Db.failed s)
    else
      (Ok (take (Z.to_nat limit)
             (drop (Z.to_nat offset) (order_by_id (Db.pending s)))), s).

(** [get_articles('multifamilydive', limit, offset)] (lines 84-125): the
    rows of the page as dicts, [[]] when the statement raised. Nothing
    ends the transaction. *)
Definition get_articles (limit offset : Z) : ST Db.db (list article) :=
  try_except
    (results ← select_page limit offset;
     mret (article_of "multifamilydive" <$> results))
    (fun e => mret []).

(** Lines 137-140 of [create_embedding]: the text sent to the provider,
    [text[:max_tokens * 4]] when the text is longer than that. *)
Definition max_tokens : N := 8000.

Fixpoint prefix_of_length (n : nat) (text : string) : string :=
  match n, text with
  | S n', String c text' => String c (prefix_of_length n' text')
  | _, _ => ""
  end.

Definition embedding_input (text : string) : string :=
  if (max_tokens * 4 <? N.of_nat (String.length text))%N
  then prefix_of_length (N.to_nat (max_tokens * 4)) text
  else text.

(** The payload of a point (lines 168-177): the article without its
    content. *)
Record payload := {
  payload_article_id : nat;
  payload_title : string;
  payload_summary : string;
  payload_link : string;
  payload_author : string;
  payload_date : string;
  payload_categories : string;
  payload_source : string
}.

(** [models.PointStruct(id=..., vector=..., payload=...)] *)
Record point (float : Type) := {
  point_id : nat;
  point_vector : list float;
  point_payload : payload
}.
Arguments point_id {float} _.
Arguments point_vector {float} _.
Arguments point_payload {float} _.

Section Processor.

(** The two services, whose state is [World]: the embedding of a text
    ([self.client.embeddings.create(...)] and [response.data[0].embedding]
    of it), and [self.qdrant.upsert(collection_name, points)]. Both may
    raise. *)
Variable float : Type.
Variable World : Type.
Variable embeddings_create : string -> ST World (list float).
Variable qdrant_upsert : string -> list (point float) -> ST World unit.

(** The processor has the connection and the services. *)
Definition on_db {A} (m : ST Db.db A) : ST (Db.db * World) A :=
  fun sw => let '(r, s) := m sw.1 in (r, (s, sw.2)).

Definition on_services {A} (m : ST World A) : ST (Db.db * World) A :=
  fun sw => let '(r, w) := m sw.2 in (r, (sw.1, w)).

(** [create_embedding(text)] (lines 127-153): [None] on any exception. *)
Definition create_embedding (text : string) : ST World (option (list float)) :=
  try_except
    (embedding ← embeddings_create (embedding_input text);
     mret (Some embedding))
    (fun e => mret None).

(** [save_embedding_to_qdrant(article, embedding, collection_name)]
    (lines 155-193) *)
Definition save_embedding_to_qdrant (a : article) (embedding : list float)
  (collection_name : string) : ST World bool :=
  try_except
    (let payload :=
       {| payload_article_id := id a; payload_title := title a;
          payload_summary := summary a; payload_link := link a;
          payload_author := author a; payload_date := date a;
          payload_categories := categories a; payload_source := source a |} in
     _ ← qdrant_upsert collection_name
           [ {| point_id := id a; point_vector := embedding;
                point_payload := payload |} ];
     mret true)
    (fun e => mret false).

(** The [for] loop of [process_articles] (lines 222-237). *)
Fixpoint process_batch (articles : list article) (collection_name : string)
  (processed_count : Z) : ST World Z :=
  match articles with
  | [] => mret processed_count
  | a :: rest =>
      let text := title a +:+ " " +:+ summary a in
      create_embedding text ≫= fun embedding : option (list float) =>
      match embedding with
      | Some (x :: v) =>
          save_embedding_to_qdrant a (x :: v) collection_name ≫= fun ok : bool =>
          process_batch rest collection_name
            (if ok then (processed_count + 1)%Z else processed_count)
      | Some [] | None => process_batch rest collection_name processed_count
      end
  end.

(** The [while] loop of [process_articles] (lines 214-242), run for at
    most [fuel] turns: [None] when the turns are used up. *)
Fixpoint process_loop (fuel : nat) (collection_name : string)
  (limit batch_size offset processed_count : Z)
  : ST (Db.db * World) (option Z) :=
  match fuel with
  | O => mret None
  | S fuel =>
      if (processed_count <? limit)%Z then
        let batch_limit := Z.min batch_size (limit - processed_count) in
        on_db (get_articles batch_limit offset) ≫= fun articles : list article =>
        if negb (nonempty articles) then mret (Some processed_count)
        else
          on_services (process_batch articles collection_name processed_count)
            ≫= fun processed_count : Z =>
          let offset := (offset + Z.of_nat (List.length articles))%Z in
          if (Z.of_nat (List.length articles) <? batch_limit)%Z
          then mret (Some processed_count)
          else process_loop fuel collection_name limit batch_size offset
                 processed_count
      else mret (Some processed_count)
  end.

(** [process_articles('multifamilydive', limit, batch_size)] (lines
    195-245). The source is a key of [self.collections], whose value
    for it is ["multifamilydive_articles"]. *)
Definition process_articles (fuel : nat) (limit batch_size : Z)
  : ST (Db.db * World) (option Z) :=
  process_loop fuel "multifamilydive_articles" limit batch_size 0 0.

End Processor.

End Embedding.

(** ** Vocabulary of the properties *)

(** [c = d.copy(); c['content'] = v; return c]: the tail of every content
    parser, and the whole of the [except] block. *)
Definition copy_with_content (d : loc) (content : string) : M loc :=
  c ← dict_copy d; _ ← dict_set c "content" (PStr content); mret c.

(** [m] always returns [a], and what it does to the heap is to change
    the dict at [c] by [f]. *)
Definition acts_on {A} (c : loc) (m : M A) (f : dict -> dict) (a : A) : Prop :=
  forall h : heap, is_Some (h !! c) -> m h = (Ok a, <[c := f (deref h c)]> h).

(** [d[k] = v] when the page has a value [v], nothing otherwise. *)
Definition overwrite (k : string) (v : option pyval) (d : dict) : dict :=
  match v with Some v => <[k := v]> d | None => d end.

(** The same, only when the dict has no value that counts as true. *)
Definition fill (k : string) (v : option pyval) (d : dict) : dict :=
  if py_truthy (d !! k) then d else overwrite k v d.

(** The field of the record after [overwrite]. *)
Definition from_detail (v old : option pyval) : option pyval :=
  match v with Some _ => v | None => old end.

(** *** Listing entries *)

(** The anchor inside the title element of a listing entry, when the
    entry has a title element and the title element has an anchor. *)
Definition title_anchor (title_filter : node -> bool) (item : node)
  : option node :=
  match Soup.find title_filter item with
  | Some title_element => Soup.find (Soup.tag_in ["a"]) title_element
  | None => None
  end.

(** The same for MultifamilyDive, where an advertisement is no entry. *)
Definition article_anchor (item : node) : option node :=
  if Soup.class_list_has "feed-item-ad" item then None
  else title_anchor (Soup.by_class ["h3"] "feed__title") item.

(** The link MultifamilyDive makes of an [href]. *)
Definition absolute_link (href : string) : string :=
  if PyStr.startswith "http" href then href
  else "https://www.multifamilydive.com" +:+ href.

(** The record [r] has its link and its title from the anchor [a]. *)
Definition anchor_record (a : node) (r : dict) : Prop :=
  exists href,
    Soup.get "href" a = Some href
    /\ r !! "link" = Some (Soup.attr_value href)
    /\ r !! "title" = Some (PStr (stripped_text a)).

Definition article_anchor_record (a : node) (r : dict) : Prop :=
  exists href,
    Soup.get "href" a = Some (AStr href)
    /\ r !! "link" = Some (PStr (absolute_link href))
    /\ r !! "title" = Some (PStr (stripped_text a)).

(** A MultifamilyDive listing page with two entries, of which one
    carries the advertisement marker. *)
Definition two_entries_one_ad (soup : node) : Prop :=
  exists e1 e2,
    Soup.find_all (Soup.by_class ["li"] "feed__item") soup = [e1; e2]
    /\ xorb (Soup.class_list_has "feed-item-ad" e1)
            (Soup.class_list_has "feed-item-ad" e2) = true.

(** The fields the detail pages may supply. *)
Definition metadata_keys : list string :=
  ["author"; "author_title"; "date"; "categories"].

(** "Listing-page data takes precedence when present", said of a content
    parser: a metadata field that has a non-empty value in the record
    passed in has the same value in the record returned. *)
Definition keeps_listing_values (parse : string -> loc -> M loc) : Prop :=
  forall html info (h : heap) (d : dict) key v r h',
    h !! info = Some d ->
    key ∈ metadata_keys ->
    d !! key = Some v ->
    py_truthy (Some v) = true ->
    parse html info h = (Ok r, h') ->
    deref h' r !! key = Some v.

(** *** What a MultifamilyDive article page supplies *)

Module MfdDetail.

Definition author_element (container : node) : option node :=
  or_else
    (Soup.find (Soup.by_class ["div"] "author-name-with-headshot") container)
    (Soup.find (Soup.by_class ["div"] "author-name") container).

(** The author: the author link of the author element, or the byline
    when there is no author element. *)
Definition author (container : node) : option pyval :=
  match author_element container with
  | Some el =>
      (fun a => PStr (stripped_text a))
        <$> Soup.find (Soup.by_attr ["a"] "rel" "author") el
  | None =>
      (fun b => PStr (stripped_text b))
        <$> Soup.find (Soup.by_class ["div"] "article__byline") container
  end.

Definition author_title (container : node) : option pyval :=
  match author_element container with
  | Some el =>
      (fun t => PStr (stripped_text t))
        <$> Soup.find (Soup.by_class ["span"] "author-title") el
  | None => None
  end.

Definition date (container : node) : option pyval :=
  (fun d => PStr (stripped_text d))
    <$> or_else (Soup.find (Soup.by_class ["div"] "date") container)
          (Soup.find (Soup.by_class ["span"] "published-info") container).

(** The topics of the page, when it has any. *)
Definition categories (soup : node) : option pyval :=
  match Soup.find (Soup.by_class ["div"] "post-article-topics") soup with
  | Some topics =>
      match Soup.find_all (Soup.by_class ["a"] "topic") topics with
      | [] => None
      | links =>
          Some (PList ((fun l => PyStr.rstrip_comma (stripped_text l)) <$> links))
      end
  | None => None
  end.

(** The record after the metadata of the page has been written to it. *)
Definition apply (soup container : node) (d : dict) : dict :=
  overwrite "categories" (categories soup)
    (overwrite "date" (date container)
       (overwrite "author_title" (author_title container)
          (overwrite "author" (author container) d))).

(** The same for a page, which may have no article container. *)
Definition record (soup : node) (d : dict) : dict :=
  match Soup.find (Multifamilydive.container_filter soup) soup with
  | Some container => apply soup container d
  | None => d
  end.

End MfdDetail.

(** *** What a Multihousing article page supplies *)

Module MhDetail.

Definition field (filter : node -> bool) (main_content : node) : option pyval :=
  (fun e => PStr (stripped_text e)) <$> Soup.find filter main_content.

Definition categories (main_content : node) : option pyval :=
  (fun el => PList (stripped_text
                      <$> Soup.find_all (Soup.by_class ["a"] "post_cat") el))
    <$> Soup.find (Soup.by_class ["div"] "post_categories") main_content.

(** The record after the page has filled in what it lacked. *)
Definition apply (main_content : node) (d : dict) : dict :=
  fill "categories" (categories main_content)
    (fill "date" (field (Soup.by_class ["span"] "fl-post-info-date") main_content)
       (fill "author" (field (Soup.by_class ["a"] "tdb-author-name") main_content)
          (fill "title" (field (Soup.by_class ["h1"] "fl-heading") main_content)
             d))).

(** The same for a page, which may have no main content div. *)
Definition record (soup : node) (d : dict) : dict :=
  match Soup.find (Soup.by_attr ["div"] "id" "cmw_main_content") soup with
  | Some main_content => apply main_content d
  | None => d
  end.

End MhDetail.

(** *** Sample pages and records *)

Module Sample.

(** [<tag class="...">children</tag>] *)
Definition el (tag : string) (classes : list string) (children : list node)
  : node :=
  NElem tag (match classes with [] => ∅ | _ => {[ "class" := AList classes ]} end)
    children.

(** [<tag id="...">children</tag>] *)
Definition el_id (tag id : string) (children : list node) : node :=
  NElem tag {[ "id" := AStr id ]} children.

(** [<a href="...">text</a>] *)
Definition anchor (href text : string) : node :=
  NElem "a" {[ "href" := AStr href ]} [NText text].

(** The root object of a parsed page. *)
Definition document (children : list node) : node :=
  NElem "[document]" ∅ children.

(** A parser that knows one page. *)
Definition parser_of (soup : node) : string -> result node := fun _ => Ok soup.

(** A parser that rejects the markup. *)
Definition rejecting_parser : string -> result node :=
  fun _ => Raise ParserRejectedMarkup.

(** A partial record as the listing pages give it, stored at location 0. *)
Definition partial_record : dict :=
  <["link" := PStr "https://www.credaily.com/briefs/rates/"]>
    (<["title" := PStr "Rates"]> (<["summary" := PStr ""]>
    (<["author" := PStr ""]> (<["date" := PStr ""]>
    (<["categories" := PList []]> ∅))))).

Definition heap_of (d : dict) : heap := {[ 0 := d ]}.

(** A CRE Daily page whose article content div has text, and which has
    a long paragraph outside of it that only the last resort would see. *)
Definition article_div : node :=
  el "div" ["c-article__content"] [el "p" [] [NText " Rates rose again. "]].

Definition credaily_page : node :=
  document [el "html" [] [el "body" []
    [article_div;
     el "p" [] [NText "This paragraph is outside of the article container."]]]].

(** A page with no known container, where a div with a loosely matching
    class holds one paragraph (a teaser). *)
Definition teaser_page : node :=
  document [el "html" [] [el "body" []
    [el "div" ["article-teaser"] [el "p" [] [NText "Read more"]]]]].

(** The same with two paragraphs. *)
Definition story_div : node :=
  el "div" ["post-content"]
    [el "p" [] [NText "Rents fell."]; el "p" [] [NText "Sales rose."]].

Definition story_page : node :=
  document [el "html" [] [el "body" [] [story_div]]].

(** A Multihousing article page that names its author. *)
Definition multihousing_page : node :=
  document [el "html" [] [el "body" []
    [el_id "div" "cmw_main_content"
       [el "a" ["tdb-author-name"] [NText "Jane Doe"];
        el "div" ["cmw_single_post_content"]
          [el "p" [] [NText "Occupancy held steady."]]]]]].

(** A Multihousing listing entry without author: the author is [""]. *)
Definition multihousing_record : dict :=
  <["link" := PStr "https://www.multihousingnews.com/occupancy/"]>
    (<["title" := PStr "Occupancy"]> (<["summary" := PStr ""]>
    (<["author" := PStr ""]> (<["date" := PStr "May 2, 2025"]>
    (<["categories" := PList ["News"]]> (<["image_url" := PStr ""]> ∅)))))).

(** A MultifamilyDive article page with two topics. *)
Definition multifamilydive_page : node :=
  document [el "html" [] [el "body" []
    [el "article" ["brief"]
       [el "div" ["article-body"] [el "p" [] [NText "Lending slowed."]]];
     el "div" ["post-article-topics"]
       [el "a" ["topic"] [NText "Finance,"]; el "a" ["topic"] [NText "Policy"]]]]].

(** A MultifamilyDive listing entry with a label: one category. *)
Definition multifamilydive_record : dict :=
  <["link" := PStr "https://www.multifamilydive.com/news/lending/"]>
    (<["title" := PStr "Lending"]> (<["summary" := PStr ""]>
    (<["author" := PStr ""]> (<["author_title" := PStr ""]>
    (<["date" := PStr ""]> (<["categories" := PList ["Deep Dive"]]>
    (<["source" := PStr "multifamilydive"]> ∅))))))).

(** A CRE Daily listing page whose second entry has an anchor without
    [href]. *)
Definition broken_listing : node :=
  document [el "html" [] [el "body" []
    [el "div" ["c-brief-list__item"]
       [el "h5" ["c-brief-list__item-title"]
          [anchor "https://www.credaily.com/briefs/rates/" "Rates"]];
     el "div" ["c-brief-list__item"]
       [el "h5" ["c-brief-list__item-title"] [el "a" [] [NText "No link"]]]]]].

(** A CRE Daily listing page with two entries, the second without title
    element. *)
Definition credaily_listing : node :=
  document [el "html" [] [el "body" []
    [el "div" ["c-brief-list__item"]
       [el "h5" ["c-brief-list__item-title"]
          [anchor "https://www.credaily.com/briefs/rates/" " Rates "];
        el "div" ["c-brief-list__item-author"] [NText "By Ann Lee"]];
     el "div" ["c-brief-list__item"]
       [el "p" ["c-brief-list__item-text"] [NText "Sponsored"]]]]].

(** A MultifamilyDive listing page with two entries: an advertisement
    and an article whose link is relative. *)
Definition ad_entry : node :=
  el "li" ["feed__item"; "feed-item-ad"]
    [el "h3" ["feed__title"] [anchor "https://ads.example.com/" "Buy now"]].

Definition article_entry : node :=
  el "li" ["feed__item"]
    [el "h3" ["feed__title"] [anchor "/news/lending/" " Lending "];
     el "span" ["label"] [NText "Deep Dive"]].

Definition multifamilydive_listing : node :=
  document [el "html" [] [el "body" [] [el "ul" [] [ad_entry; article_entry]]]].

(** The same page, the article entry without title element. *)
Definition untitled_entry : node :=
  el "li" ["feed__item"] [el "p" ["feed__description"] [NText "Lending"]].

Definition untitled_listing : node :=
  document [el "html" [] [el "body" [] [el "ul" [] [ad_entry; untitled_entry]]]].

End Sample.

(** *** The table *)

(** The rows with a given link. *)
Definition rows_with (l : string) (rows : list Db.row) : list Db.row :=
  List.filter (Db.has_link l) rows.

(** The state of a connection between two calls: the [UNIQUE]
    constraint on [link] holds, and no transaction is open, failed or
    not. *)
Definition wf (s : Db.db) : Prop :=
  NoDup (Db.row_link <$> Db.committed s)
  /\ Db.pending s = Db.committed s
  /\ Db.aborted s = false.

(** The sequence of ids has [n] values left. *)
Definition has_room (s : Db.db) (n : nat) : Prop :=
  (N.of_nat (Db.next_id s) + N.of_nat n <= Db.max_serial + 1)%N.

(** The connection after a call that stored [rows], and after a call
    that was rolled back with the sequence at [n]. *)
Definition stored_state (s : Db.db) (rows : list Db.row) : Db.db :=
  {| Db.committed := rows; Db.pending := rows;
     Db.next_id := S (Db.next_id s); Db.txn := S (Db.txn s);
     Db.aborted := false |}.

Definition rolled_back_state (s : Db.db) (n : nat) : Db.db :=
  {| Db.committed := Db.committed s; Db.pending := Db.committed s;
     Db.next_id := n; Db.txn := S (Db.txn s); Db.aborted := false |}.

(** The records whose statement the server accepts: the parameters can
    be built and bound, [title] and [link] are not [NULL], and the
    server takes the values. *)
Definition accepted (adapt_list : list string -> result (option string))
  (server_takes : Db.params -> bool) (article : dict) : bool :=
  match Db.statement_params adapt_list article with
  | Ok p =>
      match Db.p_title p, Db.p_link p with
      | Some _, Some _ => server_takes p
      | _, _ => false
      end
  | Raise _ => false
  end.

(** The server takes the values of a record. *)
Definition taken (adapt_list : list string -> result (option string))
  (server_takes : Db.params -> bool) (article : dict) : Prop :=
  forall p, Db.statement_params adapt_list article = Ok p -> server_takes p = true.

(** The link a record is stored under. *)
Definition stored_link (adapt_list : list string -> result (option string))
  (article : dict) : option string :=
  match Db.statement_params adapt_list article with
  | Ok p => Db.p_link p
  | Raise _ => None
  end.

(** What a column holds of a field of the record: the string of the
    field; the default when the record has no such key; [NULL] for
    [None]; what the driver makes of a list. *)
Definition field_holds (adapt_list : list string -> result (option string))
  (article : dict) (k dflt : string) (column : option string) : Prop :=
  match article !! k with
  | None => column = Some dflt
  | Some (PStr s) => column = Some s
  | Some PNone => column = None
  | Some (PList l) => adapt_list l = Ok column
  end.

(** The same for the categories: the list joined by commas, the empty
    string without the key, and for a string its characters joined by
    commas. *)
Definition categories_hold (article : dict) (column : option string) : Prop :=
  match article !! "categories" with
  | None => column = Some ""
  | Some (PList l) => column = Some (PyStr.join "," l)
  | Some (PStr s) =>
      column
      = Some (PyStr.join "," ((fun c => String c "") <$> list_ascii_of_string s))
  | Some PNone => False
  end.

(** What a row holds after a record has been upserted: the values of the
    fields of the record. *)
Definition row_holds (adapt_list : list string -> result (option string))
  (article : dict) (row : Db.row) : Prop :=
  field_holds adapt_list article "title" "" (Some (Db.row_title row))
  /\ field_holds adapt_list article "link" "" (Some (Db.row_link row))
  /\ field_holds adapt_list article "summary" "" (Db.row_summary row)
  /\ field_holds adapt_list article "author" "" (Db.row_author row)
  /\ field_holds adapt_list article "author_title" "" (Db.row_author_title row)
  /\ field_holds adapt_list article "date" "" (Db.row_date row)
  /\ categories_hold article (Db.row_categories row)
  /\ field_holds adapt_list article "content" "" (Db.row_content row)
  /\ field_holds adapt_list article "source" "multifamilydive"
       (Db.row_source row).

(** A category without the delimiter. *)
Definition no_comma (s : string) : Prop := PyStr.contains "," s = false.

(** Sample records for the table. *)
Module SampleDb.

Definition clock (n : nat) : Z := (1700000000 + Z.of_nat n)%Z.

(** A list bound to a text column is stored as its array literal; no
    sample record has one. *)
Definition adapt_list (l : list string) : result (option string) :=
  Ok (Some ("{" +:+ PyStr.join "," l +:+ "}")).

(** No sample record is too large for the server. *)
Definition server_takes (p : Db.params) : bool := true.

Definition empty : Db.db :=
  {| Db.committed := []; Db.pending := []; Db.next_id := 1; Db.txn := 0;
     Db.aborted := false |}.

Definition article (link title content : string) (categories : list string)
  : dict :=
  <["link" := PStr link]> (<["title" := PStr title]>
    (<["summary" := PStr ""]> (<["author" := PStr ""]>
    (<["author_title" := PStr ""]> (<["date" := PStr ""]>
    (<["categories" := PList categories]> (<["content" := PStr content]>
    (<["source" := PStr "multifamilydive"]> ∅)))))))).

Definition first_scrape : dict :=
  article "https://www.multifamilydive.com/news/lending/" "Lending"
    "Lending slowed." ["Finance"].

Definition second_scrape : dict :=
  article "https://www.multifamilydive.com/news/lending/" "Lending (updated)"
    "Lending slowed again." ["Finance"; "Policy"].

(** A record whose title is [None]: the [NOT NULL] constraint rejects it. *)
Definition bad_article : dict :=
  <["title" := PNone]> (article "https://www.multifamilydive.com/news/3/" "" "" []).

Definition batch : list dict :=
  [article "https://www.multifamilydive.com/news/1/" "One" "1" [];
   article "https://www.multifamilydive.com/news/2/" "Two" "2" [];
   bad_article;
   article "https://www.multifamilydive.com/news/4/" "Four" "4" [];
   article "https://www.multifamilydive.com/news/5/" "Five" "5" []].

End SampleDb.

(** *** The tree *)

(** A filter that looks at the tag and the attributes of an element
    only, as the filters of the scrapers do. *)
Definition shallow (P : node -> bool) : Prop :=
  forall t a cs cs', P (NElem t a cs) = P (NElem t a cs').

(** The name of an element. *)
Definition tag_name (n : node) : option string :=
  match n with NText _ => None | NElem t _ _ => Some t end.

(** A page without any paragraph. *)
Definition no_paragraph (n : node) : Prop :=
  Soup.find_all (Soup.tag_in ["p"]) n = [].

(** *** The content of a page *)

Module MfdContent.
(** The content the MultifamilyDive parser finds in a page (lines 64-154). *)
Definition block (soup : node) : node * string :=
  match Soup.find (Multifamilydive.container_filter soup) soup with
  | Some article_container => Multifamilydive.container_body soup article_container ""
  | None => (soup, "")
  end.

Definition content (soup : node) : string :=
  let '(soup', content) := block soup in
  (Multifamilydive.fallbacks soup' content).2.
End MfdContent.

Module MhContent.
(** The content the Multihousing parser finds in a page (lines 79-143). *)
Definition main (soup : node) : string :=
  match Soup.find (Soup.by_attr ["div"] "id" "cmw_main_content") soup with
  | Some main_content =>
      let paragraphs := Multihousing.main_paragraphs main_content in
      if nonempty paragraphs then PyStr.join " " paragraphs else ""
  | None => ""
  end.

Definition content (soup : node) : string :=
  (if PyStr.is_empty (main soup) then body_fallback soup (main soup)
   else (soup, main soup)).2.
End MhContent.

(** *** Records *)

(** The fields of a Multihousing record that hold one string, each with
    the filter of its element in the article page. *)
Definition scalar_fields : list (string * (node -> bool)) :=
  [("title", Soup.by_class ["h1"] "fl-heading");
   ("author", Soup.by_class ["a"] "tdb-author-name");
   ("date", Soup.by_class ["span"] "fl-post-info-date")].

(** The shape of a record of a MultifamilyDive listing. *)
Definition article_shape (r : dict) : Prop :=
  r !! "source" = Some (PStr "multifamilydive")
  /\ r !! "author" = Some (PStr "")
  /\ r !! "author_title" = Some (PStr "")
  /\ r !! "date" = Some (PStr "")
  /\ (exists link,
        r !! "link" = Some (PStr link) /\ PyStr.startswith "http" link = true)
  /\ (exists categories,
        r !! "categories" = Some (PList categories)
        /\ List.length categories <= 1
        /\ Forall (fun c => c ≠ "") categories).

(** The columns of the statement that take a value of the record as it
    is, and the records the statement can bind: a string for each of
    them that the record has, and a list of categories. *)
Definition text_columns : list string :=
  ["title"; "link"; "summary"; "author"; "author_title"; "date"; "content";
   "source"].

Definition storable (r : dict) : Prop :=
  (forall k v, k ∈ text_columns -> r !! k = Some v -> exists s, v = PStr s)
  /\ (forall v, r !! "categories" = Some v -> exists l, v = PList l).

(** A string with the character U+0000, and the records none of whose
    strings has it. *)
Definition nul_in (s : string) : bool :=
  existsb (Ascii.eqb Ascii.zero) (list_ascii_of_string s).

Definition nul_free (r : dict) : bool :=
  forallb (fun k => match r !! k with
                    | Some (PStr s) => negb (nul_in s)
                    | _ => true
                    end) text_columns
  && match r !! "categories" with
     | Some (PList l) => forallb (fun c => negb (nul_in c)) l
     | _ => true
     end.

(** *** The sequence of ids, and the services *)

(** The ids of the rows grow along the table and stay below the
    sequence: the state the [SERIAL] column keeps. *)
Definition ids_ok (s : Db.db) : Prop :=
  StronglySorted lt (Db.row_id <$> Db.committed s)
  /\ Forall (fun i => i < Db.next_id s) (Db.row_id <$> Db.committed s).

(** The dict of a row: its id, its title and its link, the value of
    each other column or the empty string for [NULL], and the source. *)
Definition article_view (r : Db.row) : Embedding.article :=
  {| Embedding.id := Db.row_id r;
     Embedding.title := Db.row_title r;
     Embedding.summary := default "" (Db.row_summary r);
     Embedding.content := default "" (Db.row_content r);
     Embedding.link := Db.row_link r;
     Embedding.author := default "" (Db.row_author r);
     Embedding.date := default "" (Db.row_date r);
     Embedding.categories := default "" (Db.row_categories r);
     Embedding.source := "multifamilydive" |}.

(** A limit or an offset the server takes. *)
Definition in_bigint (x : Z) : Prop := (0 <= x <= Embedding.max_bigint)%Z.

(** The services answer every call: a vector that is not empty for a
    text, and no exception for a point. *)
Definition services_up {float World : Type}
  (embeddings_create : string -> ST World (list float))
  (qdrant_upsert : string -> list (Embedding.point float) -> ST World unit)
  : Prop :=
  (forall text w, exists x v w', embeddings_create text w = (Ok (x :: v), w'))
  /\ (forall collection points w,
        exists w', qdrant_upsert collection points w = (Ok tt, w')).

(** *** More sample pages, records and services *)

Module Fixture.

(** A MultifamilyDive article page whose article body holds an
    advertisement with a paragraph of its own. *)
Definition ad_body : node :=
  Sample.el "div" ["article-body"]
    [Sample.el "p" [] [NText "Lending slowed."];
     Sample.el "div" ["ad-slot"] [Sample.el "p" [] [NText "Sponsored content"]]].

Definition ad_container : node := Sample.el "article" ["brief"] [ad_body].

Definition ad_page : node :=
  Sample.document [Sample.el "html" [] [Sample.el "body" [] [ad_container]]].

(** The main content div of [Sample.multihousing_page]. *)
Definition multihousing_main : node :=
  Sample.el_id "div" "cmw_main_content"
    [Sample.el "a" ["tdb-author-name"] [NText "Jane Doe"];
     Sample.el "div" ["cmw_single_post_content"]
       [Sample.el "p" [] [NText "Occupancy held steady."]]].

(** The second entry of [Sample.broken_listing], and its anchor. *)
Definition unlinked_anchor : node := Sample.el "a" [] [NText "No link"].

Definition unlinked_entry : node :=
  Sample.el "div" ["c-brief-list__item"]
    [Sample.el "h5" ["c-brief-list__item-title"] [unlinked_anchor]].

(** A page with a long paragraph in its header and in its footer, and
    with a short and a long paragraph between them. *)
Definition chrome_page : node :=
  Sample.document [Sample.el "html" [] [Sample.el "body" []
    [Sample.el "header" []
       [Sample.el "p" []
          [NText "A long paragraph of the header, which is no content at all."]];
     Sample.el "p" [] [NText "Short."];
     Sample.el "p" []
       [NText " A paragraph of the article with more than forty characters. "];
     Sample.el "footer" []
       [Sample.el "p" []
          [NText "A long paragraph of the footer, which is no content either."]]]]].

(** A page whose text is in no paragraph. *)
Definition plain_page : node :=
  Sample.document [Sample.el "html" [] [Sample.el "body" []
    [Sample.el "div" ["c-article__content"]
       [NText "Rates rose again, and the text is long enough to count."]]]].

(** The record of the article entry of [Sample.multifamilydive_listing]. *)
Definition listed_article : dict :=
  <["link" := PStr "https://www.multifamilydive.com/news/lending/"]>
    (<["title" := PStr "Lending"]> (<["summary" := PStr ""]>
    (<["author" := PStr ""]> (<["author_title" := PStr ""]>
    (<["date" := PStr ""]> (<["categories" := PList ["Deep Dive"]]>
    (<["source" := PStr "multifamilydive"]> ∅))))))).

(** A parser that knows the listing page and the article page of the
    sample site. *)
Definition site_parser (html : string) : result node :=
  if String.eqb html "<ul>" then Ok Sample.multifamilydive_listing
  else Ok Sample.multifamilydive_page.

(** A record with the link of [SampleDb.first_scrape] and nothing else. *)
Definition bare_article : dict :=
  {[ "link" := PStr "https://www.multifamilydive.com/news/lending/" ]}.

(** A record whose title has a NUL character. *)
Definition nul_article : dict :=
  SampleDb.article "https://www.multifamilydive.com/news/6/"
    (String Ascii.zero "Six") "6" [].

(** The table after the first scrape has been stored. *)
Definition one_row : Db.db :=
  (Db.insert_multifamilydive_article SampleDb.clock SampleDb.adapt_list
     SampleDb.server_takes SampleDb.first_scrape SampleDb.empty).2.

(** A connection whose sequence of ids is used up. *)
Definition full : Db.db :=
  {| Db.committed := []; Db.pending := []; Db.next_id := N.to_nat 2147483648;
     Db.txn := 0; Db.aborted := false |}.

(** Services that answer every call: the vector of a text is its
    length, and the world is the list of the points stored. *)
Definition embeddings_create (text : string)
  : ST (list (Embedding.point nat)) (list nat) :=
  fun w => (Ok [String.length text], w).

Definition qdrant_upsert (collection_name : string)
  (points : list (Embedding.point nat)) : ST (list (Embedding.point nat)) unit :=
  fun w => (Ok tt, w ++ points).

End Fixture.

(** * Properties *)

(** ** The heap of dicts *)

Lemma deref_insert_eq (h : heap) (d : loc) (m : dict) :
  deref (<[d := m]> h) d = m.
Proof. unfold deref. by rewrite lookup_insert_eq. Qed.

Lemma deref_insert_ne (h : heap) (d d' : loc) (m : dict) :
  d ≠ d' -> deref (<[d := m]> h) d' = deref h d'.
Proof. intros Hne. unfold deref. by rewrite lookup_insert_ne. Qed.

(** A new object is none of the objects that exist. *)
Lemma fresh_loc_ne (h : heap) (d : loc) :
  is_Some (h !! d) -> fresh (dom h) ≠ d.
Proof.
  intros Hd Heq. apply elem_of_dom in Hd. rewrite <- Heq in Hd.
  by apply is_fresh in Hd.
Qed.

Lemma copy_with_content_run (d : loc) (content : string) (h : heap) :
  let c := fresh (dom h) in
  copy_with_content d content h
  = (Ok c, <[c := <["content" := PStr content]> (deref h d)]> (<[c := deref h d]> h)).
Proof.
  unfold copy_with_content, dict_copy, dict_set, mbind, ST_bind, mret, ST_ret.
  cbn. by rewrite deref_insert_eq.
Qed.

Lemma copy_with_content_result (d : loc) (content : string) (h : heap) :
  exists c h',
    copy_with_content d content h = (Ok c, h')
    /\ h !! c = None
    /\ deref h' c = <["content" := PStr content]> (deref h d)
    /\ forall d', is_Some (h !! d') -> h' !! d' = h !! d'.
Proof.
  eexists _, _. split; [apply copy_with_content_run|].
  split; [apply not_elem_of_dom, is_fresh|].
  split; [by rewrite deref_insert_eq|].
  intros d' Hd'. pose proof (fresh_loc_ne h d' Hd') as Hne.
  by rewrite !lookup_insert_ne.
Qed.

Lemma content_failed_eq (d : loc) (e : exn) :
  content_failed d e = copy_with_content d "".
Proof. reflexivity. Qed.

Lemma is_empty_false (s : string) : s ≠ "" -> PyStr.is_empty s = false.
Proof. by destruct s. Qed.

Lemma is_empty_true (s : string) : PyStr.is_empty s = true -> s = "".
Proof. by destruct s. Qed.

Lemma join_paragraphs_nil : join_paragraphs [] = "".
Proof. reflexivity. Qed.

(** ** The content cascade of CRE Daily *)

Section CredailyContent.

Variable BeautifulSoup : string -> result node.

(** Once the page is parsed, the [try] block is the cascade followed by
    the copy. *)
Lemma credaily_try_run html soup info (h : heap) :
  BeautifulSoup html = Ok soup ->
  Credaily.parse_brief_content_try BeautifulSoup html info h
  = copy_with_content info (Credaily.resolve soup).2 h.
Proof.
  intros Hsoup.
  unfold Credaily.parse_brief_content_try, lift, mbind, ST_bind.
  rewrite Hsoup. by destruct (Credaily.resolve soup).
Qed.

Lemma credaily_run html soup info (h : heap) :
  BeautifulSoup html = Ok soup ->
  Credaily.parse_brief_content BeautifulSoup html info h
  = copy_with_content info (Credaily.resolve soup).2 h.
Proof.
  intros Hsoup. unfold Credaily.parse_brief_content, try_except.
  rewrite (credaily_try_run _ _ _ _ Hsoup).
  by rewrite copy_with_content_run.
Qed.

(** C2. Cascade short-circuit: when the article content div of the page
    gives a non-empty text, the cascade stops there. The content of the
    returned record is exactly that text, and the later strategies are
    not run: the tree is the one that was parsed, nothing was taken out
    of it, whatever else the page contains. *)
Theorem credaily_cascade_short_circuit
  html soup content_element text info (h : heap) :
  BeautifulSoup html = Ok soup ->
  Soup.find (Soup.by_class ["div"] "c-article__content") soup
    = Some content_element ->
  join_paragraphs (Soup.find_all (Soup.tag_in ["p"]) content_element) = text ->
  text ≠ "" ->
  Credaily.resolve soup = (soup, text)
  /\ exists r h',
       Credaily.parse_brief_content BeautifulSoup html info h = (Ok r, h')
       /\ deref h' r !! "content" = Some (PStr text).
Proof.
  intros Hsoup Hfind Htext Hne.
  assert (Hres : Credaily.resolve soup = (soup, text)).
  { unfold Credaily.resolve, Credaily.article_content. rewrite Hfind.
    destruct (Soup.find_all (Soup.tag_in ["p"]) content_element) as [|p ps] eqn:Hps.
    - by rewrite join_paragraphs_nil in Htext.
    - cbn [nonempty]. rewrite Htext.
      repeat (rewrite (is_empty_false _ Hne); cbv beta iota zeta).
      reflexivity. }
  split; [exact Hres|].
  rewrite (credaily_run _ _ _ _ Hsoup), Hres. cbn [snd].
  destruct (copy_with_content_result info text h) as (c & h' & Hrun & _ & Hc & _).
  exists c, h'. split; [exact Hrun|].
  rewrite Hc. apply lookup_insert_eq.
Qed.

End CredailyContent.

(** The last resort alone would have given the other paragraph. *)
Example credaily_page_last_resort :
  (body_fallback Sample.credaily_page "").2
  = "This paragraph is outside of the article container.".
Proof. vm_compute. reflexivity. Qed.

Lemma credaily_cascade_short_circuit_witness :
  Credaily.resolve Sample.credaily_page
    = (Sample.credaily_page, "Rates rose again.")
  /\ exists r h',
       Credaily.parse_brief_content (Sample.parser_of Sample.credaily_page)
         "<html>" 0 (Sample.heap_of Sample.partial_record) = (Ok r, h')
       /\ deref h' r !! "content" = Some (PStr "Rates rose again.").
Proof.
  apply (credaily_cascade_short_circuit (Sample.parser_of Sample.credaily_page)
           "<html>" Sample.credaily_page Sample.article_div).
  - reflexivity.
  - vm_compute. reflexivity.
  - vm_compute. reflexivity.
  - discriminate.
Defined.

(** ** The heuristic fallback of CRE Daily *)

Lemma join_two_or_more (x y : string) (l : list string) :
  PyStr.join " " (x :: y :: l) ≠ "".
Proof. cbn [PyStr.join]. by destruct x. Qed.

Lemma join_paragraphs_two_or_more (ps : list node) :
  2 <= List.length ps -> join_paragraphs ps ≠ "".
Proof.
  destruct ps as [|p [|q ps]]; cbn [List.length]; try lia.
  intros _. apply join_two_or_more.
Qed.

(** A div with fewer than two paragraphs is passed over by the loop. *)
Lemma scan_rejects div rest content :
  List.length (Soup.find_all (Soup.tag_in ["p"]) div) < 2 ->
  Credaily.scan_article_divs (div :: rest) content
  = Credaily.scan_article_divs rest content.
Proof.
  intros Hlen. cbn [Credaily.scan_article_divs].
  destruct (Soup.find_all (Soup.tag_in ["p"]) div) as [|p [|q ps]];
    cbn in *; try reflexivity; lia.
Qed.

(** A div with two paragraphs or more gives the content and ends the loop. *)
Lemma scan_accepts div rest content :
  2 <= List.length (Soup.find_all (Soup.tag_in ["p"]) div) ->
  Credaily.scan_article_divs (div :: rest) content
  = join_paragraphs (Soup.find_all (Soup.tag_in ["p"]) div).
Proof.
  intros Hlen. cbn [Credaily.scan_article_divs].
  destruct (Soup.find_all (Soup.tag_in ["p"]) div) as [|p [|q ps]];
    cbn [List.length] in Hlen; try lia.
  reflexivity.
Qed.

Lemma scan_all_rejected divs content :
  Forall (fun d => List.length (Soup.find_all (Soup.tag_in ["p"]) d) < 2) divs ->
  Credaily.scan_article_divs divs content = content.
Proof.
  induction 1 as [|d divs Hd _ IH]; [reflexivity|].
  by rewrite scan_rejects.
Qed.

(** C8. Minimum-paragraph heuristic. In the stage that scans the divs
    whose class contains "article" or "content": when every such div holds
    exactly one paragraph, none is accepted and the content is still
    empty after the stage; a div that holds two paragraphs or more is
    accepted, its paragraphs become the content (which is then not
    empty), provided no div before it in the page was accepted. *)
Theorem credaily_heuristic_minimum_paragraphs (soup : node) :
  (Forall (fun d => List.length (Soup.find_all (Soup.tag_in ["p"]) d) = 1)
     (Soup.find_all Credaily.article_like soup) ->
   Credaily.heuristic soup "" = "")
  /\ (forall before div after,
        Soup.find_all Credaily.article_like soup = before ++ div :: after ->
        Forall (fun d => List.length (Soup.find_all (Soup.tag_in ["p"]) d) < 2)
          before ->
        2 <= List.length (Soup.find_all (Soup.tag_in ["p"]) div) ->
        Credaily.heuristic soup ""
        = join_paragraphs (Soup.find_all (Soup.tag_in ["p"]) div)
        /\ Credaily.heuristic soup "" ≠ "").
Proof.
  unfold Credaily.heuristic. split.
  - intros Hall. apply scan_all_rejected.
    eapply Forall_impl; [exact Hall|]. cbn. intros d Hd. lia.
  - intros before div after Hdivs Hbefore Hlen. rewrite Hdivs.
    assert (Hscan : Credaily.scan_article_divs (before ++ div :: after) ""
                    = join_paragraphs (Soup.find_all (Soup.tag_in ["p"]) div)).
    { clear Hdivs. induction Hbefore as [|d before Hd _ IH].
      - by apply scan_accepts.
      - cbn [app]. by rewrite scan_rejects. }
    rewrite Hscan. split; [reflexivity|].
    by apply join_paragraphs_two_or_more.
Qed.

Lemma credaily_heuristic_minimum_paragraphs_witness :
  Credaily.heuristic Sample.teaser_page "" = ""
  /\ Credaily.heuristic Sample.story_page "" = "Rents fell. Sales rose.".
Proof.
  split.
  - apply (proj1 (credaily_heuristic_minimum_paragraphs Sample.teaser_page)).
    vm_compute. repeat constructor.
  - apply (proj2 (credaily_heuristic_minimum_paragraphs Sample.story_page)
             [] Sample.story_div []).
    + vm_compute. reflexivity.
    + constructor.
    + vm_compute. lia.
Defined.

(** On the teaser page the whole cascade ends with an empty content: the
    teaser is not picked up by the heuristic, and is too short for the
    last resort. *)
Example teaser_page_content :
  (Credaily.resolve Sample.teaser_page).2 = "".
Proof. vm_compute. reflexivity. Qed.

Example story_page_content :
  (Credaily.resolve Sample.story_page).2 = "Rents fell. Sales rose.".
Proof. vm_compute. reflexivity. Qed.

(** ** Code that writes to one dict *)

Lemma insert_deref_id (h : heap) (c : loc) :
  is_Some (h !! c) -> <[c := deref h c]> h = h.
Proof. intros [d Hd]. unfold deref. rewrite Hd. by apply insert_id. Qed.

Lemma acts_ret {A} (c : loc) (a : A) : acts_on c (mret a) (fun d => d) a.
Proof. intros h Hc. by rewrite insert_deref_id. Qed.

Lemma acts_set (c : loc) (k : string) (v : pyval) :
  acts_on c (dict_set c k v) (fun d => <[k := v]> d) tt.
Proof. by intros h _. Qed.

Lemma acts_bind {A B} (c : loc) (m : M A) (k : A -> M B) f g a b :
  acts_on c m f a -> acts_on c (k a) g b ->
  acts_on c (m ≫= k) (fun d => g (f d)) b.
Proof.
  intros Hm Hk h Hc. unfold mbind, ST_bind. rewrite (Hm h Hc).
  rewrite Hk by (rewrite lookup_insert_eq; eauto).
  by rewrite deref_insert_eq, insert_insert_eq.
Qed.

Lemma acts_ext {A} (c : loc) (m : M A) f g a :
  (forall d, f d = g d) -> acts_on c m f a -> acts_on c m g a.
Proof. intros Hfg Hm h Hc. by rewrite <- Hfg, Hm. Qed.

Lemma acts_overwrite (c : loc) (k : string) (v : option pyval) :
  acts_on c (match v with Some v => dict_set c k v | None => mret tt end)
    (overwrite k v) tt.
Proof. destruct v; [apply acts_set | apply acts_ret]. Qed.

(** ** The metadata of a MultifamilyDive article *)

Lemma set_author_acts (container : node) (c : loc) :
  acts_on c (Multifamilydive.set_author container c)
    (fun d => overwrite "author_title" (MfdDetail.author_title container)
                (overwrite "author" (MfdDetail.author container) d)) tt.
Proof.
  unfold Multifamilydive.set_author, MfdDetail.author, MfdDetail.author_title,
    MfdDetail.author_element.
  destruct (or_else _ _) as [el|].
  - eapply acts_bind.
    + destruct (Soup.find (Soup.by_attr _ _ _) el); [apply acts_set | apply acts_ret].
    + destruct (Soup.find (Soup.by_class _ _) el); [apply acts_set | apply acts_ret].
  - destruct (Soup.find _ container); [apply acts_set | apply acts_ret].
Qed.

Lemma set_date_acts (container : node) (c : loc) :
  acts_on c (Multifamilydive.set_date container c)
    (overwrite "date" (MfdDetail.date container)) tt.
Proof.
  unfold Multifamilydive.set_date, MfdDetail.date.
  destruct (or_else _ _); [apply acts_set | apply acts_ret].
Qed.

Lemma set_categories_acts (soup : node) (c : loc) :
  acts_on c (Multifamilydive.set_categories soup c)
    (overwrite "categories" (MfdDetail.categories soup)) tt.
Proof.
  unfold Multifamilydive.set_categories, MfdDetail.categories.
  destruct (Soup.find _ soup) as [topics|]; [|apply acts_ret].
  destruct (Soup.find_all _ topics); [apply acts_ret | apply acts_set].
Qed.

(** Lines 69-102 as a whole. *)
Lemma metadata_acts {A} (soup container : node) (c : loc) (a : A) :
  acts_on c
    (_ ← Multifamilydive.set_author container c;
     _ ← Multifamilydive.set_date container c;
     _ ← Multifamilydive.set_categories soup c;
     mret a)
    (MfdDetail.apply soup container) a.
Proof.
  eapply acts_ext; [|eapply acts_bind; [apply set_author_acts|];
                      eapply acts_bind; [apply set_date_acts|];
                      eapply acts_bind; [apply set_categories_acts|];
                      apply acts_ret].
  reflexivity.
Qed.

Lemma bind_run {S A B} (m : ST S A) (k : A -> ST S B) (h : S) :
  (m ≫= k) h
  = match m h with
    | (Ok a, h') => k a h'
    | (Raise e, h') => (Raise e, h')
    end.
Proof. reflexivity. Qed.

(** What the parser returns for a page that parses: a new object, which
    holds the record with the metadata of the page written over it and
    some content; no object that existed has changed. *)
Lemma multifamilydive_try_run BeautifulSoup html soup info (h : heap) :
  BeautifulSoup html = Ok soup ->
  exists c h' content,
    Multifamilydive.parse_article_content_try BeautifulSoup html info h
      = (Ok c, h')
    /\ h !! c = None
    /\ (forall d', is_Some (h !! d') -> h' !! d' = h !! d')
    /\ deref h' c
       = <["content" := PStr content]> (MfdDetail.record soup (deref h info)).
Proof.
  intros Hsoup.
  unfold Multifamilydive.parse_article_content_try.
  rewrite bind_run. unfold lift. rewrite Hsoup.
  rewrite bind_run. unfold dict_copy at 1. cbv zeta.
  set (c := fresh (dom h)). set (h1 := <[c := deref h info]> h).
  assert (Hc1 : is_Some (h1 !! c)) by (unfold h1; rewrite lookup_insert_eq; eauto).
  assert (Hd1 : deref h1 c = deref h info) by apply deref_insert_eq.
  rewrite bind_run.
  match goal with
  | |- context [match ?blk h1 with _ => _ end] =>
      assert (Hblk : exists st,
                 blk h1 = (Ok st, <[c := MfdDetail.record soup (deref h1 c)]> h1))
  end.
  { unfold MfdDetail.record.
    destruct (Soup.find (Multifamilydive.container_filter soup) soup) as [ac|].
    - eexists. by apply metadata_acts.
    - eexists. by apply (acts_ret c (soup, "")). }
  destruct Hblk as [[soup' ct] ->].
  destruct (Multifamilydive.fallbacks soup' ct) as [soup'' content].
  rewrite bind_run. unfold dict_set. cbn.
  eexists c, _, content. split; [reflexivity|].
  split; [apply not_elem_of_dom, is_fresh|].
  split.
  - intros d' Hd'. pose proof (fresh_loc_ne h d' Hd') as Hne. fold c in Hne.
    unfold h1. by rewrite !lookup_insert_ne.
  - by rewrite !deref_insert_eq, Hd1.
Qed.

Lemma multifamilydive_run BeautifulSoup html soup info (h : heap) :
  BeautifulSoup html = Ok soup ->
  exists c h' content,
    Multifamilydive.parse_article_content BeautifulSoup html info h = (Ok c, h')
    /\ h !! c = None
    /\ (forall d', is_Some (h !! d') -> h' !! d' = h !! d')
    /\ deref h' c
       = <["content" := PStr content]> (MfdDetail.record soup (deref h info)).
Proof.
  intros Hsoup.
  destruct (multifamilydive_try_run _ _ _ info h Hsoup)
    as (c & h' & content & Hrun & Hrest).
  exists c, h', content. split; [|exact Hrest].
  unfold Multifamilydive.parse_article_content, try_except. by rewrite Hrun.
Qed.

(** ** The metadata of a Multihousing article *)

Lemma fill_if_missing_acts (info : loc) key filter (main_content : node) :
  acts_on info (Multihousing.fill_if_missing info key filter main_content)
    (fill key (MhDetail.field filter main_content)) tt.
Proof.
  intros h Hinfo. unfold Multihousing.fill_if_missing, MhDetail.field, fill.
  rewrite bind_run. unfold dict_get.
  destruct (py_truthy (deref h info !! key)); cbn [negb].
  - by rewrite insert_deref_id.
  - destruct (Soup.find filter main_content); cbn [fmap option_fmap option_map overwrite].
    + reflexivity.
    + by rewrite insert_deref_id.
Qed.

Lemma fill_categories_acts (info : loc) (main_content : node) :
  acts_on info (Multihousing.fill_categories info main_content)
    (fill "categories" (MhDetail.categories main_content)) tt.
Proof.
  intros h Hinfo. unfold Multihousing.fill_categories, MhDetail.categories, fill.
  destruct (Soup.find _ main_content) as [el|];
    cbn [fmap option_fmap option_map overwrite].
  - rewrite bind_run. unfold dict_get.
    destruct (py_truthy (deref h info !! "categories")); cbn [negb].
    + by rewrite insert_deref_id.
    + reflexivity.
  - destruct (py_truthy _); by rewrite insert_deref_id.
Qed.

(** Lines 85-106 as a whole. *)
Lemma fill_block_acts {A} (info : loc) (main_content : node) (a : A) :
  acts_on info
    (_ ← Multihousing.fill_if_missing info "title"
           (Soup.by_class ["h1"] "fl-heading") main_content;
     _ ← Multihousing.fill_if_missing info "author"
           (Soup.by_class ["a"] "tdb-author-name") main_content;
     _ ← Multihousing.fill_if_missing info "date"
           (Soup.by_class ["span"] "fl-post-info-date") main_content;
     _ ← Multihousing.fill_categories info main_content;
     mret a)
    (MhDetail.apply main_content) a.
Proof.
  eapply acts_ext; [|eapply acts_bind; [apply fill_if_missing_acts|];
                      eapply acts_bind; [apply fill_if_missing_acts|];
                      eapply acts_bind; [apply fill_if_missing_acts|];
                      eapply acts_bind; [apply fill_categories_acts|];
                      apply acts_ret].
  reflexivity.
Qed.

(** What the parser does for a page that parses: the record that was
    passed in is changed to [MhDetail.record], and a new object holds a
    copy of the changed record with some content. *)
Lemma multihousing_try_run BeautifulSoup html soup info (h : heap) :
  BeautifulSoup html = Ok soup ->
  is_Some (h !! info) ->
  exists c h' content,
    Multihousing.parse_brief_content_try BeautifulSoup html info h = (Ok c, h')
    /\ h !! c = None
    /\ deref h' info = MhDetail.record soup (deref h info)
    /\ (forall d', d' ≠ info -> is_Some (h !! d') -> h' !! d' = h !! d')
    /\ deref h' c
       = <["content" := PStr content]> (MhDetail.record soup (deref h info)).
Proof.
  intros Hsoup Hinfo.
  unfold Multihousing.parse_brief_content_try.
  rewrite bind_run. unfold lift. rewrite Hsoup.
  rewrite bind_run.
  match goal with
  | |- context [match ?blk h with _ => _ end] =>
      assert (Hblk : exists ct,
                 blk h = (Ok ct, <[info := MhDetail.record soup (deref h info)]> h))
  end.
  { unfold MhDetail.record.
    destruct (Soup.find (Soup.by_attr ["div"] "id" "cmw_main_content") soup)
      as [main_content|].
    - eexists. by apply fill_block_acts.
    - eexists. by apply (acts_ret info ""). }
  destruct Hblk as [ct ->].
  set (h1 := <[info := MhDetail.record soup (deref h info)]> h).
  destruct (if PyStr.is_empty ct then body_fallback soup ct else (soup, ct))
    as [soup' content].
  destruct (copy_with_content_result info content h1)
    as (c & h' & Hrun & Hfresh & Hc & Hkeep).
  exists c, h', content.
  assert (Hinfo1 : is_Some (h1 !! info))
    by (unfold h1; rewrite lookup_insert_eq; eauto).
  assert (Hd1 : deref h1 info = MhDetail.record soup (deref h info))
    by apply deref_insert_eq.
  split; [exact Hrun|].
  split.
  { destruct (h !! c) eqn:Hhc; [|done].
    assert (c ≠ info) by (intros ->; rewrite Hfresh in Hinfo1; by destruct Hinfo1).
    unfold h1 in Hfresh. rewrite lookup_insert_ne in Hfresh by done. congruence. }
  split.
  { unfold deref at 1. rewrite (Hkeep info Hinfo1). exact Hd1. }
  split.
  { intros d' Hne Hd'. rewrite Hkeep.
    - unfold h1. by rewrite lookup_insert_ne.
    - unfold h1. by rewrite lookup_insert_ne. }
  by rewrite Hc, Hd1.
Qed.

(** ** The record that is passed in *)

Section InputRecord.

Variable BeautifulSoup : string -> result node.

(** The CRE Daily parser returns a new object and changes none. *)
Lemma credaily_input_unchanged html info (h : heap) :
  exists c h',
    Credaily.parse_brief_content BeautifulSoup html info h = (Ok c, h')
    /\ h !! c = None
    /\ forall d', is_Some (h !! d') -> h' !! d' = h !! d'.
Proof.
  unfold Credaily.parse_brief_content, try_except.
  destruct (BeautifulSoup html) as [soup|e] eqn:Hsoup.
  - rewrite (credaily_try_run _ _ _ _ _ Hsoup).
    destruct (copy_with_content_result info (Credaily.resolve soup).2 h)
      as (c & h' & -> & Hfresh & _ & Hkeep).
    by exists c, h'.
  - unfold Credaily.parse_brief_content_try. rewrite bind_run.
    unfold lift. rewrite Hsoup, content_failed_eq.
    destruct (copy_with_content_result info "" h)
      as (c & h' & -> & Hfresh & _ & Hkeep).
    by exists c, h'.
Qed.

(** So does the MultifamilyDive parser. *)
Lemma multifamilydive_input_unchanged html info (h : heap) :
  exists c h',
    Multifamilydive.parse_article_content BeautifulSoup html info h = (Ok c, h')
    /\ h !! c = None
    /\ forall d', is_Some (h !! d') -> h' !! d' = h !! d'.
Proof.
  destruct (BeautifulSoup html) as [soup|e] eqn:Hsoup.
  - destruct (multifamilydive_run _ _ _ info h Hsoup)
      as (c & h' & content & Hrun & Hfresh & Hkeep & _).
    by exists c, h'.
  - unfold Multifamilydive.parse_article_content, try_except,
      Multifamilydive.parse_article_content_try.
    rewrite bind_run. unfold lift. rewrite Hsoup, content_failed_eq.
    destruct (copy_with_content_result info "" h)
      as (c & h' & -> & Hfresh & _ & Hkeep).
    by exists c, h'.
Qed.

End InputRecord.

(** C3. The Multihousing parser does not leave its input as it was. The
    listing entry has an empty author and the page names one: after the
    call the record that was passed in (location 0) has the author of the
    page, and the returned record is another object with the same author.
    The other two parsers change no object that exists
    ([credaily_input_unchanged], [multifamilydive_input_unchanged]). *)
Theorem multihousing_changes_its_input :
  let h := Sample.heap_of Sample.multihousing_record in
  exists r h',
    Multihousing.parse_brief_content
      (Sample.parser_of Sample.multihousing_page) "<html>" 0 h = (Ok r, h')
    /\ r ≠ 0
    /\ deref h 0 !! "author" = Some (PStr "")
    /\ deref h' 0 !! "author" = Some (PStr "Jane Doe")
    /\ deref h' r !! "author" = Some (PStr "Jane Doe").
Proof.
  cbv zeta.
  assert (Hin0 : Sample.heap_of Sample.multihousing_record !! 0
                 = Some Sample.multihousing_record)
    by apply lookup_singleton_eq.
  destruct (multihousing_try_run (Sample.parser_of Sample.multihousing_page)
              "<html>" Sample.multihousing_page 0
              (Sample.heap_of Sample.multihousing_record) eq_refl)
    as (c & h' & content & Hrun & Hfresh & Hin & _ & Hout); [by rewrite Hin0|].
  exists c, h'. split.
  { unfold Multihousing.parse_brief_content, try_except. by rewrite Hrun. }
  split; [intros ->; congruence|].
  split; [vm_compute; reflexivity|].
  split.
  - rewrite Hin. vm_compute. reflexivity.
  - rewrite Hout, lookup_insert_ne by done. vm_compute. reflexivity.
Qed.

(** The content of the record returned for that page. *)
Example multihousing_page_content :
  (let run :=
     Multihousing.parse_brief_content
       (Sample.parser_of Sample.multihousing_page) "<html>" 0
       (Sample.heap_of Sample.multihousing_record) in
   deref run.2 1 !! "content")
  = Some (PStr "Occupancy held steady.").
Proof. vm_compute. reflexivity. Qed.

(** ** Which of the listing page and the detail page wins *)

Lemma lookup_overwrite_eq k v (d : dict) :
  overwrite k v d !! k = from_detail v (d !! k).
Proof. destruct v; cbn; [apply lookup_insert_eq | reflexivity]. Qed.

Lemma lookup_overwrite_ne k key v (d : dict) :
  k ≠ key -> overwrite k v d !! key = d !! key.
Proof. intros Hne. destruct v; cbn; [by apply lookup_insert_ne | reflexivity]. Qed.

Lemma fill_keeps k key v (d : dict) :
  py_truthy (d !! key) = true -> fill k v d !! key = d !! key.
Proof.
  intros Htrue. unfold fill.
  destruct (py_truthy (d !! k)) eqn:Hk; [reflexivity|].
  apply lookup_overwrite_ne. intros ->. congruence.
Qed.

Lemma multihousing_apply_keeps main_content key (d : dict) :
  py_truthy (d !! key) = true -> MhDetail.apply main_content d !! key = d !! key.
Proof.
  intros Htrue. unfold MhDetail.apply.
  set (d1 := fill "title" _ d).
  set (d2 := fill "author" _ d1).
  set (d3 := fill "date" _ d2).
  assert (H1 : d1 !! key = d !! key) by by apply fill_keeps.
  assert (H2 : d2 !! key = d !! key)
    by (rewrite <- H1; apply fill_keeps; by rewrite H1).
  assert (H3 : d3 !! key = d !! key)
    by (rewrite <- H2; apply fill_keeps; by rewrite H2).
  rewrite <- H3. apply fill_keeps. by rewrite H3.
Qed.

Lemma metadata_key_not_content key : key ∈ metadata_keys -> key ≠ "content".
Proof.
  unfold metadata_keys. intros Hin ->.
  repeat (apply elem_of_cons in Hin as [Hin|Hin]; [discriminate|]).
  by apply elem_of_nil in Hin.
Qed.

Section Precedence.

Variable BeautifulSoup : string -> result node.

Lemma multihousing_keeps_listing_values :
  keeps_listing_values (Multihousing.parse_brief_content BeautifulSoup).
Proof.
  intros html info h d key v r h' Hd Hkey Hv Htrue Hrun.
  assert (Hderef : deref h info = d) by (unfold deref; by rewrite Hd).
  pose proof (metadata_key_not_content key Hkey) as Hne.
  revert Hrun. unfold Multihousing.parse_brief_content, try_except.
  destruct (BeautifulSoup html) as [soup|e] eqn:Hsoup.
  - destruct (multihousing_try_run _ _ _ info h Hsoup)
      as (c & h1 & content & -> & _ & _ & _ & Hout); [by rewrite Hd|].
    intros [= <- <-]. rewrite Hout, lookup_insert_ne by done.
    rewrite Hderef. unfold MhDetail.record.
    destruct (Soup.find _ soup); [|done].
    rewrite multihousing_apply_keeps; [done|]. by rewrite Hv.
  - unfold Multihousing.parse_brief_content_try. rewrite bind_run.
    unfold lift. rewrite Hsoup, content_failed_eq.
    destruct (copy_with_content_result info "" h) as (c & h1 & -> & _ & Hc & _).
    intros [= <- <-]. rewrite Hc, lookup_insert_ne by done.
    by rewrite Hderef.
Qed.

Lemma credaily_keeps_listing_values :
  keeps_listing_values (Credaily.parse_brief_content BeautifulSoup).
Proof.
  intros html info h d key v r h' Hd Hkey Hv Htrue Hrun.
  assert (Hderef : deref h info = d) by (unfold deref; by rewrite Hd).
  pose proof (metadata_key_not_content key Hkey) as Hne.
  revert Hrun. unfold Credaily.parse_brief_content, try_except.
  destruct (BeautifulSoup html) as [soup|e] eqn:Hsoup.
  - rewrite (credaily_try_run _ _ _ _ _ Hsoup).
    destruct (copy_with_content_result info (Credaily.resolve soup).2 h)
      as (c & h1 & -> & _ & Hc & _).
    intros [= <- <-]. rewrite Hc, lookup_insert_ne by done. by rewrite Hderef.
  - unfold Credaily.parse_brief_content_try. rewrite bind_run.
    unfold lift. rewrite Hsoup, content_failed_eq.
    destruct (copy_with_content_result info "" h) as (c & h1 & -> & _ & Hc & _).
    intros [= <- <-]. rewrite Hc, lookup_insert_ne by done.
    by rewrite Hderef.
Qed.

(** C4, as amended. Listing-page data takes precedence in the CRE Daily
    parser (which reads no metadata from the detail page) and in the
    Multihousing parser (which fills a field only when the record has no
    value for it). The MultifamilyDive parser does the opposite: author,
    author title, date and categories found on the detail page replace
    the value of the record, empty or not, and the record keeps its value
    only for a field the detail page does not supply. *)
Theorem detail_metadata_precedence :
  keeps_listing_values (Credaily.parse_brief_content BeautifulSoup)
  /\ keeps_listing_values (Multihousing.parse_brief_content BeautifulSoup)
  /\ forall html soup info (h : heap) (d : dict),
       BeautifulSoup html = Ok soup ->
       h !! info = Some d ->
       exists r h',
         Multifamilydive.parse_article_content BeautifulSoup html info h
           = (Ok r, h')
         /\ match Soup.find (Multifamilydive.container_filter soup) soup with
            | Some container =>
                deref h' r !! "author"
                  = from_detail (MfdDetail.author container) (d !! "author")
                /\ deref h' r !! "author_title"
                   = from_detail (MfdDetail.author_title container)
                       (d !! "author_title")
                /\ deref h' r !! "date"
                   = from_detail (MfdDetail.date container) (d !! "date")
                /\ deref h' r !! "categories"
                   = from_detail (MfdDetail.categories soup) (d !! "categories")
            | None =>
                forall key, key ≠ "content" -> deref h' r !! key = d !! key
            end.
Proof.
  split; [exact credaily_keeps_listing_values|].
  split; [exact multihousing_keeps_listing_values|].
  intros html soup info h d Hsoup Hd.
  assert (Hderef : deref h info = d) by (unfold deref; by rewrite Hd).
  destruct (multifamilydive_run _ _ _ info h Hsoup)
    as (c & h' & content & Hrun & _ & _ & Hout).
  exists c, h'. split; [exact Hrun|].
  rewrite Hout, Hderef. unfold MfdDetail.record.
  destruct (Soup.find (Multifamilydive.container_filter soup) soup) as [ac|].
  - unfold MfdDetail.apply.
    repeat split; rewrite lookup_insert_ne by done;
      repeat (rewrite lookup_overwrite_ne by done);
      rewrite lookup_overwrite_eq;
      repeat (rewrite lookup_overwrite_ne by done); reflexivity.
  - intros key Hne. by rewrite lookup_insert_ne.
Qed.

End Precedence.

(** The claim as it was stated fails for MultifamilyDive: the listing
    entry carries the category of its label, the article page has two
    topics, and the record returned has the topics. *)
Lemma multifamilydive_overwrites_listing_values :
  ~ keeps_listing_values
      (Multifamilydive.parse_article_content
         (Sample.parser_of Sample.multifamilydive_page)).
Proof.
  intros Hkeep.
  destruct (multifamilydive_run (Sample.parser_of Sample.multifamilydive_page)
              "<html>" Sample.multifamilydive_page 0
              (Sample.heap_of Sample.multifamilydive_record) eq_refl)
    as (c & h' & content & Hrun & _ & _ & Hout).
  specialize (Hkeep "<html>" 0 (Sample.heap_of Sample.multifamilydive_record)
                Sample.multifamilydive_record "categories" (PList ["Deep Dive"])
                c h').
  rewrite Hout in Hkeep.
  assert (Hcat : <["content" := PStr content]>
                   (MfdDetail.record Sample.multifamilydive_page
                      (deref (Sample.heap_of Sample.multifamilydive_record) 0))
                   !! "categories"
                 = Some (PList ["Finance"; "Policy"])).
  { rewrite lookup_insert_ne by done. vm_compute. reflexivity. }
  rewrite Hcat in Hkeep.
  enough (Some (PList ["Finance"; "Policy"]) = Some (PList ["Deep Dive"]))
    by discriminate.
  apply Hkeep; try exact Hrun.
  - vm_compute. reflexivity.
  - unfold metadata_keys. repeat constructor.
  - vm_compute. reflexivity.
  - reflexivity.
Qed.

Lemma detail_metadata_precedence_witness :
  (let run :=
     Multihousing.parse_brief_content
       (Sample.parser_of Sample.multihousing_page) "<html>" 0
       (Sample.heap_of Sample.multihousing_record) in
   deref run.2 1 !! "categories" = Some (PList ["News"]))
  /\ exists r h',
       Multifamilydive.parse_article_content
         (Sample.parser_of Sample.multifamilydive_page) "<html>" 0
         (Sample.heap_of Sample.multifamilydive_record) = (Ok r, h')
       /\ deref h' r !! "categories" = Some (PList ["Finance"; "Policy"])
       /\ deref h' r !! "author" = Some (PStr "").
Proof.
  split.
  - cbv zeta.
    apply (proj1 (proj2 (detail_metadata_precedence
                           (Sample.parser_of Sample.multihousing_page)))
             "<html>" 0 (Sample.heap_of Sample.multihousing_record)
             Sample.multihousing_record "categories" (PList ["News"]) 1).
    + vm_compute. reflexivity.
    + unfold metadata_keys. repeat constructor.
    + vm_compute. reflexivity.
    + reflexivity.
    + vm_compute. reflexivity.
  - destruct (proj2 (proj2 (detail_metadata_precedence
                              (Sample.parser_of Sample.multifamilydive_page)))
                "<html>" Sample.multifamilydive_page 0
                (Sample.heap_of Sample.multifamilydive_record)
                Sample.multifamilydive_record eq_refl)
      as (r & h' & Hrun & Hfields).
    + vm_compute. reflexivity.
    + exists r, h'. split; [exact Hrun|].
      vm_compute in Hfields. destruct Hfields as (Ha & _ & _ & Hc).
      split; [exact Hc | exact Ha].
Defined.

(** ** Failures stay inside the parsers *)

(** The shape shared by the three listing parsers. *)
Lemma listing_total {A} (try_block : result (list A)) :
  exists links,
    match try_block with Ok links => Ok links | Raise _ => Ok [] end = Ok links
    /\ (forall e, try_block = Raise e -> links = []).
Proof.
  destruct try_block as [links|e].
  - exists links. split; [reflexivity|]. intros e [=].
  - exists []. split; [reflexivity|]. done.
Qed.

Lemma for_each_nil {A B} (body : A -> list B -> result (list B)) acc :
  for_each body [] acc = Ok acc.
Proof. reflexivity. Qed.

Section Failures.

Variable BeautifulSoup : string -> result node.

(** The [try] block of the Multihousing content parser raises only when
    the parser of the page does, and then no record has been touched. *)
Lemma multihousing_try_raise html info (h h1 : heap) e :
  is_Some (h !! info) ->
  Multihousing.parse_brief_content_try BeautifulSoup html info h = (Raise e, h1) ->
  h1 = h.
Proof.
  intros Hinfo. destruct (BeautifulSoup html) as [soup|e'] eqn:Hsoup.
  - destruct (multihousing_try_run _ _ _ info h Hsoup Hinfo)
      as (c & h' & content & -> & _). intros [=].
  - unfold Multihousing.parse_brief_content_try. rewrite bind_run.
    unfold lift. rewrite Hsoup. by intros [= _ <-].
Qed.

Lemma multifamilydive_try_raise html info (h h1 : heap) e :
  Multifamilydive.parse_article_content_try BeautifulSoup html info h
    = (Raise e, h1) ->
  h1 = h.
Proof.
  destruct (BeautifulSoup html) as [soup|e'] eqn:Hsoup.
  - destruct (multifamilydive_try_run _ _ _ info h Hsoup)
      as (c & h' & content & -> & _). intros [=].
  - unfold Multifamilydive.parse_article_content_try. rewrite bind_run.
    unfold lift. rewrite Hsoup. by intros [= _ <-].
Qed.

Lemma credaily_try_raise html info (h h1 : heap) e :
  Credaily.parse_brief_content_try BeautifulSoup html info h = (Raise e, h1) ->
  h1 = h.
Proof.
  destruct (BeautifulSoup html) as [soup|e'] eqn:Hsoup.
  - rewrite (credaily_try_run _ _ _ _ _ Hsoup), copy_with_content_run.
    intros [=].
  - unfold Credaily.parse_brief_content_try. rewrite bind_run.
    unfold lift. rewrite Hsoup. by intros [= _ <-].
Qed.

(** What [try_except] with the shared [except] block gives. *)
Lemma content_total (try_block : M loc) info (h : heap) (d : dict) :
  h !! info = Some d ->
  (forall e h1, try_block h = (Raise e, h1) -> h1 = h) ->
  exists r h',
    try_except try_block (content_failed info) h = (Ok r, h')
    /\ forall e h1, try_block h = (Raise e, h1) ->
         deref h' r = <["content" := PStr ""]> d.
Proof.
  intros Hd Hraise. unfold try_except.
  destruct (try_block h) as [[r|e] h1] eqn:Hrun.
  - exists r, h1. split; [reflexivity|]. intros e h2 [=].
  - rewrite (Hraise e h1 eq_refl), content_failed_eq.
    destruct (copy_with_content_result info "" h) as (c & h' & -> & _ & Hc & _).
    exists c, h'. split; [reflexivity|]. intros _ _ _.
    rewrite Hc. unfold deref. by rewrite Hd.
Qed.

(** C5. Neither kind of parser raises. The three listing parsers always
    return a list; it is empty when their [try] block has raised, and
    empty when the page has none of the entries looked for. The three
    content parsers always return a record; when their [try] block has
    raised, it is the record passed in with an empty content. *)
Theorem parsers_never_raise html page_num info (h : heap) (d : dict) :
  h !! info = Some d ->
  (exists links,
     Credaily.parse_brief_links BeautifulSoup html page_num = Ok links
     /\ (forall e,
           Credaily.parse_brief_links_try BeautifulSoup html = Raise e ->
           links = [])
     /\ (forall soup,
           BeautifulSoup html = Ok soup ->
           Soup.find_all (Soup.by_class ["div"] "c-brief-list__item") soup = [] ->
           links = []))
  /\ (exists links,
        Multifamilydive.parse_article_links BeautifulSoup html page_num = Ok links
        /\ (forall e,
              Multifamilydive.parse_article_links_try BeautifulSoup html = Raise e ->
              links = [])
        /\ (forall soup,
              BeautifulSoup html = Ok soup ->
              Soup.find_all (Soup.by_class ["li"] "feed__item") soup = [] ->
              links = []))
  /\ (exists links,
        Multihousing.parse_brief_links BeautifulSoup html page_num = Ok links
        /\ (forall e,
              Multihousing.parse_brief_links_try BeautifulSoup html = Raise e ->
              links = [])
        /\ (forall soup,
              BeautifulSoup html = Ok soup ->
              Soup.find_all (Soup.by_class ["div"] "cpe-posts-category-page") soup
                = [] ->
              links = []))
  /\ (exists r h',
        Credaily.parse_brief_content BeautifulSoup html info h = (Ok r, h')
        /\ forall e h1,
             Credaily.parse_brief_content_try BeautifulSoup html info h
               = (Raise e, h1) ->
             deref h' r = <["content" := PStr ""]> d)
  /\ (exists r h',
        Multifamilydive.parse_article_content BeautifulSoup html info h = (Ok r, h')
        /\ forall e h1,
             Multifamilydive.parse_article_content_try BeautifulSoup html info h
               = (Raise e, h1) ->
             deref h' r = <["content" := PStr ""]> d)
  /\ (exists r h',
        Multihousing.parse_brief_content BeautifulSoup html info h = (Ok r, h')
        /\ forall e h1,
             Multihousing.parse_brief_content_try BeautifulSoup html info h
               = (Raise e, h1) ->
             deref h' r = <["content" := PStr ""]> d).
Proof.
  intros Hd.
  split; [|split; [|split; [|split; [|split]]]].
  - unfold Credaily.parse_brief_links.
    destruct (listing_total (Credaily.parse_brief_links_try BeautifulSoup html))
      as (links & Hrun & Hfail).
    exists links. split; [exact Hrun|]. split; [exact Hfail|].
    intros soup Hsoup Hnone. revert Hrun.
    unfold Credaily.parse_brief_links_try. rewrite Hsoup. cbn. rewrite Hnone.
    cbn. congruence.
  - unfold Multifamilydive.parse_article_links.
    destruct (listing_total
                (Multifamilydive.parse_article_links_try BeautifulSoup html))
      as (links & Hrun & Hfail).
    exists links. split; [exact Hrun|]. split; [exact Hfail|].
    intros soup Hsoup Hnone. revert Hrun.
    unfold Multifamilydive.parse_article_links_try. rewrite Hsoup. cbn.
    rewrite Hnone. cbn. congruence.
  - unfold Multihousing.parse_brief_links.
    destruct (listing_total (Multihousing.parse_brief_links_try BeautifulSoup html))
      as (links & Hrun & Hfail).
    exists links. split; [exact Hrun|]. split; [exact Hfail|].
    intros soup Hsoup Hnone. revert Hrun.
    unfold Multihousing.parse_brief_links_try. rewrite Hsoup. cbn.
    rewrite Hnone. cbn. congruence.
  - apply content_total; [exact Hd|]. intros e h1. apply credaily_try_raise.
  - apply content_total; [exact Hd|]. intros e h1.
    apply multifamilydive_try_raise.
  - apply content_total; [exact Hd|]. intros e h1.
    apply multihousing_try_raise. by rewrite Hd.
Qed.

End Failures.

(** Two failures: an anchor without [href] in a listing page, which
    costs the page all of its entries, and a page the parser rejects. *)
Lemma parsers_never_raise_witness :
  Credaily.parse_brief_links (Sample.parser_of Sample.broken_listing)
    "<html>" 1 = Ok []
  /\ exists r h',
       Credaily.parse_brief_content Sample.rejecting_parser "<![" 0
         (Sample.heap_of Sample.partial_record) = (Ok r, h')
       /\ deref h' r = <["content" := PStr ""]> Sample.partial_record.
Proof.
  assert (Hd : Sample.heap_of Sample.partial_record !! 0
               = Some Sample.partial_record)
    by apply lookup_singleton_eq.
  split.
  - destruct (proj1 (parsers_never_raise (Sample.parser_of Sample.broken_listing)
                       "<html>" 1 0 _ _ Hd))
      as (links & Hrun & Hfail & _).
    rewrite Hrun. f_equal. apply (Hfail (KeyError "href")).
    vm_compute. reflexivity.
  - destruct (proj1 (proj2 (proj2 (proj2
                (parsers_never_raise Sample.rejecting_parser "<![" 1 0 _ _ Hd)))))
      as (r & h' & Hrun & Hfail).
    exists r, h'. split; [exact Hrun|].
    apply (Hfail ParserRejectedMarkup (Sample.heap_of Sample.partial_record)).
    reflexivity.
Defined.

(** ** Listing extraction *)

(** The loop appends, entry by entry, what the body appends. *)
Lemma for_each_appends {A B C} (body : A -> list B -> result (list B))
  (pick : A -> option C) (R : C -> B -> Prop) :
  (forall item acc out,
     body item acc = Ok out ->
     exists new, out = acc ++ new /\ Forall2 R (option_list (pick item)) new) ->
  forall items acc out,
    for_each body items acc = Ok out ->
    exists new, out = acc ++ new /\ Forall2 R (omap pick items) new.
Proof.
  intros Hbody items. induction items as [|item items IH]; intros acc out Hrun.
  - injection Hrun as <-. exists []. split; [by rewrite app_nil_r | constructor].
  - cbn [for_each] in Hrun.
    destruct (body item acc) as [acc'|e] eqn:Hitem; [|discriminate].
    cbn in Hrun.
    destruct (Hbody _ _ _ Hitem) as (new1 & -> & H1).
    destruct (IH _ _ Hrun) as (new2 & -> & H2).
    exists (new1 ++ new2). split; [by rewrite app_assoc|].
    cbn [omap list_omap]. fold (omap pick items).
    destruct (pick item); cbn [option_list] in H1.
    + inversion H1 as [|? r ? news Hr Hnil]; subst. inversion Hnil; subst.
      cbn. by constructor.
    + inversion H1; subst. exact H2.
Qed.

Lemma credaily_item item acc out :
  Credaily.brief_item item acc = Ok out ->
  exists new,
    out = acc ++ new
    /\ Forall2 anchor_record
         (option_list
            (title_anchor (Soup.by_class ["h5"] "c-brief-list__item-title") item))
         new.
Proof.
  unfold Credaily.brief_item, title_anchor.
  destruct (Soup.find (Soup.by_class ["h5"] _) item) as [title_element|];
    [|intros [= <-]; exists []; split; [by rewrite app_nil_r | constructor]].
  destruct (Soup.find (Soup.tag_in ["a"]) title_element) as [a|];
    [|intros [= <-]; exists []; split; [by rewrite app_nil_r | constructor]].
  unfold Soup.getitem. destruct (Soup.get "href" a) as [href|] eqn:Hhref;
    [|discriminate].
  cbn. intros [= <-]. eexists [_]. split; [reflexivity|].
  constructor; [|constructor]. exists href. split; [exact Hhref|].
  split; [apply lookup_insert_eq|].
  rewrite lookup_insert_ne by done. apply lookup_insert_eq.
Qed.

Lemma multihousing_item item acc out :
  Multihousing.brief_item item acc = Ok out ->
  exists new,
    out = acc ++ new
    /\ Forall2 anchor_record
         (option_list (title_anchor (Soup.by_class ["h2"] "fl-post-title") item))
         new.
Proof.
  unfold Multihousing.brief_item, title_anchor.
  destruct (Soup.find (Soup.by_class ["h2"] _) item) as [title_element|];
    [|intros [= <-]; exists []; split; [by rewrite app_nil_r | constructor]].
  destruct (Soup.find (Soup.tag_in ["a"]) title_element) as [a|];
    [|intros [= <-]; exists []; split; [by rewrite app_nil_r | constructor]].
  destruct (Soup.getitem "href" a) as [link|] eqn:Hlink; [|discriminate].
  unfold Soup.getitem in Hlink.
  destruct (Soup.get "href" a) as [href|] eqn:Hhref; [|discriminate].
  injection Hlink as <-.
  unfold mbind, result_bind.
  destruct (Multihousing.meta_author_date item) as [[author date]|];
    [|discriminate].
  match goal with
  | |- match ?img with _ => _ end = _ -> _ => destruct img as [image_url|]
  end; [|discriminate].
  intros [= <-]. eexists [_]. split; [reflexivity|].
  constructor; [|constructor]. exists href. split; [exact Hhref|].
  split; [apply lookup_insert_eq|].
  rewrite lookup_insert_ne by done. apply lookup_insert_eq.
Qed.

Lemma multifamilydive_item item acc out :
  Multifamilydive.article_item item acc = Ok out ->
  exists new,
    out = acc ++ new
    /\ Forall2 article_anchor_record (option_list (article_anchor item)) new.
Proof.
  unfold Multifamilydive.article_item, article_anchor, title_anchor.
  destruct (Soup.class_list_has "feed-item-ad" item);
    [intros [= <-]; exists []; split; [by rewrite app_nil_r | constructor]|].
  destruct (Soup.find (Soup.by_class ["h3"] _) item) as [title_element|];
    [|intros [= <-]; exists []; split; [by rewrite app_nil_r | constructor]].
  destruct (Soup.find (Soup.tag_in ["a"]) title_element) as [a|];
    [|intros [= <-]; exists []; split; [by rewrite app_nil_r | constructor]].
  unfold Soup.getitem. destruct (Soup.get "href" a) as [[href|l]|] eqn:Hhref;
    [|discriminate|discriminate].
  unfold mbind, result_bind, as_str, Soup.attr_value.
  assert (Hlink : (if negb (PyStr.startswith "http" href)
                   then Multifamilydive.origin +:+ href else href)
                  = absolute_link href).
  { unfold absolute_link, Multifamilydive.origin.
    by destruct (PyStr.startswith "http" href). }
  rewrite Hlink.
  intros [= <-]. eexists [_]. split; [reflexivity|].
  constructor; [|constructor]. exists href. split; [exact Hhref|].
  split; [apply lookup_insert_eq|].
  rewrite lookup_insert_ne by done. apply lookup_insert_eq.
Qed.

Section Listing.

Variable BeautifulSoup : string -> result node.

(** C10. Every record a listing parser returns comes from an entry that
    has a title element with an anchor: the records are, in order, those
    of the entries that have one (for MultifamilyDive, of the entries
    that are no advertisement and have one), each with the [href] of the
    anchor as link (made absolute for MultifamilyDive) and its stripped
    text as title. An entry without title element or without anchor adds
    no record. The list is empty when the page could not be processed. *)
Theorem listing_records_come_from_title_anchors html page_num :
  (forall links,
     Credaily.parse_brief_links BeautifulSoup html page_num = Ok links ->
     links = []
     \/ exists soup,
          BeautifulSoup html = Ok soup
          /\ Forall2 anchor_record
               (omap (title_anchor (Soup.by_class ["h5"] "c-brief-list__item-title"))
                  (Soup.find_all (Soup.by_class ["div"] "c-brief-list__item") soup))
               links)
  /\ (forall links,
        Multifamilydive.parse_article_links BeautifulSoup html page_num = Ok links ->
        links = []
        \/ exists soup,
             BeautifulSoup html = Ok soup
             /\ Forall2 article_anchor_record
                  (omap article_anchor
                     (Soup.find_all (Soup.by_class ["li"] "feed__item") soup))
                  links)
  /\ (forall links,
        Multihousing.parse_brief_links BeautifulSoup html page_num = Ok links ->
        links = []
        \/ exists soup,
             BeautifulSoup html = Ok soup
             /\ Forall2 anchor_record
                  (omap (title_anchor (Soup.by_class ["h2"] "fl-post-title"))
                     (Soup.find_all
                        (Soup.by_class ["div"] "cpe-posts-category-page") soup))
                  links).
Proof.
  split; [|split]; intros links.
  - unfold Credaily.parse_brief_links.
    destruct (Credaily.parse_brief_links_try BeautifulSoup html)
      as [out|e] eqn:Htry; intros [= <-]; [|by left].
    right. unfold Credaily.parse_brief_links_try in Htry.
    destruct (BeautifulSoup html) as [soup|e]; [|discriminate].
    cbn in Htry. exists soup. split; [reflexivity|].
    destruct (for_each_appends _ _ _ credaily_item _ _ _ Htry) as (new & -> & H).
    exact H.
  - unfold Multifamilydive.parse_article_links.
    destruct (Multifamilydive.parse_article_links_try BeautifulSoup html)
      as [out|e] eqn:Htry; intros [= <-]; [|by left].
    right. unfold Multifamilydive.parse_article_links_try in Htry.
    destruct (BeautifulSoup html) as [soup|e]; [|discriminate].
    cbn in Htry. exists soup. split; [reflexivity|].
    destruct (for_each_appends _ _ _ multifamilydive_item _ _ _ Htry)
      as (new & -> & H).
    exact H.
  - unfold Multihousing.parse_brief_links.
    destruct (Multihousing.parse_brief_links_try BeautifulSoup html)
      as [out|e] eqn:Htry; intros [= <-]; [|by left].
    right. unfold Multihousing.parse_brief_links_try in Htry.
    destruct (BeautifulSoup html) as [soup|e]; [|discriminate].
    cbn in Htry. exists soup. split; [reflexivity|].
    destruct (for_each_appends _ _ _ multihousing_item _ _ _ Htry)
      as (new & -> & H).
    exact H.
Qed.

End Listing.

(** The CRE Daily page with an entry that has no title element gives the
    record of the other entry only. *)
Example credaily_listing_links :
  (fun d : dict => (d !! "link", d !! "title", d !! "author"))
    <$> match Credaily.parse_brief_links
                (Sample.parser_of Sample.credaily_listing) "<html>" 1 with
        | Ok links => links
        | Raise _ => []
        end
  = [(Some (PStr "https://www.credaily.com/briefs/rates/"),
      Some (PStr "Rates"), Some (PStr "Ann Lee"))].
Proof. vm_compute. reflexivity. Qed.

Lemma listing_records_come_from_title_anchors_witness :
  let parser := Sample.parser_of Sample.credaily_listing in
  let links :=
    match Credaily.parse_brief_links parser "<html>" 1 with
    | Ok links => links
    | Raise _ => []
    end in
  links = []
  \/ exists soup,
       parser "<html>" = Ok soup
       /\ Forall2 anchor_record
            (omap (title_anchor (Soup.by_class ["h5"] "c-brief-list__item-title"))
               (Soup.find_all (Soup.by_class ["div"] "c-brief-list__item") soup))
            links.
Proof.
  cbv zeta.
  apply (proj1 (listing_records_come_from_title_anchors
                  (Sample.parser_of Sample.credaily_listing) "<html>" 1)).
  vm_compute. reflexivity.
Defined.

(** ** Advertisements and relative links in the MultifamilyDive listing *)

Lemma article_item_ad item acc :
  Soup.class_list_has "feed-item-ad" item = true ->
  Multifamilydive.article_item item acc = Ok acc.
Proof. intros Had. unfold Multifamilydive.article_item. by rewrite Had. Qed.

Lemma article_item_entry item acc a href :
  Soup.class_list_has "feed-item-ad" item = false ->
  title_anchor (Soup.by_class ["h3"] "feed__title") item = Some a ->
  Soup.get "href" a = Some (AStr href) ->
  exists r,
    Multifamilydive.article_item item acc = Ok (acc ++ [r])
    /\ r !! "link" = Some (PStr (absolute_link href))
    /\ r !! "title" = Some (PStr (stripped_text a)).
Proof.
  intros Had Hanchor Hhref.
  unfold Multifamilydive.article_item. rewrite Had.
  unfold title_anchor in Hanchor.
  destruct (Soup.find (Soup.by_class ["h3"] _) item) as [title_element|];
    [|discriminate].
  rewrite Hanchor. unfold Soup.getitem. rewrite Hhref.
  unfold mbind, result_bind, as_str, Soup.attr_value.
  assert (Hlink : (if negb (PyStr.startswith "http" href)
                   then Multifamilydive.origin +:+ href else href)
                  = absolute_link href).
  { unfold absolute_link, Multifamilydive.origin.
    by destruct (PyStr.startswith "http" href). }
  rewrite Hlink.
  eexists. split; [reflexivity|].
  split; [apply lookup_insert_eq|].
  rewrite lookup_insert_ne by done. apply lookup_insert_eq.
Qed.

Lemma absolute_link_http href :
  PyStr.startswith "http" href = true -> absolute_link href = href.
Proof. intros H. unfold absolute_link. by rewrite H. Qed.

Lemma absolute_link_root href :
  PyStr.startswith "/" href = true ->
  absolute_link href = "https://www.multifamilydive.com" +:+ href.
Proof.
  intros H. unfold absolute_link.
  destruct href as [|c href]; [discriminate|].
  cbn [PyStr.startswith] in H. apply andb_true_iff in H as [Hc _].
  apply Ascii.eqb_eq in Hc as <-. reflexivity.
Qed.

Section AdEntries.

Variable BeautifulSoup : string -> result node.

(** C6, as amended. A MultifamilyDive listing page has two entries, one
    with the advertisement marker; the other one has a title element
    with an anchor that has an [href]. Then the parser returns exactly
    one record, that of the other entry: the advertisement is passed
    over. The link of the record is the [href] when it starts with
    "http", and the origin of the site followed by the [href] when the
    [href] is a path from the root of the site. *)
Theorem advertisement_skipped_and_link_absolute
  html page_num soup e1 e2 entry a href :
  BeautifulSoup html = Ok soup ->
  Soup.find_all (Soup.by_class ["li"] "feed__item") soup = [e1; e2] ->
  (Soup.class_list_has "feed-item-ad" e1 = true /\ entry = e2)
  \/ (Soup.class_list_has "feed-item-ad" e2 = true /\ entry = e1) ->
  Soup.class_list_has "feed-item-ad" entry = false ->
  title_anchor (Soup.by_class ["h3"] "feed__title") entry = Some a ->
  Soup.get "href" a = Some (AStr href) ->
  exists r,
    Multifamilydive.parse_article_links BeautifulSoup html page_num = Ok [r]
    /\ r !! "title" = Some (PStr (stripped_text a))
    /\ (PyStr.startswith "http" href = true -> r !! "link" = Some (PStr href))
    /\ (PyStr.startswith "/" href = true ->
        PyStr.startswith "//" href = false ->
        r !! "link" = Some (PStr ("https://www.multifamilydive.com" +:+ href))).
Proof.
  intros Hsoup Hitems Hwhich Hentry Hanchor Hhref.
  unfold Multifamilydive.parse_article_links,
    Multifamilydive.parse_article_links_try.
  rewrite Hsoup. cbn [mbind result_bind]. rewrite Hitems.
  cbn [for_each mbind result_bind].
  assert (Hone : exists r,
             match Multifamilydive.article_item e1 [] with
             | Ok a0 =>
                 match Multifamilydive.article_item e2 a0 with
                 | Ok a1 => Ok a1
                 | Raise e => Raise e
                 end
             | Raise e => Raise e
             end = Ok [r]
             /\ r !! "link" = Some (PStr (absolute_link href))
             /\ r !! "title" = Some (PStr (stripped_text a))).
  { destruct Hwhich as [[Had ->]|[Had ->]].
    - rewrite (article_item_ad e1 [] Had).
      destruct (article_item_entry e2 [] a href Hentry Hanchor Hhref)
        as (r & -> & Hr). by exists r.
    - destruct (article_item_entry e1 [] a href Hentry Hanchor Hhref)
        as (r & -> & Hr). rewrite (article_item_ad e2 _ Had). by exists r. }
  destruct Hone as (r & Hrun & Hlink & Htitle).
  exists r. split.
  { revert Hrun.
    destruct (Multifamilydive.article_item e1 []) as [a0|]; [|discriminate].
    cbn. destruct (Multifamilydive.article_item e2 a0); [|discriminate].
    by intros [= ->]. }
  split; [exact Htitle|]. split.
  - intros Hhttp. by rewrite Hlink, absolute_link_http.
  - intros Hroot _. by rewrite Hlink, absolute_link_root.
Qed.

End AdEntries.

(** The claim as it was stated fails when the entry that is no
    advertisement has no title element: no record is returned. *)
Lemma untitled_entry_gives_no_record :
  two_entries_one_ad Sample.untitled_listing
  /\ ~ exists r,
         Multifamilydive.parse_article_links
           (Sample.parser_of Sample.untitled_listing) "<html>" 1 = Ok [r].
Proof.
  split.
  - exists Sample.ad_entry, Sample.untitled_entry.
    split; vm_compute; reflexivity.
  - intros [r Hr]. vm_compute in Hr. discriminate.
Qed.

Lemma advertisement_skipped_and_link_absolute_witness :
  exists r,
    Multifamilydive.parse_article_links
      (Sample.parser_of Sample.multifamilydive_listing) "<html>" 1 = Ok [r]
    /\ r !! "title" = Some (PStr "Lending")
    /\ r !! "link" = Some (PStr "https://www.multifamilydive.com/news/lending/").
Proof.
  destruct (advertisement_skipped_and_link_absolute
              (Sample.parser_of Sample.multifamilydive_listing) "<html>" 1
              Sample.multifamilydive_listing Sample.ad_entry Sample.article_entry
              Sample.article_entry (Sample.anchor "/news/lending/" " Lending ")
              "/news/lending/")
    as (r & Hrun & Htitle & _ & Hlink).
  - reflexivity.
  - vm_compute. reflexivity.
  - left. split; [vm_compute|]; reflexivity.
  - vm_compute. reflexivity.
  - vm_compute. reflexivity.
  - vm_compute. reflexivity.
  - exists r. split; [exact Hrun|]. split.
    + rewrite Htitle. vm_compute. reflexivity.
    + apply Hlink; reflexivity.
Defined.

(** ** Categories as a delimited string *)

Lemma no_comma_cons c s :
  no_comma (String c s) -> Ascii.eqb c "," = false /\ no_comma s.
Proof.
  unfold no_comma. cbn [PyStr.contains PyStr.startswith].
  intros H. apply orb_false_iff in H as [Hc Hs]. split; [|exact Hs].
  rewrite andb_true_r in Hc. by rewrite Ascii.eqb_sym.
Qed.

(** A piece without comma followed by a comma is the first piece. *)
Lemma split_piece s t :
  no_comma s ->
  Db.split_categories (s +:+ String "," t) = s :: Db.split_categories t.
Proof.
  induction s as [|c s IH]; intros Hs.
  - reflexivity.
  - apply no_comma_cons in Hs as [Hc Hs].
    change (Db.split_categories (String c (s +:+ String "," t))
            = String c s :: Db.split_categories t).
    cbn [Db.split_categories]. rewrite Hc, (IH Hs). reflexivity.
Qed.

Lemma split_last s : no_comma s -> Db.split_categories s = [s].
Proof.
  induction s as [|c s IH]; intros Hs.
  - reflexivity.
  - apply no_comma_cons in Hs as [Hc Hs].
    cbn [Db.split_categories]. rewrite Hc, (IH Hs). reflexivity.
Qed.

Lemma split_join (l : list string) :
  l ≠ [] -> Forall no_comma l ->
  Db.split_categories (PyStr.join "," l) = l.
Proof.
  induction l as [|x [|y l] IH]; intros Hne Hall.
  - done.
  - cbn [PyStr.join]. apply split_last. by inversion Hall.
  - inversion Hall as [|? ? Hx Hrest]; subst.
    change (PyStr.join "," (x :: y :: l))
      with (x +:+ String "," (PyStr.join "," (y :: l))).
    rewrite (split_piece _ _ Hx), IH; [reflexivity | done | exact Hrest].
Qed.

(** C9, as amended. Category round-trip: for a record whose categories
    are a non-empty sequence of strings, none of which contains a comma,
    the string stored in the [categories] column, split on the comma,
    is the sequence again, in the same order. *)
Theorem categories_round_trip (article : dict) (categories : list string) :
  article !! "categories" = Some (PList categories) ->
  categories ≠ [] ->
  Forall no_comma categories ->
  exists stored,
    Db.join_categories article = Ok stored
    /\ Db.split_categories stored = categories.
Proof.
  intros Hcat Hne Hall. exists (PyStr.join "," categories). split.
  - unfold Db.join_categories. by rewrite Hcat.
  - by apply split_join.
Qed.

(** The claim as it was stated fails for the empty sequence, which is
    what a page without categories gives: it is stored as the empty
    string, and the empty string splits into one empty category. *)
Lemma empty_categories_do_not_round_trip :
  Forall no_comma []
  /\ exists stored,
       Db.join_categories (<["categories" := PList []]> ∅) = Ok stored
       /\ Db.split_categories stored ≠ [].
Proof.
  split; [constructor|]. exists "". split; [vm_compute; reflexivity|].
  discriminate.
Qed.

(** No way of reading the column back can tell the empty sequence from
    the sequence of one empty category: both are stored as [""]. *)
Example empty_and_blank_categories_collide :
  Db.join_categories (<["categories" := PList []]> ∅)
  = Db.join_categories (<["categories" := PList [""]]> ∅).
Proof. vm_compute. reflexivity. Qed.

Lemma categories_round_trip_witness :
  exists stored,
    Db.join_categories SampleDb.second_scrape = Ok stored
    /\ Db.split_categories stored = ["Finance"; "Policy"].
Proof.
  apply (categories_round_trip SampleDb.second_scrape ["Finance"; "Policy"]).
  - vm_compute. reflexivity.
  - discriminate.
  - repeat constructor.
Defined.

(** ** The table of articles *)

Lemma has_link_update l l' title p r :
  Db.has_link l' (if Db.has_link l r then Db.do_update title p r else r)
  = Db.has_link l' r.
Proof. by destruct (Db.has_link l r). Qed.

Lemma link_update l title p r :
  Db.row_link (if Db.has_link l r then Db.do_update title p r else r)
  = Db.row_link r.
Proof. by destruct (Db.has_link l r). Qed.

Lemma has_link_true l r : Db.has_link l r = true <-> Db.row_link r = l.
Proof. unfold Db.has_link. apply String.eqb_eq. Qed.

(** No row has the link: the filter is empty. *)
Lemma rows_with_none l rows :
  existsb (Db.has_link l) rows = false -> rows_with l rows = [].
Proof.
  induction rows as [|r rows IH]; [done|].
  cbn [existsb rows_with List.filter]. intros H.
  apply orb_false_iff in H as [Hr Hrows]. rewrite Hr. by apply IH.
Qed.

Lemma existsb_has_link l rows :
  existsb (Db.has_link l) rows = true <-> l ∈ Db.row_link <$> rows.
Proof.
  induction rows as [|r rows IH]; cbn [existsb fmap list_fmap].
  - split; [done|]. intros H. by apply elem_of_nil in H.
  - rewrite orb_true_iff, IH, elem_of_cons, has_link_true. intuition congruence.
Qed.

Lemma existsb_has_link_false l rows :
  existsb (Db.has_link l) rows = false <-> l ∉ Db.row_link <$> rows.
Proof.
  rewrite <- existsb_has_link. destruct (existsb _ rows); intuition congruence.
Qed.

(** With distinct links, the rows that have a link are one row. *)
Lemma rows_with_one l rows :
  NoDup (Db.row_link <$> rows) ->
  existsb (Db.has_link l) rows = true ->
  exists r, rows_with l rows = [r] /\ r ∈ rows.
Proof.
  induction rows as [|r rows IH]; [done|].
  cbn [fmap list_fmap existsb rows_with List.filter].
  intros Hnodup Hex. apply NoDup_cons in Hnodup as [Hr Hnodup].
  destruct (Db.has_link l r) eqn:Hlr.
  - exists r. split; [|apply elem_of_cons; by left].
    f_equal. apply rows_with_none. apply existsb_has_link_false.
    apply has_link_true in Hlr. by rewrite <- Hlr.
  - cbn in Hex. destruct (IH Hnodup Hex) as (r' & Hr' & Hin).
    exists r'. split; [exact Hr'|]. apply elem_of_cons. by right.
Qed.

(** The links after the statement: as before, with the new link at the
    end when it was not there. *)
Lemma links_insert_on_conflict id now title l p rows :
  Db.row_link <$> Db.insert_on_conflict id now title l p rows
  = if existsb (Db.has_link l) rows then Db.row_link <$> rows
    else (Db.row_link <$> rows) ++ [l].
Proof.
  unfold Db.insert_on_conflict. destruct (existsb (Db.has_link l) rows).
  - rewrite <- list_fmap_compose. apply list_fmap_ext.
    intros i r _. cbn. apply link_update.
  - by rewrite fmap_app.
Qed.

Lemma NoDup_insert_on_conflict id now title l p rows :
  NoDup (Db.row_link <$> rows) ->
  NoDup (Db.row_link <$> Db.insert_on_conflict id now title l p rows).
Proof.
  intros Hnodup. rewrite links_insert_on_conflict.
  destruct (existsb (Db.has_link l) rows) eqn:Hex; [exact Hnodup|].
  apply NoDup_app. split; [exact Hnodup|]. split; [|apply NoDup_singleton].
  intros x Hx Hx'. apply list_elem_of_singleton in Hx' as ->.
  by apply existsb_has_link_false in Hex.
Qed.

Lemma links_kept id now title l p rows l' :
  l' ∈ Db.row_link <$> rows ->
  l' ∈ Db.row_link <$> Db.insert_on_conflict id now title l p rows.
Proof.
  intros Hin. rewrite links_insert_on_conflict.
  destruct (existsb _ rows); [exact Hin|]. apply elem_of_app. by left.
Qed.

Lemma link_stored id now title l p rows :
  l ∈ Db.row_link <$> Db.insert_on_conflict id now title l p rows.
Proof.
  rewrite links_insert_on_conflict.
  destruct (existsb _ rows) eqn:Hex; [by apply existsb_has_link|].
  apply elem_of_app. right. by apply list_elem_of_singleton.
Qed.

Lemma rows_with_map_update l title p rows :
  rows_with l ((fun r => if Db.has_link l r then Db.do_update title p r else r)
                 <$> rows)
  = Db.do_update title p <$> rows_with l rows.
Proof.
  induction rows as [|r rows IH]; [done|].
  cbn [fmap list_fmap rows_with List.filter].
  rewrite has_link_update. destruct (Db.has_link l r) eqn:Hlr.
  - cbn [fmap list_fmap]. f_equal. exact IH.
  - exact IH.
Qed.

(** The row the statement leaves for the link: the updated old row, or
    a new row. *)
Lemma rows_with_insert_on_conflict id now title l p rows :
  NoDup (Db.row_link <$> rows) ->
  exists row,
    rows_with l (Db.insert_on_conflict id now title l p rows) = [row]
    /\ match rows_with l rows with
       | old :: _ => row = Db.do_update title p old
       | [] => row = Db.new_row id now title l p
       end.
Proof.
  intros Hnodup. unfold Db.insert_on_conflict.
  destruct (existsb (Db.has_link l) rows) eqn:Hex.
  - destruct (rows_with_one l rows Hnodup Hex) as (old & Hold & _).
    exists (Db.do_update title p old).
    by rewrite rows_with_map_update, Hold.
  - exists (Db.new_row id now title l p).
    unfold rows_with. rewrite List.filter_app.
    fold (rows_with l rows). rewrite (rows_with_none l rows Hex).
    cbn. unfold Db.has_link. cbn. by rewrite String.eqb_refl.
Qed.

Section Table.

Variable CURRENT_TIMESTAMP : nat -> Z.
Variable adapt_list : list string -> result (option string).
Variable server_takes : Db.params -> bool.

#[local] Abbreviation insert :=
  (Db.insert_multifamilydive_article CURRENT_TIMESTAMP adapt_list server_takes).
#[local] Abbreviation insert_all :=
  (Db.insert_multifamilydive_articles CURRENT_TIMESTAMP adapt_list server_takes).

(** The parameters of the statement, one by one. *)
Lemma statement_params_fields article p :
  Db.statement_params adapt_list article = Ok p ->
  Db.param adapt_list article "title" "" = Ok (Db.p_title p)
  /\ Db.param adapt_list article "link" "" = Ok (Db.p_link p)
  /\ Db.param adapt_list article "summary" "" = Ok (Db.p_summary p)
  /\ Db.param adapt_list article "author" "" = Ok (Db.p_author p)
  /\ Db.param adapt_list article "author_title" "" = Ok (Db.p_author_title p)
  /\ Db.param adapt_list article "date" "" = Ok (Db.p_date p)
  /\ (exists categories,
        Db.join_categories article = Ok categories
        /\ Db.has_nul categories = false
        /\ Db.p_categories p = Some categories)
  /\ Db.param adapt_list article "content" "" = Ok (Db.p_content p)
  /\ Db.param adapt_list article "source" "multifamilydive"
     = Ok (Db.p_source p).
Proof.
  unfold Db.statement_params, mbind, result_bind.
  destruct (Db.join_categories article) as [categories|]; [|discriminate].
  destruct (Db.param adapt_list article "title" "") as [title|]; [|discriminate].
  destruct (Db.param adapt_list article "link" "") as [link|]; [|discriminate].
  destruct (Db.param adapt_list article "summary" "") as [summary|];
    [|discriminate].
  destruct (Db.param adapt_list article "author" "") as [author|];
    [|discriminate].
  destruct (Db.param adapt_list article "author_title" "") as [author_title|];
    [|discriminate].
  destruct (Db.param adapt_list article "date" "") as [date|]; [|discriminate].
  unfold Db.adapt at 1.
  destruct (Db.has_nul categories) eqn:Hnul; [discriminate|].
  destruct (Db.param adapt_list article "content" "") as [content|];
    [|discriminate].
  destruct (Db.param adapt_list article "source" "multifamilydive") as [source|];
    [|discriminate].
  intros [= <-]. cbn. repeat split; eauto.
Qed.

(** What is bound for a field is what the row is to hold of it. *)
Lemma param_field_holds article k dflt column :
  Db.param adapt_list article k dflt = Ok column ->
  field_holds adapt_list article k dflt column.
Proof.
  unfold Db.param, field_holds.
  destruct (article !! k) as [[|s|l]|]; cbn.
  - by intros [= <-].
  - destruct (Db.has_nul s); [discriminate|]. by intros [= <-].
  - done.
  - destruct (Db.has_nul dflt); [discriminate|]. by intros [= <-].
Qed.

Lemma chars_list_ascii s :
  Db.chars s = (fun c => String c "") <$> list_ascii_of_string s.
Proof. induction s as [|c s IH]; [reflexivity|]. cbn. by rewrite IH. Qed.

Lemma join_categories_hold article categories :
  Db.join_categories article = Ok categories ->
  categories_hold article (Some categories).
Proof.
  unfold Db.join_categories, categories_hold.
  destruct (article !! "categories") as [[|s|l]|]; cbn.
  - discriminate.
  - intros [= <-]. by rewrite chars_list_ascii.
  - by intros [= <-].
  - by intros [= <-].
Qed.

(** The parameters of an accepted record make a row that holds the
    record, as a new row and as an update of an old one. *)
Lemma params_row_holds article p title link row :
  Db.statement_params adapt_list article = Ok p ->
  Db.p_title p = Some title ->
  Db.p_link p = Some link ->
  Db.row_title row = title ->
  Db.row_link row = link ->
  Db.row_summary row = Db.p_summary p ->
  Db.row_author row = Db.p_author p ->
  Db.row_author_title row = Db.p_author_title p ->
  Db.row_date row = Db.p_date p ->
  Db.row_categories row = Db.p_categories p ->
  Db.row_content row = Db.p_content p ->
  Db.row_source row = Db.p_source p ->
  row_holds adapt_list article row.
Proof.
  intros Hp Htitle Hlink H1 H2 H3 H4 H5 H6 H7 H8 H9.
  destruct (statement_params_fields _ _ Hp)
    as (Ht & Hl & Hsum & Hau & Hat & Hda & (c & Hc & _ & Hpc) & Hco & Hso).
  rewrite Htitle in Ht. rewrite Hlink in Hl.
  unfold row_holds. rewrite H1, H2, H3, H4, H5, H6, H7, H8, H9, Hpc.
  repeat (split; [by apply param_field_holds|]).
  split; [by apply join_categories_hold|].
  split; by apply param_field_holds.
Qed.

(** An accepted record, on a connection with no failed transaction and
    with an id left: the statement runs and is committed. *)
Lemma insert_accepted article s :
  accepted adapt_list server_takes article = true ->
  Db.aborted s = false ->
  has_room s 1 ->
  exists p title link,
    Db.statement_params adapt_list article = Ok p
    /\ Db.p_title p = Some title
    /\ Db.p_link p = Some link
    /\ insert article s
       = (Ok true,
          stored_state s
            (Db.insert_on_conflict (Db.next_id s) (CURRENT_TIMESTAMP (Db.txn s))
               title link p (Db.pending s))).
Proof.
  unfold accepted.
  destruct (Db.statement_params adapt_list article) as [p|] eqn:Hp;
    [|discriminate].
  destruct (Db.p_title p) as [title|] eqn:Htitle; [|discriminate].
  destruct (Db.p_link p) as [link|] eqn:Hlink; [|discriminate].
  intros Htakes Haborted Hroom. exists p, title, link.
  split; [reflexivity|]. split; [exact Htitle|]. split; [exact Hlink|].
  assert (Hseq : (Db.max_serial <? N.of_nat (Db.next_id s))%N = false).
  { apply N.ltb_ge. unfold has_room in Hroom. lia. }
  unfold Db.insert_multifamilydive_article, try_except.
  rewrite bind_run. unfold lift. rewrite Hp.
  rewrite bind_run. unfold Db.execute.
  rewrite Haborted, Hseq, Htitle, Hlink, Htakes.
  reflexivity.
Qed.

(** Any other call returns [False], and is rolled back: the committed
    rows are as they were, no transaction is left, and the sequence has
    moved by one id at most. *)
Lemma insert_rejected article s :
  accepted adapt_list server_takes article = false \/ Db.aborted s = true \/ ~ has_room s 1 ->
  exists n,
    Db.next_id s <= n <= S (Db.next_id s)
    /\ insert article s = (Ok false, rolled_back_state s n).
Proof.
  intros Hwhy.
  unfold Db.insert_multifamilydive_article, try_except.
  rewrite bind_run. unfold lift.
  destruct (Db.statement_params adapt_list article) as [p|] eqn:Hp;
    [|exists (Db.next_id s); split; [lia|reflexivity]].
  rewrite bind_run. unfold Db.execute.
  destruct (Db.aborted s) eqn:Haborted;
    [exists (Db.next_id s); split; [lia|reflexivity]|].
  destruct (Db.max_serial <? N.of_nat (Db.next_id s))%N eqn:Hseq;
    [exists (Db.next_id s); split; [lia|reflexivity]|].
  destruct (Db.p_title p) as [title|] eqn:Htitle;
    [|exists (S (Db.next_id s)); split; [lia|reflexivity]].
  destruct (Db.p_link p) as [link|] eqn:Hlink;
    [|exists (S (Db.next_id s)); split; [lia|reflexivity]].
  destruct (server_takes p) eqn:Htakes;
    [|exists (S (Db.next_id s)); split; [lia|reflexivity]].
  exfalso. destruct Hwhy as [Hacc|[Hab|Hroom]].
  - unfold accepted in Hacc. by rewrite Hp, Htitle, Hlink, Htakes in Hacc.
  - discriminate.
  - apply Hroom. apply N.ltb_ge in Hseq. unfold has_room. lia.
Qed.

(** The two outcomes of a call. *)
Lemma insert_outcome article s :
  (exists p title link,
     accepted adapt_list server_takes article = true
     /\ Db.aborted s = false
     /\ has_room s 1
     /\ Db.statement_params adapt_list article = Ok p
     /\ Db.p_title p = Some title
     /\ Db.p_link p = Some link
     /\ insert article s
        = (Ok true,
           stored_state s
             (Db.insert_on_conflict (Db.next_id s)
                (CURRENT_TIMESTAMP (Db.txn s)) title link p (Db.pending s))))
  \/ (exists n,
        (accepted adapt_list server_takes article = false \/ Db.aborted s = true
         \/ ~ has_room s 1)
        /\ Db.next_id s <= n <= S (Db.next_id s)
        /\ insert article s = (Ok false, rolled_back_state s n)).
Proof.
  destruct (accepted adapt_list server_takes article) eqn:Hacc.
  - destruct (Db.aborted s) eqn:Haborted.
    + right. destruct (insert_rejected article s) as (n & Hn & Hrun); [tauto|].
      exists n. tauto.
    + destruct (decide (N.of_nat (Db.next_id s) + N.of_nat 1
                        <= Db.max_serial + 1)%N) as [Hroom|Hroom].
      * left. destruct (insert_accepted article s Hacc Haborted Hroom)
          as (p & title & link & Hp & Ht & Hl & Hrun).
        exists p, title, link. tauto.
      * right. destruct (insert_rejected article s) as (n & Hn & Hrun);
          [tauto|].
        exists n. tauto.
  - right. destruct (insert_rejected article s) as (n & Hn & Hrun); [tauto|].
    exists n. tauto.
Qed.

(** On a connection between two calls that has an id left, the value
    returned says whether the record was accepted. *)
Lemma insert_returns article s :
  wf s -> has_room s 1 ->
  (insert article s).1 = Ok (accepted adapt_list server_takes article).
Proof.
  intros (_ & _ & Haborted) Hroom.
  destruct (insert_outcome article s)
    as [(p & title & link & Hacc & _ & _ & _ & _ & _ & ->)
       |(n & Hwhy & _ & ->)].
  - by rewrite Hacc.
  - destruct Hwhy as [->|[Hab|Hno]]; [reflexivity|congruence|tauto].
Qed.

Lemma insert_wf article s :
  wf s -> wf (insert article s).2.
Proof.
  intros (Hnodup & Hpending & Haborted).
  destruct (insert_outcome article s)
    as [(p & title & link & _ & _ & _ & _ & _ & _ & ->)|(n & _ & _ & ->)].
  - split; [|by split]. cbn.
    apply NoDup_insert_on_conflict. by rewrite Hpending.
  - by repeat split.
Qed.

(** A call uses one id at most. *)
Lemma insert_next_id article s :
  Db.next_id s <= Db.next_id (insert article s).2 <= S (Db.next_id s).
Proof.
  destruct (insert_outcome article s)
    as [(p & title & link & _ & _ & _ & _ & _ & _ & ->)|(n & _ & Hn & ->)];
    cbn; lia.
Qed.

Lemma insert_room article s n :
  has_room s (S n) -> has_room (insert article s).2 n.
Proof.
  unfold has_room. pose proof (insert_next_id article s). lia.
Qed.

Lemma has_room_le s n m : m <= n -> has_room s n -> has_room s m.
Proof. unfold has_room. lia. Qed.

(** The links that are stored stay stored. *)
Lemma insert_keeps_links article s l :
  wf s ->
  l ∈ Db.row_link <$> Db.committed s ->
  l ∈ Db.row_link <$> Db.committed (insert article s).2.
Proof.
  intros (Hnodup & Hpending & _) Hin.
  destruct (insert_outcome article s)
    as [(p & title & link & _ & _ & _ & _ & _ & _ & ->)|(n & _ & _ & ->)].
  - cbn. apply links_kept. by rewrite Hpending.
  - exact Hin.
Qed.

Lemma insert_pair article s :
  wf s -> has_room s 1 ->
  insert article s = (Ok (accepted adapt_list server_takes article), (insert article s).2).
Proof.
  intros Hwf Hroom. pose proof (insert_returns article s Hwf Hroom) as H.
  destruct (insert article s) as [r s']. cbn in *. by rewrite H.
Qed.

(** A record that was accepted has a row, under its link. *)
Lemma insert_stores article s l :
  wf s -> has_room s 1 ->
  accepted adapt_list server_takes article = true ->
  stored_link adapt_list article = Some l ->
  l ∈ Db.row_link <$> Db.committed (insert article s).2.
Proof.
  intros (Hnodup & Hpending & Haborted) Hroom Hacc Hl.
  destruct (insert_accepted article s Hacc Haborted Hroom)
    as (p & title & link & Hp & _ & Hlink & Hrun).
  unfold stored_link in Hl. rewrite Hp, Hlink in Hl. injection Hl as ->.
  rewrite Hrun. cbn. apply link_stored.
Qed.

Lemma rows_with_stored l rows :
  NoDup (Db.row_link <$> rows) ->
  l ∈ Db.row_link <$> rows ->
  exists row, rows_with l rows = [row].
Proof.
  intros Hnodup Hin. apply existsb_has_link in Hin.
  destruct (rows_with_one l rows Hnodup Hin) as (row & Hrow & _). eauto.
Qed.

(** The loop: the count grows by one for each accepted record, every
    accepted record has its row at the end, and no row is lost. *)
Lemma insert_loop_spec articles : forall n s,
  wf s ->
  has_room s (List.length articles) ->
  exists s',
    Db.insert_loop CURRENT_TIMESTAMP adapt_list server_takes articles n s
    = (Ok (n + List.length (List.filter (accepted adapt_list server_takes) articles)), s')
    /\ wf s'
    /\ (forall l, l ∈ Db.row_link <$> Db.committed s ->
                  l ∈ Db.row_link <$> Db.committed s')
    /\ (forall a l, a ∈ articles ->
                    accepted adapt_list server_takes a = true ->
                    stored_link adapt_list a = Some l ->
                    l ∈ Db.row_link <$> Db.committed s').
Proof.
  induction articles as [|article rest IH]; intros n s Hwf Hroom.
  - exists s. split; [cbn; by rewrite Nat.add_0_r|].
    split; [exact Hwf|]. split; [done|].
    intros a l Ha. by apply elem_of_nil in Ha.
  - cbn [List.length] in Hroom.
    assert (Hroom1 : has_room s 1) by (apply (has_room_le s (S (List.length rest))); [lia|exact Hroom]).
    cbn [Db.insert_loop]. rewrite bind_run, (insert_pair article s Hwf Hroom1).
    pose proof (insert_wf article s Hwf) as Hwf1.
    pose proof (insert_room article s _ Hroom) as Hroom'.
    set (s1 := (insert article s).2) in *.
    destruct (IH (if accepted adapt_list server_takes article then n + 1 else n) s1 Hwf1 Hroom')
      as (s' & Hrun & Hwf' & Hkept & Hstored).
    exists s'. split.
    { rewrite Hrun. f_equal. f_equal. cbn [List.filter].
      destruct (accepted adapt_list server_takes article); cbn [List.length]; lia. }
    split; [exact Hwf'|]. split.
    { intros l Hl. apply Hkept. by apply insert_keeps_links. }
    intros a l Ha Hacc Hl. apply elem_of_cons in Ha as [->|Ha].
    + apply Hkept. by apply insert_stores.
    + by apply (Hstored a).
Qed.

(** C1. Idempotent upsert. Two records with the same link are upserted
    one after the other, and both calls return [True]. Then there is
    exactly one row with that link after the first upsert and exactly
    one after the second; the row after the second holds the values of
    the fields of the second record in title, link, summary, author,
    author title, date, categories, content and source, and has the id
    and the creation timestamp of the row after the first. *)
Theorem upsert_twice_keeps_one_row first second s s1 s2 :
  wf s ->
  first !! "link" = second !! "link" ->
  insert first s = (Ok true, s1) ->
  insert second s1 = (Ok true, s2) ->
  exists link row1 row2,
    stored_link adapt_list second = Some link
    /\ rows_with link (Db.committed s1) = [row1]
    /\ rows_with link (Db.committed s2) = [row2]
    /\ row_holds adapt_list second row2
    /\ Db.row_link row2 = link
    /\ Db.row_id row2 = Db.row_id row1
    /\ Db.row_created_at row2 = Db.row_created_at row1.
Proof.
  intros Hwf Hsame Hrun1 Hrun2.
  destruct (insert_outcome first s)
    as [(p1 & title1 & link1 & _ & _ & _ & Hp1 & Htitle1 & Hlink1 & Hins1)
       |(n & _ & _ & Hins1)];
    rewrite Hins1 in Hrun1; [|discriminate].
  destruct (insert_outcome second s1)
    as [(p2 & title2 & link & _ & _ & _ & Hp2 & Htitle2 & Hlink2 & Hins2)
       |(n & _ & _ & Hins2)];
    rewrite Hins2 in Hrun2; [|discriminate].
  assert (Hlinks : link1 = link).
  { destruct (statement_params_fields _ _ Hp1) as (_ & H1 & _).
    destruct (statement_params_fields _ _ Hp2) as (_ & H2 & _).
    unfold Db.param in H1, H2. rewrite Hsame, H2, Hlink1, Hlink2 in H1.
    by injection H1. }
  subst link1.
  pose proof (insert_wf first s Hwf) as Hwf1. rewrite Hins1 in Hwf1.
  destruct Hwf as (Hnodup & Hpending & _).
  destruct Hwf1 as (Hnodup1 & Hpending1 & _).
  injection Hrun1 as <-. injection Hrun2 as <-.
  cbn [stored_state Db.committed Db.pending Db.next_id Db.txn fst snd] in *.
  destruct (rows_with_insert_on_conflict (Db.next_id s)
              (CURRENT_TIMESTAMP (Db.txn s)) title1 link p1 (Db.pending s))
    as (row1 & Hrow1 & _); [by rewrite Hpending|].
  destruct (rows_with_insert_on_conflict (S (Db.next_id s))
              (CURRENT_TIMESTAMP (S (Db.txn s))) title2 link p2 _ Hnodup1)
    as (row2 & Hrow2 & Hold).
  rewrite Hrow1 in Hold. subst row2.
  assert (Hlink1' : Db.row_link row1 = link).
  { assert (Hin : row1 ∈ rows_with link
                    (Db.insert_on_conflict (Db.next_id s)
                       (CURRENT_TIMESTAMP (Db.txn s)) title1 link p1
                       (Db.pending s)))
      by (rewrite Hrow1; apply list_elem_of_singleton; reflexivity).
    unfold rows_with in Hin. apply list_elem_of_In, filter_In in Hin as [_ Hin].
    by apply has_link_true. }
  exists link, row1, (Db.do_update title2 p2 row1).
  split; [unfold stored_link; by rewrite Hp2|].
  split; [exact Hrow1|]. split; [exact Hrow2|].
  split; [by apply (params_row_holds second p2 title2 link)|].
  split; [exact Hlink1'|]. by split.
Qed.

(** C7. Partial-batch resilience. The batch insert upserts the records
    one by one. On a connection between two calls that has an id left,
    a call returns whether its record is accepted, whatever the calls
    before it did; a call that returns [False] has been rolled back: the
    committed rows are as they were and no transaction, failed or not,
    is left for the next call. The batch returns the number of accepted
    records, with a row for each of them and no row lost. So for five
    records of which the third is rejected and the others are accepted,
    the count is 4 and the fourth and the fifth record have their rows. *)
Theorem batch_insert_counts_each_record articles s :
  wf s ->
  has_room s (List.length articles) ->
  (forall a s0, wf s0 -> has_room s0 1 ->
                (insert a s0).1 = Ok (accepted adapt_list server_takes a))
  /\ (forall a s0,
        wf s0 -> (insert a s0).1 = Ok false ->
        Db.committed (insert a s0).2 = Db.committed s0 /\ wf (insert a s0).2)
  /\ (exists s',
        insert_all articles s
        = (Ok (List.length (List.filter (accepted adapt_list server_takes) articles)), s')
        /\ wf s'
        /\ (forall l, l ∈ Db.row_link <$> Db.committed s ->
                      l ∈ Db.row_link <$> Db.committed s')
        /\ (forall a l, a ∈ articles ->
                        accepted adapt_list server_takes a = true ->
                        stored_link adapt_list a = Some l ->
                        exists row, rows_with l (Db.committed s') = [row]))
  /\ (forall a1 a2 a3 a4 a5 l4 l5,
        articles = [a1; a2; a3; a4; a5] ->
        accepted adapt_list server_takes a1 = true -> accepted adapt_list server_takes a2 = true ->
        accepted adapt_list server_takes a3 = false ->
        accepted adapt_list server_takes a4 = true -> accepted adapt_list server_takes a5 = true ->
        stored_link adapt_list a4 = Some l4 ->
        stored_link adapt_list a5 = Some l5 ->
        exists s' row4 row5,
          insert_all articles s = (Ok 4, s')
          /\ rows_with l4 (Db.committed s') = [row4]
          /\ rows_with l5 (Db.committed s') = [row5]).
Proof.
  intros Hwf Hroom.
  destruct (insert_loop_spec articles 0 s Hwf Hroom)
    as (s' & Hrun & Hwf' & Hkept & Hstored).
  assert (Hrows : forall a l, a ∈ articles ->
                    accepted adapt_list server_takes a = true ->
                    stored_link adapt_list a = Some l ->
                    exists row, rows_with l (Db.committed s') = [row]).
  { intros a l Ha Hacc Hl. apply rows_with_stored; [apply Hwf'|].
    by apply (Hstored a). }
  split; [apply insert_returns|]. split.
  { intros a s0 Hwf0 Hfalse. split; [|by apply insert_wf].
    destruct (insert_outcome a s0)
      as [(p & title & link & _ & _ & _ & _ & _ & _ & Hins)|(n & _ & _ & Hins)];
      rewrite Hins in Hfalse |- *; [discriminate|reflexivity]. }
  split.
  { exists s'. split; [exact Hrun|]. split; [exact Hwf'|].
    split; [exact Hkept|exact Hrows]. }
  intros a1 a2 a3 a4 a5 l4 l5 -> H1 H2 H3 H4 H5 Hl4 Hl5.
  destruct (Hrows a4 l4) as [row4 Hrow4]; [by repeat constructor|done|done|].
  destruct (Hrows a5 l5) as [row5 Hrow5]; [by repeat constructor|done|done|].
  exists s', row4, row5. split; [|by split].
  unfold Db.insert_multifamilydive_articles. rewrite Hrun. f_equal. f_equal.
  cbn [List.filter]. by rewrite H1, H2, H3, H4, H5.
Qed.

End Table.

(** The two scrapes of one article, upserted into an empty table: one
    row, with the id and the timestamp of the first upsert and the
    values of the second. *)
Example upsert_twice_rows :
  let s1 := (Db.insert_multifamilydive_article SampleDb.clock SampleDb.adapt_list SampleDb.server_takes SampleDb.first_scrape SampleDb.empty).2 in
  let s2 := (Db.insert_multifamilydive_article SampleDb.clock SampleDb.adapt_list SampleDb.server_takes SampleDb.second_scrape s1).2 in
  Db.committed s2
  = [{| Db.row_id := 1;
        Db.row_title := "Lending (updated)";
        Db.row_link := "https://www.multifamilydive.com/news/lending/";
        Db.row_summary := Some "";
        Db.row_author := Some "";
        Db.row_author_title := Some "";
        Db.row_date := Some "";
        Db.row_categories := Some "Finance,Policy";
        Db.row_content := Some "Lending slowed again.";
        Db.row_source := Some "multifamilydive";
        Db.row_created_at := 1700000000 |}].
Proof. vm_compute. reflexivity. Qed.

Lemma wf_empty : wf SampleDb.empty.
Proof. split; [constructor | by split]. Qed.

Lemma has_room_empty n : n <= 1000 -> has_room SampleDb.empty n.
Proof. unfold has_room, Db.max_serial. cbn [SampleDb.empty Db.next_id]. lia. Qed.

Lemma upsert_twice_keeps_one_row_witness :
  let s1 := (Db.insert_multifamilydive_article SampleDb.clock SampleDb.adapt_list SampleDb.server_takes SampleDb.first_scrape SampleDb.empty).2 in
  let s2 := (Db.insert_multifamilydive_article SampleDb.clock SampleDb.adapt_list SampleDb.server_takes SampleDb.second_scrape s1).2 in
  exists link row1 row2,
    stored_link SampleDb.adapt_list SampleDb.second_scrape = Some link
    /\ rows_with link (Db.committed s1) = [row1]
    /\ rows_with link (Db.committed s2) = [row2]
    /\ row_holds SampleDb.adapt_list SampleDb.second_scrape row2
    /\ Db.row_link row2 = link
    /\ Db.row_id row2 = Db.row_id row1
    /\ Db.row_created_at row2 = Db.row_created_at row1.
Proof.
  cbv zeta.
  apply (upsert_twice_keeps_one_row SampleDb.clock SampleDb.adapt_list SampleDb.server_takes
           SampleDb.first_scrape SampleDb.second_scrape SampleDb.empty).
  - exact wf_empty.
  - vm_compute. reflexivity.
  - vm_compute. reflexivity.
  - vm_compute. reflexivity.
Defined.

(** The batch of five records whose third has no title. *)
Example batch_of_five :
  (Db.insert_multifamilydive_articles SampleDb.clock SampleDb.adapt_list SampleDb.server_takes
     SampleDb.batch SampleDb.empty).1 = Ok 4
  /\ (fun r => (Db.row_id r, Db.row_title r))
       <$> Db.committed
             (Db.insert_multifamilydive_articles SampleDb.clock SampleDb.adapt_list SampleDb.server_takes SampleDb.batch SampleDb.empty).2
     = [(1, "One"); (2, "Two"); (4, "Four"); (5, "Five")].
Proof. split; vm_compute; reflexivity. Qed.

Lemma batch_insert_counts_each_record_witness :
  exists s' row4 row5,
    Db.insert_multifamilydive_articles SampleDb.clock SampleDb.adapt_list SampleDb.server_takes
      SampleDb.batch SampleDb.empty = (Ok 4, s')
    /\ rows_with "https://www.multifamilydive.com/news/4/" (Db.committed s')
       = [row4]
    /\ rows_with "https://www.multifamilydive.com/news/5/" (Db.committed s')
       = [row5].
Proof.
  eapply (proj2 (proj2 (proj2
            (batch_insert_counts_each_record SampleDb.clock SampleDb.adapt_list SampleDb.server_takes
               SampleDb.batch SampleDb.empty wf_empty
               (has_room_empty 5 ltac:(lia)))))).
  - reflexivity.
  - vm_compute. reflexivity.
  - vm_compute. reflexivity.
  - vm_compute. reflexivity.
  - vm_compute. reflexivity.
  - vm_compute. reflexivity.
  - vm_compute. reflexivity.
  - vm_compute. reflexivity.
Defined.

(** ** The tree after [decompose] *)

(** Induction on a tree, with the hypothesis for every child. *)
Lemma node_induction (P : node -> Prop) :
  (forall s, P (NText s)) ->
  (forall t a cs, Forall P cs -> P (NElem t a cs)) ->
  forall n, P n.
Proof.
  intros Htext Helem. fix IH 1. intros [s|t a cs]; [apply Htext|].
  apply Helem. induction cs as [|c cs IHcs]; constructor; [apply IH | exact IHcs].
Qed.

(** What [find_all] and [decompose_all] do on the children of a node. *)
Lemma find_all_elem P t a cs :
  Soup.find_all P (NElem t a cs)
  = flat_map (fun c => (if P c then [c] else []) ++ Soup.find_all P c) cs.
Proof.
  cbn [Soup.find_all]. induction cs as [|c cs IH]; [reflexivity|].
  cbn [flat_map]. rewrite <- IH, <- app_assoc. reflexivity.
Qed.

Lemma decompose_all_elem P t a cs :
  Soup.decompose_all P (NElem t a cs)
  = NElem t a (Soup.decompose_all P <$> List.filter (fun c => negb (P c)) cs).
Proof.
  cbn [Soup.decompose_all]. f_equal.
  induction cs as [|c cs IH]; [reflexivity|].
  cbn [List.filter]. destruct (P c); cbn [negb]; [exact IH|].
  cbn [fmap list_fmap]. f_equal. exact IH.
Qed.

Lemma shallow_decompose P n :
  shallow P -> P (Soup.decompose_all P n) = P n.
Proof.
  intros Hshallow. destruct n as [s|t a cs]; [reflexivity|].
  rewrite decompose_all_elem. apply Hshallow.
Qed.

(** After the loop [for el in tag.find_all(f): el.decompose()] the tag
    has no descendant that passes the filter. *)
Lemma find_all_decompose_all P n :
  shallow P -> Soup.find_all P (Soup.decompose_all P n) = [].
Proof.
  intros Hshallow. induction n as [s|t a cs IH] using node_induction;
    [reflexivity|].
  rewrite decompose_all_elem, find_all_elem.
  induction cs as [|c cs IHcs]; [reflexivity|].
  apply Forall_cons in IH as [Hc Hcs].
  cbn [List.filter]. destruct (P c) eqn:HPc; cbn [negb]; [by apply IHcs|].
  cbn [fmap list_fmap flat_map].
  rewrite (shallow_decompose P c Hshallow), HPc, Hc. cbn [app].
  by apply IHcs.
Qed.

Lemma shallow_tag_in names : shallow (Soup.tag_in names).
Proof. by intros t a cs cs'. Qed.

Lemma shallow_by_class_fn names f : shallow (Soup.by_class_fn names f).
Proof. by intros t a cs cs'. Qed.

Lemma shallow_by_attr names k v : shallow (Soup.by_attr names k v).
Proof. by intros t a cs cs'. Qed.

(** ** The content of the record returned *)

Lemma multifamilydive_content_run BeautifulSoup html soup info (h : heap) :
  BeautifulSoup html = Ok soup ->
  exists c h',
    Multifamilydive.parse_article_content BeautifulSoup html info h = (Ok c, h')
    /\ h !! c = None
    /\ (forall d', is_Some (h !! d') -> h' !! d' = h !! d')
    /\ deref h' c
       = <["content" := PStr (MfdContent.content soup)]>
           (MfdDetail.record soup (deref h info)).
Proof.
  intros Hsoup.
  unfold Multifamilydive.parse_article_content, try_except,
    Multifamilydive.parse_article_content_try.
  rewrite bind_run. unfold lift. rewrite Hsoup.
  rewrite bind_run. unfold dict_copy at 1. cbv zeta.
  set (c := fresh (dom h)). set (h1 := <[c := deref h info]> h).
  assert (Hc1 : is_Some (h1 !! c)) by (unfold h1; rewrite lookup_insert_eq; eauto).
  assert (Hd1 : deref h1 c = deref h info) by apply deref_insert_eq.
  rewrite bind_run.
  match goal with
  | |- context [match ?blk h1 with _ => _ end] =>
      assert (Hblk : blk h1 = (Ok (MfdContent.block soup),
                               <[c := MfdDetail.record soup (deref h1 c)]> h1))
  end.
  { unfold MfdDetail.record, MfdContent.block.
    destruct (Soup.find (Multifamilydive.container_filter soup) soup) as [ac|].
    - by apply metadata_acts.
    - by apply (acts_ret c (soup, "")). }
  rewrite Hblk. unfold MfdContent.content.
  destruct (MfdContent.block soup) as [soup' ct].
  destruct (Multifamilydive.fallbacks soup' ct) as [soup'' content].
  rewrite bind_run. unfold dict_set. cbn.
  eexists c, _. split; [reflexivity|].
  split; [apply not_elem_of_dom, is_fresh|].
  split.
  - intros d' Hd'. pose proof (fresh_loc_ne h d' Hd') as Hne. fold c in Hne.
    unfold h1. by rewrite !lookup_insert_ne.
  - by rewrite !deref_insert_eq, Hd1.
Qed.

Lemma multihousing_content_run BeautifulSoup html soup info (h : heap) :
  BeautifulSoup html = Ok soup ->
  is_Some (h !! info) ->
  exists c h',
    Multihousing.parse_brief_content BeautifulSoup html info h = (Ok c, h')
    /\ h !! c = None
    /\ c ≠ info
    /\ deref h' info = MhDetail.record soup (deref h info)
    /\ (forall d', d' ≠ info -> is_Some (h !! d') -> h' !! d' = h !! d')
    /\ deref h' c
       = <["content" := PStr (MhContent.content soup)]>
           (MhDetail.record soup (deref h info)).
Proof.
  intros Hsoup Hinfo.
  unfold Multihousing.parse_brief_content, try_except,
    Multihousing.parse_brief_content_try.
  rewrite bind_run. unfold lift. rewrite Hsoup.
  rewrite bind_run.
  match goal with
  | |- context [match ?blk h with _ => _ end] =>
      assert (Hblk : blk h = (Ok (MhContent.main soup),
                              <[info := MhDetail.record soup (deref h info)]> h))
  end.
  { unfold MhDetail.record, MhContent.main.
    destruct (Soup.find (Soup.by_attr ["div"] "id" "cmw_main_content") soup)
      as [main_content|].
    - by apply fill_block_acts.
    - by apply (acts_ret info ""). }
  rewrite Hblk. unfold MhContent.content.
  set (h1 := <[info := MhDetail.record soup (deref h info)]> h).
  destruct (if PyStr.is_empty (MhContent.main soup)
            then body_fallback soup (MhContent.main soup)
            else (soup, MhContent.main soup)) as [soup' content].
  cbn [snd].
  destruct (copy_with_content_result info content h1)
    as (c & h' & Hrun & Hfresh & Hc & Hkeep).
  assert (Hinfo1 : is_Some (h1 !! info))
    by (unfold h1; rewrite lookup_insert_eq; eauto).
  assert (Hd1 : deref h1 info = MhDetail.record soup (deref h info))
    by apply deref_insert_eq.
  assert (Hne : c ≠ info)
    by (intros ->; rewrite Hfresh in Hinfo1; by destruct Hinfo1).
  exists c, h'.
  split.
  { change (copy_with_content info content h1 = (Ok c, h')) in Hrun.
    unfold copy_with_content in Hrun. by rewrite Hrun. }
  split.
  { unfold h1 in Hfresh. by rewrite lookup_insert_ne in Hfresh. }
  split; [exact Hne|].
  split.
  { unfold deref at 1. rewrite (Hkeep info Hinfo1). exact Hd1. }
  split.
  { intros d' Hne' Hd'. rewrite Hkeep.
    - unfold h1. by rewrite lookup_insert_ne.
    - unfold h1. by rewrite lookup_insert_ne. }
  by rewrite Hc, Hd1.
Qed.

Section StrippedBody.

Variable BeautifulSoup : string -> result node.

(** X1. MultifamilyDive, the article body of the container: the embedded
    ads and widgets are taken out of the body before its paragraphs are
    read. No element that passes the ad filter is left in the body, and
    when the paragraphs that are left give a text that is not empty, this
    text is the content of the record returned. *)
Theorem multifamilydive_content_from_stripped_body
  html soup container body text info (h : heap) :
  BeautifulSoup html = Ok soup ->
  Soup.find (Multifamilydive.container_filter soup) soup = Some container ->
  Soup.find (Soup.by_class ["div"] "article-body") container = Some body ->
  join_paragraphs
    (Soup.find_all (Soup.tag_in ["p"])
       (Soup.decompose_all Multifamilydive.embedded_ad body)) = text ->
  text ≠ "" ->
  Soup.find_all Multifamilydive.embedded_ad
    (Soup.decompose_all Multifamilydive.embedded_ad body) = []
  /\ exists r h',
       Multifamilydive.parse_article_content BeautifulSoup html info h
         = (Ok r, h')
       /\ deref h' r !! "content" = Some (PStr text).
Proof.
  intros Hsoup Hcontainer Hbody Htext Hne.
  split; [apply find_all_decompose_all, shallow_by_class_fn|].
  destruct (multifamilydive_content_run _ _ _ info h Hsoup)
    as (c & h' & Hrun & _ & _ & Hout).
  exists c, h'. split; [exact Hrun|].
  rewrite Hout, lookup_insert_eq. do 2 f_equal.
  unfold MfdContent.content, MfdContent.block. rewrite Hcontainer.
  unfold Multifamilydive.container_body. rewrite Hbody.
  destruct (Soup.find_all (Soup.tag_in ["p"])
              (Soup.decompose_all Multifamilydive.embedded_ad body)) as [|p ps].
  { by rewrite join_paragraphs_nil in Htext. }
  cbn [nonempty]. rewrite Htext. unfold Multifamilydive.fallbacks.
  repeat (rewrite (is_empty_false _ Hne); cbv beta iota zeta).
  reflexivity.
Qed.

End StrippedBody.

(** Keeping the long texts of the paragraphs is keeping the texts of the
    paragraphs whose text is long. *)
Lemma long_paragraphs_filter paragraphs :
  long_paragraphs paragraphs
  = stripped_text
      <$> List.filter (fun p => Nat.ltb 40 (String.length (stripped_text p)))
            paragraphs.
Proof.
  unfold long_paragraphs. induction paragraphs as [|p ps IH]; [reflexivity|].
  cbn [fmap list_fmap List.filter].
  destruct (Nat.ltb 40 (String.length (stripped_text p)));
    cbn [fmap list_fmap]; by rewrite <- IH.
Qed.

(** X2. The last resort of the content parsers. Without a [body] element
    nothing changes. With one, no header, footer, nav or aside element is
    left in the body, and the content is the stripped texts of the
    paragraphs left in the body whose stripped text has more than 40
    characters, in the order of the page and joined by a space; when
    there is no such paragraph the content is as it was. *)
Theorem body_fallback_keeps_long_paragraphs soup content :
  match Soup.find (Soup.tag_in ["body"]) soup with
  | None => body_fallback soup content = (soup, content)
  | Some body =>
      let chrome := Soup.tag_in ["header"; "footer"; "nav"; "aside"] in
      let kept :=
        List.filter (fun p => Nat.ltb 40 (String.length (stripped_text p)))
          (Soup.find_all (Soup.tag_in ["p"]) (Soup.decompose_all chrome body)) in
      Soup.find_all chrome (Soup.decompose_all chrome body) = []
      /\ (body_fallback soup content).2
         = match kept with
           | [] => content
           | _ :: _ => PyStr.join " " (stripped_text <$> kept)
           end
  end.
Proof.
  unfold body_fallback.
  destruct (Soup.find (Soup.tag_in ["body"]) soup) as [body|]; [|reflexivity].
  cbv zeta. split; [apply find_all_decompose_all, shallow_tag_in|].
  cbn [snd]. rewrite long_paragraphs_filter.
  by destruct (List.filter _ _).
Qed.

(** ** Which fields a content parser may change *)

Lemma lookup_fill_ne k key v (d : dict) :
  k ≠ key -> fill k v d !! key = d !! key.
Proof.
  intros Hne. unfold fill. destruct (py_truthy (d !! k)); [reflexivity|].
  by apply lookup_overwrite_ne.
Qed.

Lemma lookup_fill_eq k v (d : dict) :
  py_truthy (d !! k) = false -> fill k v d !! k = from_detail v (d !! k).
Proof. intros Hk. unfold fill. rewrite Hk. apply lookup_overwrite_eq. Qed.

Lemma multifamilydive_record_frame soup key (d : dict) :
  key ∉ ["author"; "author_title"; "date"; "categories"] ->
  MfdDetail.record soup d !! key = d !! key.
Proof.
  intros Hkey. unfold MfdDetail.record.
  destruct (Soup.find _ soup); [|reflexivity].
  unfold MfdDetail.apply.
  rewrite !lookup_overwrite_ne; [reflexivity|..]; intros <-; apply Hkey;
    repeat constructor.
Qed.

Lemma multihousing_record_frame soup key (d : dict) :
  key ∉ ["title"; "author"; "date"; "categories"] ->
  MhDetail.record soup d !! key = d !! key.
Proof.
  intros Hkey. unfold MhDetail.record.
  destruct (Soup.find _ soup); [|reflexivity].
  unfold MhDetail.apply.
  rewrite !lookup_fill_ne; [reflexivity|..]; intros <-; apply Hkey;
    repeat constructor.
Qed.

Section Frame.

Variable BeautifulSoup : string -> result node.

(** X3. What a content parser may change. CRE Daily returns the record
    passed in with [content] set and nothing else changed. MultifamilyDive
    returns a record whose [content] is a string and which has the value
    of the record passed in under every key but content, author,
    author_title, date and categories; Multihousing the same, under every
    key but content, title, author, date and categories. This holds for
    markup the parser rejects too. *)
Theorem content_parsers_frame html info (h : heap) (d : dict) :
  h !! info = Some d ->
  (exists r h' content,
     Credaily.parse_brief_content BeautifulSoup html info h = (Ok r, h')
     /\ deref h' r = <["content" := PStr content]> d)
  /\ (exists r h' content,
        Multifamilydive.parse_article_content BeautifulSoup html info h
          = (Ok r, h')
        /\ deref h' r !! "content" = Some (PStr content)
        /\ forall key,
             key ∉ ["content"; "author"; "author_title"; "date"; "categories"] ->
             deref h' r !! key = d !! key)
  /\ (exists r h' content,
        Multihousing.parse_brief_content BeautifulSoup html info h = (Ok r, h')
        /\ deref h' r !! "content" = Some (PStr content)
        /\ forall key,
             key ∉ ["content"; "title"; "author"; "date"; "categories"] ->
             deref h' r !! key = d !! key).
Proof.
  intros Hd.
  assert (Hderef : deref h info = d) by (unfold deref; by rewrite Hd).
  assert (Hfailed : exists r h',
             copy_with_content info "" h = (Ok r, h')
             /\ deref h' r = <["content" := PStr ""]> d).
  { destruct (copy_with_content_result info "" h) as (c & h' & Hrun & _ & Hc & _).
    exists c, h'. by rewrite Hc, Hderef. }
  destruct Hfailed as (rf & hf & Hrunf & Hf).
  split; [|split].
  - destruct (BeautifulSoup html) as [soup|e] eqn:Hsoup.
    + rewrite (credaily_run _ _ _ _ _ Hsoup).
      destruct (copy_with_content_result info (Credaily.resolve soup).2 h)
        as (c & h' & -> & _ & Hc & _).
      exists c, h', (Credaily.resolve soup).2. by rewrite Hc, Hderef.
    + unfold Credaily.parse_brief_content, try_except,
        Credaily.parse_brief_content_try.
      rewrite bind_run. unfold lift. rewrite Hsoup, content_failed_eq, Hrunf.
      by exists rf, hf, "".
  - destruct (BeautifulSoup html) as [soup|e] eqn:Hsoup.
    + destruct (multifamilydive_content_run _ _ _ info h Hsoup)
        as (c & h' & Hrun & _ & _ & Hout).
      exists c, h', (MfdContent.content soup). split; [exact Hrun|].
      rewrite Hout, Hderef. split; [apply lookup_insert_eq|].
      intros key Hkey. rewrite lookup_insert_ne.
      * apply multifamilydive_record_frame. intros Hin. apply Hkey.
        by constructor.
      * intros <-. apply Hkey. constructor.
    + unfold Multifamilydive.parse_article_content, try_except,
        Multifamilydive.parse_article_content_try.
      rewrite bind_run. unfold lift. rewrite Hsoup, content_failed_eq, Hrunf.
      exists rf, hf, "". split; [reflexivity|]. rewrite Hf.
      split; [apply lookup_insert_eq|].
      intros key Hkey. apply lookup_insert_ne. intros <-. apply Hkey. constructor.
  - destruct (BeautifulSoup html) as [soup|e] eqn:Hsoup.
    + destruct (multihousing_content_run _ _ _ info h Hsoup)
        as (c & h' & Hrun & _ & _ & _ & _ & Hout); [by rewrite Hd|].
      exists c, h', (MhContent.content soup). split; [exact Hrun|].
      rewrite Hout, Hderef. split; [apply lookup_insert_eq|].
      intros key Hkey. rewrite lookup_insert_ne.
      * apply multihousing_record_frame. intros Hin. apply Hkey.
        by constructor.
      * intros <-. apply Hkey. constructor.
    + unfold Multihousing.parse_brief_content, try_except,
        Multihousing.parse_brief_content_try.
      rewrite bind_run. unfold lift. rewrite Hsoup, content_failed_eq, Hrunf.
      exists rf, hf, "". split; [reflexivity|]. rewrite Hf.
      split; [apply lookup_insert_eq|].
      intros key Hkey. apply lookup_insert_ne. intros <-. apply Hkey. constructor.
Qed.

End Frame.

Lemma multihousing_apply_fills main_content key filter el (d : dict) :
  (key, filter) ∈ scalar_fields ->
  py_truthy (d !! key) = false ->
  Soup.find filter main_content = Some el ->
  MhDetail.apply main_content d !! key = Some (PStr (stripped_text el)).
Proof.
  intros Hin Hempty Hel. unfold MhDetail.apply, scalar_fields in *.
  apply elem_of_cons in Hin as [[= -> ->]|Hin];
    [|apply elem_of_cons in Hin as [[= -> ->]|Hin];
      [|apply elem_of_cons in Hin as [[= -> ->]|Hin];
        [|by apply elem_of_nil in Hin]]].
  - rewrite !lookup_fill_ne by done. rewrite lookup_fill_eq by done.
    unfold MhDetail.field. by rewrite Hel.
  - rewrite !lookup_fill_ne by done. rewrite lookup_fill_eq.
    + unfold MhDetail.field. by rewrite Hel.
    + by rewrite lookup_fill_ne.
  - rewrite lookup_fill_ne by done. rewrite lookup_fill_eq.
    + unfold MhDetail.field. by rewrite Hel.
    + by rewrite !lookup_fill_ne.
Qed.



Section MultihousingDetail.

Variable BeautifulSoup : string -> result node.

(** X4. Multihousing fills in what the listing lacked. For a page with
    the main content div, each of title, author and date that has no
    non-empty value in the record and whose element is in the div gets
    the stripped text of the element, in the record returned and in the
    record passed in. The record returned is another object: the record
    passed in, as the call leaves it, with [content] set. *)
Theorem multihousing_fills_missing_fields
  html soup main_content info (h : heap) (d : dict) :
  BeautifulSoup html = Ok soup ->
  h !! info = Some d ->
  Soup.find (Soup.by_attr ["div"] "id" "cmw_main_content") soup
    = Some main_content ->
  exists r h',
    Multihousing.parse_brief_content BeautifulSoup html info h = (Ok r, h')
    /\ r ≠ info
    /\ deref h' r = <["content" := PStr (MhContent.content soup)]> (deref h' info)
    /\ forall key filter el,
         (key, filter) ∈ scalar_fields ->
         py_truthy (d !! key) = false ->
         Soup.find filter main_content = Some el ->
         deref h' r !! key = Some (PStr (stripped_text el))
         /\ deref h' info !! key = Some (PStr (stripped_text el)).
Proof.
  intros Hsoup Hd Hmain.
  assert (Hderef : deref h info = d) by (unfold deref; by rewrite Hd).
  destruct (multihousing_content_run _ _ _ info h Hsoup)
    as (c & h' & Hrun & _ & Hne & Hin & _ & Hout); [by rewrite Hd|].
  exists c, h'. split; [exact Hrun|]. split; [exact Hne|].
  split; [by rewrite Hout, Hin|].
  intros key filter el Hfield Hempty Hel.
  assert (Hkey : key ≠ "content").
  { intros ->. unfold scalar_fields in Hfield.
    repeat (apply elem_of_cons in Hfield as [[=]|Hfield]).
    by apply elem_of_nil in Hfield. }
  rewrite Hout, Hin, Hderef, lookup_insert_ne by done.
  unfold MhDetail.record. rewrite Hmain.
  split; by apply (multihousing_apply_fills _ _ filter).
Qed.


End MultihousingDetail.

(** ** More on listing extraction *)

Lemma for_each_all {A B} (body : A -> list B -> result (list B))
  (P : B -> Prop) :
  (forall item acc out,
     body item acc = Ok out -> exists new, out = acc ++ new /\ Forall P new) ->
  forall items acc out,
    for_each body items acc = Ok out ->
    exists new, out = acc ++ new /\ Forall P new.
Proof.
  intros Hbody items. induction items as [|item items IH]; intros acc out Hrun.
  - injection Hrun as <-. exists []. split; [by rewrite app_nil_r | constructor].
  - cbn [for_each] in Hrun.
    destruct (body item acc) as [acc'|e] eqn:Hitem; [|discriminate].
    cbn in Hrun.
    destruct (Hbody _ _ _ Hitem) as (new1 & -> & H1).
    destruct (IH _ _ Hrun) as (new2 & -> & H2).
    exists (new1 ++ new2). split; [by rewrite app_assoc|].
    by apply Forall_app.
Qed.

Lemma for_each_raises {A B} (body : A -> list B -> result (list B)) item :
  (forall acc, exists e, body item acc = Raise e) ->
  forall items acc,
    item ∈ items -> exists e, for_each body items acc = Raise e.
Proof.
  intros Hitem items. induction items as [|x items IH]; intros acc Hin.
  - by apply elem_of_nil in Hin.
  - cbn [for_each]. apply elem_of_cons in Hin as [<-|Hin].
    + destruct (Hitem acc) as [e ->]. by exists e.
    + destruct (body x acc) as [acc'|e]; [|by exists e].
      cbn. by apply IH.
Qed.

Lemma startswith_http_absolute_link href :
  PyStr.startswith "http" (absolute_link href) = true.
Proof.
  unfold absolute_link.
  destruct (PyStr.startswith "http" href) eqn:Hhttp; [exact Hhttp|reflexivity].
Qed.

Lemma multifamilydive_item_shape item acc out :
  Multifamilydive.article_item item acc = Ok out ->
  exists new, out = acc ++ new /\ Forall article_shape new.
Proof.
  unfold Multifamilydive.article_item.
  destruct (Soup.class_list_has "feed-item-ad" item);
    [intros [= <-]; exists []; split; [by rewrite app_nil_r | constructor]|].
  destruct (Soup.find (Soup.by_class ["h3"] _) item) as [title_element|];
    [|intros [= <-]; exists []; split; [by rewrite app_nil_r | constructor]].
  destruct (Soup.find (Soup.tag_in ["a"]) title_element) as [a|];
    [|intros [= <-]; exists []; split; [by rewrite app_nil_r | constructor]].
  unfold Soup.getitem. destruct (Soup.get "href" a) as [[href|l]|] eqn:Hhref;
    [|discriminate|discriminate].
  unfold mbind, result_bind, as_str, Soup.attr_value.
  assert (Hlink : (if negb (PyStr.startswith "http" href)
                   then Multifamilydive.origin +:+ href else href)
                  = absolute_link href).
  { unfold absolute_link, Multifamilydive.origin.
    by destruct (PyStr.startswith "http" href). }
  rewrite Hlink.
  intros [= <-]. eexists [_]. split; [reflexivity|].
  constructor; [|constructor].
  unfold article_shape.
  split; [by rewrite !lookup_insert_ne, lookup_insert_eq by done|].
  split; [by rewrite !lookup_insert_ne, lookup_insert_eq by done|].
  split; [by rewrite !lookup_insert_ne, lookup_insert_eq by done|].
  split; [by rewrite !lookup_insert_ne, lookup_insert_eq by done|].
  split.
  { eexists. split; [apply lookup_insert_eq|].
    apply startswith_http_absolute_link. }
  eexists. split; [by rewrite !lookup_insert_ne, lookup_insert_eq by done|].
  match goal with
  | |- context [PyStr.truthy ?category] =>
      destruct category as [|ch category']; cbn [PyStr.truthy PyStr.is_empty negb]
  end.
  - split; [cbn; lia | constructor].
  - split; [cbn; lia|]. by repeat constructor.
Qed.

Section ListingShape.

Variable BeautifulSoup : string -> result node.

(** X6. Every record of a MultifamilyDive listing page has the source
    ["multifamilydive"], an empty author, author title and date, a link
    that starts with ["http"], and at most one category, which is not the
    empty string. *)
Theorem multifamilydive_listing_record_shape html page_num :
  exists links,
    Multifamilydive.parse_article_links BeautifulSoup html page_num = Ok links
    /\ Forall article_shape links.
Proof.
  unfold Multifamilydive.parse_article_links.
  destruct (Multifamilydive.parse_article_links_try BeautifulSoup html)
    as [out|e] eqn:Htry; [|by exists []].
  exists out. split; [reflexivity|].
  unfold Multifamilydive.parse_article_links_try in Htry.
  destruct (BeautifulSoup html) as [soup|e]; [|discriminate].
  cbn in Htry.
  destruct (for_each_all _ _ multifamilydive_item_shape _ _ _ Htry)
    as (new & -> & H).
  exact H.
Qed.

(** X7. One title anchor without [href] costs a listing page all of its
    records: each of the three listing parsers returns [[]] for a page
    that has such an entry, whatever the other entries are. *)
Theorem anchor_without_href_discards_page html page_num soup item a :
  BeautifulSoup html = Ok soup ->
  Soup.get "href" a = None ->
  (item ∈ Soup.find_all (Soup.by_class ["div"] "c-brief-list__item") soup ->
   title_anchor (Soup.by_class ["h5"] "c-brief-list__item-title") item = Some a ->
   Credaily.parse_brief_links BeautifulSoup html page_num = Ok [])
  /\ (item ∈ Soup.find_all (Soup.by_class ["li"] "feed__item") soup ->
      article_anchor item = Some a ->
      Multifamilydive.parse_article_links BeautifulSoup html page_num = Ok [])
  /\ (item ∈ Soup.find_all (Soup.by_class ["div"] "cpe-posts-category-page") soup ->
      title_anchor (Soup.by_class ["h2"] "fl-post-title") item = Some a ->
      Multihousing.parse_brief_links BeautifulSoup html page_num = Ok []).
Proof.
  intros Hsoup Hhref. split; [|split]; intros Hin Hanchor.
  - unfold Credaily.parse_brief_links, Credaily.parse_brief_links_try.
    rewrite Hsoup. cbn [mbind result_bind].
    destruct (for_each_raises Credaily.brief_item item) with (acc := @nil dict)
      (items := Soup.find_all (Soup.by_class ["div"] "c-brief-list__item") soup)
      as [e ->]; [|exact Hin|reflexivity].
    intros acc. unfold Credaily.brief_item. unfold title_anchor in Hanchor.
    destruct (Soup.find (Soup.by_class ["h5"] _) item); [|discriminate].
    rewrite Hanchor. unfold Soup.getitem. rewrite Hhref. by eexists.
  - unfold Multifamilydive.parse_article_links,
      Multifamilydive.parse_article_links_try.
    rewrite Hsoup. cbn [mbind result_bind].
    destruct (for_each_raises Multifamilydive.article_item item)
      with (acc := @nil dict)
           (items := Soup.find_all (Soup.by_class ["li"] "feed__item") soup)
      as [e ->]; [|exact Hin|reflexivity].
    intros acc. unfold Multifamilydive.article_item.
    unfold article_anchor, title_anchor in Hanchor.
    destruct (Soup.class_list_has "feed-item-ad" item); [discriminate|].
    destruct (Soup.find (Soup.by_class ["h3"] _) item); [|discriminate].
    rewrite Hanchor. unfold Soup.getitem. rewrite Hhref. by eexists.
  - unfold Multihousing.parse_brief_links, Multihousing.parse_brief_links_try.
    rewrite Hsoup. cbn [mbind result_bind].
    destruct (for_each_raises Multihousing.brief_item item)
      with (acc := @nil dict)
           (items := Soup.find_all
                       (Soup.by_class ["div"] "cpe-posts-category-page") soup)
      as [e ->]; [|exact Hin|reflexivity].
    intros acc. unfold Multihousing.brief_item. unfold title_anchor in Hanchor.
    destruct (Soup.find (Soup.by_class ["h2"] _) item); [|discriminate].
    rewrite Hanchor.
    assert (Hget : Soup.getitem "href" a = Raise (KeyError "href"))
      by (unfold Soup.getitem; by rewrite Hhref).
    rewrite Hget. by eexists.
Qed.

End ListingShape.

(** ** Pages without paragraphs *)

Lemma find_all_nil_children P t a cs :
  Soup.find_all P (NElem t a cs) = [] <->
  Forall (fun c => P c = false /\ Soup.find_all P c = []) cs.
Proof.
  rewrite find_all_elem. induction cs as [|c cs IH]; cbn [flat_map].
  - split; [constructor | reflexivity].
  - rewrite Forall_cons, <- IH. split.
    + intros H. apply app_eq_nil in H as [H Hcs].
      apply app_eq_nil in H as [Hc Hall].
      destruct (P c); [discriminate|]. done.
    + intros [[-> ->] ->]. reflexivity.
Qed.

(** No descendant of a descendant passes a filter that no descendant of
    the node passes. *)
Lemma find_all_nil_descendant P Q n c :
  Soup.find_all P n = [] -> c ∈ Soup.find_all Q n -> Soup.find_all P c = [].
Proof.
  induction n as [s|t a cs IH] using node_induction;
    [intros _ Hc; by apply elem_of_nil in Hc|].
  rewrite find_all_nil_children, (find_all_elem Q). intros Hnil Hc.
  induction cs as [|c0 cs IHcs]; [by apply elem_of_nil in Hc|].
  apply Forall_cons in IH as [IH0 IH]. apply Forall_cons in Hnil as [[_ H0] Hnil].
  cbn [flat_map] in Hc. rewrite !elem_of_app in Hc.
  destruct Hc as [[Hc|Hc]|Hc].
  - destruct (Q c0); [|by apply elem_of_nil in Hc].
    apply list_elem_of_singleton in Hc as ->. exact H0.
  - by apply IH0.
  - by apply IHcs.
Qed.

Lemma find_nil_descendant P Q n c :
  Soup.find_all P n = [] -> Soup.find Q n = Some c -> Soup.find_all P c = [].
Proof.
  intros Hnil Hc. apply (find_all_nil_descendant P Q n c Hnil).
  unfold Soup.find in Hc. destruct (Soup.find_all Q n); [discriminate|].
  injection Hc as ->. constructor.
Qed.

Lemma tag_in_tag_name names n n' :
  tag_name n = tag_name n' -> Soup.tag_in names n = Soup.tag_in names n'.
Proof. destruct n, n'; intros [=]; subst; reflexivity. Qed.

Lemma tag_name_decompose_all Q n : tag_name (Soup.decompose_all Q n) = tag_name n.
Proof. by destruct n. Qed.

Lemma tag_name_in_place Q f n : tag_name (Soup.in_place Q f n) = tag_name n.
Proof.
  unfold Soup.in_place. destruct n as [s|t a cs]; [reflexivity|].
  cbn [Soup.update_first].
  match goal with |- context [NElem t a <$> ?go] => by destruct go end.
Qed.

(** Taking elements out of a tree adds none. *)
Lemma find_all_nil_decompose_all names Q n :
  Soup.find_all (Soup.tag_in names) n = [] ->
  Soup.find_all (Soup.tag_in names) (Soup.decompose_all Q n) = [].
Proof.
  induction n as [s|t a cs IH] using node_induction; [reflexivity|].
  rewrite decompose_all_elem, !find_all_nil_children. intros Hnil.
  induction cs as [|c cs IHcs]; [constructor|].
  apply Forall_cons in IH as [IH0 IH]. apply Forall_cons in Hnil as [[HP H0] Hnil].
  cbn [List.filter]. destruct (Q c); cbn [negb]; [by apply IHcs|].
  cbn [fmap list_fmap]. constructor; [|by apply IHcs].
  split; [|by apply IH0].
  rewrite <- HP. apply tag_in_tag_name, tag_name_decompose_all.
Qed.

(** Neither does a change in place of an element that adds none to the
    element and keeps its name. *)
Lemma find_all_nil_in_place names Q f n :
  (forall c, tag_name (f c) = tag_name c) ->
  (forall c, Soup.find_all (Soup.tag_in names) c = [] ->
             Soup.find_all (Soup.tag_in names) (f c) = []) ->
  Soup.find_all (Soup.tag_in names) n = [] ->
  Soup.find_all (Soup.tag_in names) (Soup.in_place Q f n) = [].
Proof.
  intros Hname Hf. unfold Soup.in_place.
  assert (Hupd : forall n n',
            Soup.find_all (Soup.tag_in names) n = [] ->
            Soup.update_first Q f n = Some n' ->
            Soup.find_all (Soup.tag_in names) n' = [] /\ tag_name n' = tag_name n).
  { clear n. intros n. induction n as [s|t a cs IH] using node_induction;
      [discriminate|].
    intros n'. rewrite find_all_nil_children. cbn [Soup.update_first].
    intros Hnil.
    match goal with
    | |- NElem t a <$> ?go cs = _ -> _ =>
        assert (Hgo : forall cs', go cs = Some cs' ->
                  Forall (fun c => Soup.tag_in names c = false
                                   /\ Soup.find_all (Soup.tag_in names) c = []) cs');
        [|destruct (go cs) as [cs'|]; [|discriminate];
          intros [= <-]; split; [|reflexivity];
          by apply find_all_nil_children, Hgo]
    end.
    induction cs as [|c cs IHcs]; [discriminate|].
    apply Forall_cons in IH as [IH0 IH].
    apply Forall_cons in Hnil as [[HP H0] Hnil].
    intros cs'. destruct (Q c).
    - intros [= <-]. constructor; [|exact Hnil].
      split; [|by apply Hf].
      rewrite <- HP. apply tag_in_tag_name, Hname.
    - destruct (Soup.update_first Q f c) as [c'|] eqn:Hc.
      + intros [= <-]. destruct (IH0 c' H0 eq_refl) as [Hc' Ht].
        constructor; [|exact Hnil]. split; [|exact Hc'].
        rewrite <- HP. by apply tag_in_tag_name.
      + match goal with
        | |- cons c <$> ?r = _ -> _ => destruct r as [l|] eqn:Hr; [|discriminate]
        end.
        intros [= <-]. constructor; [done|]. by apply IHcs. }
  intros Hnil. destruct (Soup.update_first Q f n) as [n'|] eqn:Hn; [|exact Hnil].
  by apply (Hupd n n').
Qed.

Lemma body_fallback_no_paragraph soup content :
  no_paragraph soup -> (body_fallback soup content).2 = content.
Proof.
  intros Hnil. unfold body_fallback.
  destruct (Soup.find (Soup.tag_in ["body"]) soup) as [body|] eqn:Hbody;
    [|reflexivity].
  cbv zeta. cbn [snd].
  rewrite (find_all_nil_decompose_all ["p"] _ body
             (find_nil_descendant _ _ _ _ Hnil Hbody)).
  reflexivity.
Qed.

Lemma credaily_no_paragraph soup :
  no_paragraph soup -> (Credaily.resolve soup).2 = "".
Proof.
  intros Hnil. unfold Credaily.resolve. cbv zeta.
  assert (H1 : Credaily.article_content soup "" = "").
  { unfold Credaily.article_content.
    destruct (Soup.find _ soup) as [c|] eqn:Hc; [|reflexivity].
    cbv zeta. by rewrite (find_nil_descendant _ _ _ _ Hnil Hc). }
  rewrite H1. cbn [PyStr.is_empty].
  assert (H2 : Credaily.article_body soup "" = "").
  { unfold Credaily.article_body.
    destruct (Soup.find _ soup) as [c|] eqn:Hc; [|reflexivity].
    cbv zeta. by rewrite (find_nil_descendant _ _ _ _ Hnil Hc). }
  rewrite H2. cbn [PyStr.is_empty].
  assert (H3 : exists soup', Credaily.main_content soup "" = (soup', "")
                             /\ no_paragraph soup').
  { unfold Credaily.main_content. cbv zeta.
    destruct (Soup.find _ soup) as [c|] eqn:Hc; [|by exists soup].
    eexists. split.
    - rewrite (find_all_nil_decompose_all ["p"] _ c
                 (find_nil_descendant _ _ _ _ Hnil Hc)). reflexivity.
    - apply find_all_nil_in_place; [apply tag_name_decompose_all| |exact Hnil].
      intros c'. apply find_all_nil_decompose_all. }
  destruct H3 as (soup' & -> & Hnil'). cbn [PyStr.is_empty].
  assert (H4 : Credaily.heuristic soup' "" = "").
  { unfold Credaily.heuristic.
    assert (Hdivs : Forall no_paragraph (Soup.find_all Credaily.article_like soup')).
    { apply Forall_forall. intros c Hc.
      by apply (find_all_nil_descendant _ Credaily.article_like soup'). }
    induction Hdivs as [|div divs Hdiv _ IH]; [reflexivity|].
    cbn [Credaily.scan_article_divs]. unfold no_paragraph in Hdiv.
    by rewrite Hdiv. }
  rewrite H4. cbn [PyStr.is_empty]. by apply body_fallback_no_paragraph.
Qed.

Lemma multifamilydive_no_paragraph soup :
  no_paragraph soup -> MfdContent.content soup = "".
Proof.
  intros Hnil. unfold MfdContent.content.
  assert (H1 : exists soup', MfdContent.block soup = (soup', "")
                             /\ no_paragraph soup').
  { unfold MfdContent.block.
    destruct (Soup.find (Multifamilydive.container_filter soup) soup)
      as [container|] eqn:Hcontainer; [|by exists soup].
    unfold Multifamilydive.container_body. cbv zeta.
    pose proof (find_nil_descendant _ _ _ _ Hnil Hcontainer) as Hnilc.
    destruct (Soup.find _ container) as [body|] eqn:Hbody; [|by exists soup].
    eexists. split.
    - rewrite (find_all_nil_decompose_all ["p"] _ body
                 (find_nil_descendant _ _ _ _ Hnilc Hbody)). reflexivity.
    - apply find_all_nil_in_place; [apply tag_name_in_place| |exact Hnil].
      intros c. apply find_all_nil_in_place; [apply tag_name_decompose_all|].
      intros c'. apply find_all_nil_decompose_all. }
  destruct H1 as (soup1 & -> & Hnil1).
  unfold Multifamilydive.fallbacks. cbn [PyStr.is_empty].
  assert (H2 : exists soup', Multifamilydive.any_article_body soup1 "" = (soup', "")
                             /\ no_paragraph soup').
  { unfold Multifamilydive.any_article_body. cbv zeta.
    destruct (Soup.find _ soup1) as [body|] eqn:Hbody; [|by exists soup1].
    eexists. split.
    - rewrite (find_all_nil_decompose_all ["p"] _ body
                 (find_nil_descendant _ _ _ _ Hnil1 Hbody)). reflexivity.
    - apply find_all_nil_in_place; [apply tag_name_decompose_all| |exact Hnil1].
      intros c'. apply find_all_nil_decompose_all. }
  destruct H2 as (soup2 & -> & Hnil2). cbn [PyStr.is_empty].
  assert (H3 : exists soup', Multifamilydive.main_content soup2 "" = (soup', "")
                             /\ no_paragraph soup').
  { unfold Multifamilydive.main_content. cbv zeta.
    destruct (Soup.find _ soup2) as [c|] eqn:Hc; [|by exists soup2].
    eexists. split.
    - rewrite (find_all_nil_decompose_all ["p"] _ c
                 (find_nil_descendant _ _ _ _ Hnil2 Hc)). reflexivity.
    - apply find_all_nil_in_place; [apply tag_name_decompose_all| |exact Hnil2].
      intros c'. apply find_all_nil_decompose_all. }
  destruct H3 as (soup3 & -> & Hnil3). cbn [PyStr.is_empty].
  by apply body_fallback_no_paragraph.
Qed.

Lemma multihousing_no_paragraph soup :
  no_paragraph soup -> MhContent.content soup = "".
Proof.
  intros Hnil. unfold MhContent.content.
  assert (H1 : MhContent.main soup = "").
  { unfold MhContent.main.
    destruct (Soup.find _ soup) as [main_content|] eqn:Hmain; [|reflexivity].
    pose proof (find_nil_descendant _ _ _ _ Hnil Hmain) as Hnilm.
    assert (Hps : Multihousing.main_paragraphs main_content = []).
    { unfold Multihousing.main_paragraphs. cbv zeta.
      match goal with
      | |- List.filter _ (_ <$> flat_map _ ?els) = [] =>
          assert (Hels : Forall no_paragraph els)
      end.
      { apply Forall_app. split.
        - destruct (Soup.find _ main_content) as [pc|] eqn:Hpc; [|constructor].
          repeat constructor. by apply (find_nil_descendant _ _ _ _ Hnilm Hpc).
        - apply Forall_forall. intros c Hc.
          by apply (find_all_nil_descendant _ _ _ _ Hnilm Hc). }
      induction Hels as [|e els He _ IH]; [reflexivity|].
      cbn [flat_map]. unfold no_paragraph in He. rewrite He. exact IH. }
    by rewrite Hps. }
  rewrite H1. cbn [PyStr.is_empty]. by apply body_fallback_no_paragraph.
Qed.

Section NoParagraph.

Variable BeautifulSoup : string -> result node.

(** X8. The content comes from paragraphs only: for a page without any
    [p] element each of the three content parsers returns a record whose
    content is the empty string, whatever other text the page has. *)
Theorem no_paragraph_no_content html soup info (h : heap) :
  BeautifulSoup html = Ok soup ->
  is_Some (h !! info) ->
  no_paragraph soup ->
  (exists r h',
     Credaily.parse_brief_content BeautifulSoup html info h = (Ok r, h')
     /\ deref h' r !! "content" = Some (PStr ""))
  /\ (exists r h',
        Multifamilydive.parse_article_content BeautifulSoup html info h = (Ok r, h')
        /\ deref h' r !! "content" = Some (PStr ""))
  /\ (exists r h',
        Multihousing.parse_brief_content BeautifulSoup html info h = (Ok r, h')
        /\ deref h' r !! "content" = Some (PStr "")).
Proof.
  intros Hsoup Hinfo Hnil. split; [|split].
  - rewrite (credaily_run _ _ _ _ _ Hsoup).
    destruct (copy_with_content_result info (Credaily.resolve soup).2 h)
      as (c & h' & -> & _ & Hc & _).
    exists c, h'. split; [reflexivity|].
    by rewrite Hc, lookup_insert_eq, credaily_no_paragraph.
  - destruct (multifamilydive_content_run _ _ _ info h Hsoup)
      as (c & h' & Hrun & _ & _ & Hout).
    exists c, h'. split; [exact Hrun|].
    by rewrite Hout, lookup_insert_eq, multifamilydive_no_paragraph.
  - destruct (multihousing_content_run _ _ _ info h Hsoup Hinfo)
      as (c & h' & Hrun & _ & _ & _ & _ & Hout).
    exists c, h'. split; [exact Hrun|].
    by rewrite Hout, lookup_insert_eq, multihousing_no_paragraph.
Qed.

End NoParagraph.

(** ** More on the table of articles *)

Lemma has_link_false l r : Db.has_link l r = false <-> Db.row_link r ≠ l.
Proof.
  rewrite <- has_link_true. destruct (Db.has_link l r); intuition congruence.
Qed.

Lemma rows_with_other id now title l p rows l' :
  l' ≠ l ->
  rows_with l' (Db.insert_on_conflict id now title l p rows) = rows_with l' rows.
Proof.
  intros Hne. unfold Db.insert_on_conflict.
  destruct (existsb (Db.has_link l) rows).
  - induction rows as [|r rows IH]; [reflexivity|].
    cbn [fmap list_fmap rows_with List.filter].
    rewrite has_link_update. destruct (Db.has_link l' r) eqn:Hl'.
    + apply has_link_true in Hl'.
      assert (Hl : Db.has_link l r = false)
        by (apply has_link_false; congruence).
      rewrite Hl. f_equal. exact IH.
    + exact IH.
  - unfold rows_with. rewrite List.filter_app. cbn [List.filter].
    assert (Hnew : Db.has_link l' (Db.new_row id now title l p) = false)
      by (apply has_link_false; cbn; congruence).
    rewrite Hnew. apply app_nil_r.
Qed.

Lemma update_unlinked l title p rows :
  existsb (Db.has_link l) rows = false ->
  (fun r => if Db.has_link l r then Db.do_update title p r else r) <$> rows
  = rows.
Proof.
  induction rows as [|r rows IH]; [reflexivity|].
  cbn [existsb fmap list_fmap]. intros H.
  apply orb_false_iff in H as [Hr Hrows]. rewrite Hr. f_equal. by apply IH.
Qed.

Lemma update_twice l title p (rows : list Db.row) :
  let upd := fun r => if Db.has_link l r then Db.do_update title p r else r in
  upd <$> (upd <$> rows) = upd <$> rows.
Proof.
  cbv zeta. rewrite <- list_fmap_compose. apply list_fmap_ext.
  intros _ r _. cbn. destruct (Db.has_link l r) eqn:Hr; [|by rewrite Hr].
  assert (Hr' : Db.has_link l (Db.do_update title p r) = true) by exact Hr.
  by rewrite Hr'.
Qed.

Lemma existsb_insert_on_conflict id now title l p rows :
  existsb (Db.has_link l) (Db.insert_on_conflict id now title l p rows) = true.
Proof. apply existsb_has_link, link_stored. Qed.

(** The statement run twice with the same values gives what it gives
    run once, whatever the id and the time of the second run. *)
Lemma insert_on_conflict_twice id now id' now' title l p rows :
  Db.insert_on_conflict id' now' title l p
    (Db.insert_on_conflict id now title l p rows)
  = Db.insert_on_conflict id now title l p rows.
Proof.
  unfold Db.insert_on_conflict at 1. rewrite existsb_insert_on_conflict.
  unfold Db.insert_on_conflict.
  destruct (existsb (Db.has_link l) rows) eqn:Hex.
  - apply update_twice.
  - rewrite fmap_app, (update_unlinked _ _ _ _ Hex). f_equal.
    cbn. unfold Db.has_link. cbn. by rewrite String.eqb_refl.
Qed.

Lemma ids_insert_on_conflict id now title l p rows :
  Db.row_id <$> Db.insert_on_conflict id now title l p rows
  = if existsb (Db.has_link l) rows then Db.row_id <$> rows
    else (Db.row_id <$> rows) ++ [id].
Proof.
  unfold Db.insert_on_conflict. destruct (existsb (Db.has_link l) rows).
  - rewrite <- list_fmap_compose. apply list_fmap_ext.
    intros i r _. cbn. by destruct (Db.has_link l r).
  - by rewrite fmap_app.
Qed.

Lemma StronglySorted_snoc (l : list nat) (x : nat) :
  StronglySorted lt l -> Forall (fun i => i < x) l -> StronglySorted lt (l ++ [x]).
Proof.
  induction 1 as [|y l Hsorted IH Hy]; intros Hall.
  - repeat constructor.
  - apply Forall_cons in Hall as [Hyx Hall]. cbn. constructor; [by apply IH|].
    apply Forall_app. split; [exact Hy|]. by repeat constructor.
Qed.

Lemma StronglySorted_lt_NoDup (ids : list nat) :
  StronglySorted lt ids -> NoDup ids.
Proof.
  induction 1 as [|x ids _ IH Hx]; constructor; [|exact IH].
  intros Hin. rewrite Forall_forall in Hx. specialize (Hx x Hin). lia.
Qed.

Lemma has_nul_nul_in s : Db.has_nul s = nul_in s.
Proof.
  unfold nul_in. induction s as [|c s IH]; [reflexivity|].
  cbn. by rewrite IH, Ascii.eqb_sym.
Qed.

Section TableRows.

Variable CURRENT_TIMESTAMP : nat -> Z.
Variable adapt_list : list string -> result (option string).
Variable server_takes : Db.params -> bool.

#[local] Abbreviation insert :=
  (Db.insert_multifamilydive_article CURRENT_TIMESTAMP adapt_list server_takes).
#[local] Abbreviation insert_all :=
  (Db.insert_multifamilydive_articles CURRENT_TIMESTAMP adapt_list server_takes).

(** An accepted record leaves one row with its link, which holds the
    record. *)
Lemma insert_row_holds article s l :
  wf s -> has_room s 1 ->
  accepted adapt_list server_takes article = true ->
  stored_link adapt_list article = Some l ->
  exists row,
    rows_with l (Db.committed (insert article s).2) = [row]
    /\ row_holds adapt_list article row.
Proof.
  intros (Hnodup & Hpending & Haborted) Hroom Hacc Hl.
  destruct (insert_accepted CURRENT_TIMESTAMP adapt_list server_takes article s Hacc Haborted
              Hroom) as (p & title & link & Hp & Ht & Hlink & ->).
  unfold stored_link in Hl. rewrite Hp, Hlink in Hl. injection Hl as ->.
  cbn [snd stored_state Db.committed].
  destruct (rows_with_insert_on_conflict (Db.next_id s)
              (CURRENT_TIMESTAMP (Db.txn s)) title l p (Db.pending s))
    as (row & Hrow & Hwhich); [by rewrite Hpending|].
  exists row. split; [exact Hrow|].
  destruct (rows_with l (Db.pending s)) as [|old olds] eqn:Hold; subst row.
  - by apply (params_row_holds adapt_list article p title l).
  - assert (Hin : old ∈ rows_with l (Db.pending s))
      by (rewrite Hold; constructor).
    unfold rows_with in Hin. apply list_elem_of_In, filter_In in Hin as [_ Hin].
    apply has_link_true in Hin.
    by apply (params_row_holds adapt_list article p title l).
Qed.

(** X10. An upsert leaves the rows of every other link as they are. *)
Theorem upsert_leaves_other_links_alone article s l' :
  wf s ->
  stored_link adapt_list article ≠ Some l' ->
  rows_with l' (Db.committed (insert article s).2) = rows_with l' (Db.committed s).
Proof.
  intros (Hnodup & Hpending & _) Hother.
  destruct (insert_outcome CURRENT_TIMESTAMP adapt_list server_takes article s)
    as [(p & title & link & _ & _ & _ & Hp & _ & Hlink & ->)|(n & _ & _ & ->)].
  - cbn. rewrite Hpending. apply rows_with_other.
    intros ->. apply Hother. unfold stored_link. by rewrite Hp.
  - reflexivity.
Qed.

(** X11. An upsert that returns [True] for a record whose link is not in
    the table adds one row at the end of the table: its id is the next
    of the sequence, its [created_at] the time of the transaction, and it
    holds the link and the values of the fields of the record. *)
Theorem upsert_new_link_appends_row article s l :
  wf s ->
  (insert article s).1 = Ok true ->
  stored_link adapt_list article = Some l ->
  l ∉ Db.row_link <$> Db.committed s ->
  exists row,
    Db.committed (insert article s).2 = Db.committed s ++ [row]
    /\ Db.row_id row = Db.next_id s
    /\ Db.row_created_at row = CURRENT_TIMESTAMP (Db.txn s)
    /\ Db.row_link row = l
    /\ row_holds adapt_list article row.
Proof.
  intros (Hnodup & Hpending & _) Htrue Hl Hnew.
  destruct (insert_outcome CURRENT_TIMESTAMP adapt_list server_takes article s)
    as [(p & title & link & _ & _ & _ & Hp & Htitle & Hlink & Hrun)
       |(n & _ & _ & Hrun)];
    rewrite Hrun in Htrue |- *; [|discriminate].
  unfold stored_link in Hl. rewrite Hp, Hlink in Hl. injection Hl as ->.
  cbn. rewrite Hpending. unfold Db.insert_on_conflict.
  apply existsb_has_link_false in Hnew. rewrite Hnew.
  eexists. split; [reflexivity|]. cbn.
  split; [reflexivity|]. split; [reflexivity|]. split; [reflexivity|].
  by apply (params_row_holds adapt_list article p title l).
Qed.

(** X12. Storing a record twice leaves the table as storing it once
    does: the upsert is idempotent on the rows. *)
Theorem upsert_is_idempotent article s :
  wf s ->
  Db.committed (insert article (insert article s).2).2
  = Db.committed (insert article s).2.
Proof.
  intros (Hnodup & Hpending & Haborted).
  destruct (insert_outcome CURRENT_TIMESTAMP adapt_list server_takes article s)
    as [(p & title & link & Hacc & _ & _ & Hp & Htitle & Hlink & Hrun)
       |(n & Hwhy & Hn & Hrun)];
    rewrite Hrun; cbn [snd].
  - match goal with
    | |- context [insert article ?s1] =>
        destruct (insert_outcome CURRENT_TIMESTAMP adapt_list server_takes article s1)
          as [(p' & title' & link' & _ & _ & _ & Hp' & Htitle' & Hlink' & ->)
             |(n' & _ & _ & ->)]
    end; [|reflexivity].
    rewrite Hp in Hp'. injection Hp' as <-.
    rewrite Htitle in Htitle'. injection Htitle' as <-.
    rewrite Hlink in Hlink'. injection Hlink' as <-.
    cbn. apply insert_on_conflict_twice.
  - match goal with
    | |- context [insert article ?s1] =>
        destruct (insert_outcome CURRENT_TIMESTAMP adapt_list server_takes article s1)
          as [(p' & title' & link' & Hacc' & _ & Hroom' & _ & _ & _ & _)
             |(n' & _ & _ & ->)]
    end; [|reflexivity].
    exfalso. destruct Hwhy as [Hrej|[Hab|Hroom]]; [congruence|congruence|].
    apply Hroom. unfold has_room in *. cbn in Hroom'. lia.
Qed.

Lemma insert_ids_ok article s :
  wf s -> ids_ok s -> ids_ok (insert article s).2.
Proof.
  intros (Hnodup & Hpending & _) [Hsorted Hbelow].
  destruct (insert_outcome CURRENT_TIMESTAMP adapt_list server_takes article s)
    as [(p & title & link & _ & _ & _ & _ & _ & _ & ->)|(n & _ & Hn & ->)].
  - unfold ids_ok. cbn. rewrite Hpending, ids_insert_on_conflict.
    destruct (existsb (Db.has_link link) (Db.committed s)).
    + split; [exact Hsorted|]. eapply Forall_impl; [exact Hbelow|]. cbn. lia.
    + split; [by apply StronglySorted_snoc|].
      apply Forall_app. split.
      * eapply Forall_impl; [exact Hbelow|]. cbn. lia.
      * repeat constructor.
  - unfold ids_ok. cbn. split; [exact Hsorted|].
    eapply Forall_impl; [exact Hbelow|]. cbn. lia.
Qed.

Lemma insert_ok article s :
  exists ok, insert article s = (Ok ok, (insert article s).2).
Proof.
  destruct (insert_outcome CURRENT_TIMESTAMP adapt_list server_takes article s)
    as [(p & title & link & _ & _ & _ & _ & _ & _ & ->)|(n & _ & _ & ->)];
    by eexists.
Qed.

(** X13. A batch keeps the ids growing along the table and below the
    sequence, whatever records it holds; so no two rows share an id, also
    after rejected records, which use up ids of the sequence. *)
Theorem batch_keeps_ids_distinct articles s :
  wf s -> ids_ok s ->
  ids_ok (insert_all articles s).2
  /\ NoDup (Db.row_id <$> Db.committed (insert_all articles s).2).
Proof.
  intros Hwf Hids.
  assert (Hloop : forall n, wf (Db.insert_loop CURRENT_TIMESTAMP adapt_list server_takes articles n s).2
                            /\ ids_ok (Db.insert_loop CURRENT_TIMESTAMP adapt_list server_takes articles n s).2).
  { revert s Hwf Hids. induction articles as [|article rest IH];
      intros s Hwf Hids n; [by split|].
    cbn [Db.insert_loop]. rewrite bind_run.
    destruct (insert_ok article s) as [ok ->].
    apply IH; [by apply insert_wf | by apply insert_ids_ok]. }
  destruct (Hloop 0) as [_ Hids'].
  split; [exact Hids'|].
  apply StronglySorted_lt_NoDup, Hids'.
Qed.

(** X14. Missing fields take their defaults in the table. A record has
    a link without NUL and is upserted on a connection between two calls
    with an id left. When the call returns [True], the table has exactly
    one row with the link, which holds the fields of the record: each
    string as it is, [NULL] for [None], and for a key the record lacks
    the empty string, or ["multifamilydive"] as source. When the record
    has none of the other fields and the server takes its values, the
    call does return [True], and the row has the empty string as title,
    summary, author, author title, date, categories and content, and
    ["multifamilydive"] as source: a row that was stored under the link
    has lost its values. *)
Theorem missing_fields_default article link s :
  wf s -> has_room s 1 ->
  article !! "link" = Some (PStr link) -> nul_in link = false ->
  ((insert article s).1 = Ok true ->
   exists row,
     rows_with link (Db.committed (insert article s).2) = [row]
     /\ row_holds adapt_list article row)
  /\ (article !! "title" = None -> article !! "summary" = None ->
      article !! "author" = None -> article !! "author_title" = None ->
      article !! "date" = None -> article !! "categories" = None ->
      article !! "content" = None -> article !! "source" = None ->
      taken adapt_list server_takes article ->
      (insert article s).1 = Ok true
      /\ exists row,
           rows_with link (Db.committed (insert article s).2) = [row]
           /\ Db.row_title row = ""
           /\ Db.row_link row = link
           /\ Db.row_summary row = Some ""
           /\ Db.row_author row = Some ""
           /\ Db.row_author_title row = Some ""
           /\ Db.row_date row = Some ""
           /\ Db.row_categories row = Some ""
           /\ Db.row_content row = Some ""
           /\ Db.row_source row = Some "multifamilydive").
Proof.
  intros Hwf Hroom Hlink Hnul.
  assert (Hplink : Db.param adapt_list article "link" "" = Ok (Some link)).
  { unfold Db.param. rewrite Hlink. cbn. by rewrite has_nul_nul_in, Hnul. }
  assert (Hrow : (insert article s).1 = Ok true ->
                 exists row,
                   rows_with link (Db.committed (insert article s).2) = [row]
                   /\ row_holds adapt_list article row).
  { intros Htrue. rewrite (insert_returns _ _ _ _ _ Hwf Hroom) in Htrue.
    injection Htrue as Hacc.
    apply insert_row_holds; [exact Hwf|exact Hroom|exact Hacc|].
    unfold stored_link. unfold accepted in Hacc.
    destruct (Db.statement_params adapt_list article) as [p|] eqn:Hp;
      [|discriminate].
    destruct (statement_params_fields adapt_list _ _ Hp) as (_ & Hl & _).
    rewrite Hplink in Hl. by injection Hl. }
  split; [exact Hrow|].
  intros Htitle Hsummary Hauthor Hat Hdate Hcat Hcontent Hsource Htaken.
  assert (Hparam : forall k dflt,
             article !! k = None -> Db.has_nul dflt = false ->
             Db.param adapt_list article k dflt = Ok (Some dflt)).
  { intros k dflt Hk Hd. unfold Db.param. rewrite Hk. cbn. by rewrite Hd. }
  assert (Hjoin : Db.join_categories article = Ok "").
  { unfold Db.join_categories. by rewrite Hcat. }
  assert (Hp : Db.statement_params adapt_list article
               = Ok {| Db.p_title := Some ""; Db.p_link := Some link;
                       Db.p_summary := Some ""; Db.p_author := Some "";
                       Db.p_author_title := Some ""; Db.p_date := Some "";
                       Db.p_categories := Some ""; Db.p_content := Some "";
                       Db.p_source := Some "multifamilydive" |}).
  { unfold Db.statement_params.
    rewrite Hjoin, Hplink, (Hparam "title" "" Htitle eq_refl),
      (Hparam "summary" "" Hsummary eq_refl), (Hparam "author" "" Hauthor eq_refl),
      (Hparam "author_title" "" Hat eq_refl), (Hparam "date" "" Hdate eq_refl),
      (Hparam "content" "" Hcontent eq_refl),
      (Hparam "source" "multifamilydive" Hsource eq_refl).
    reflexivity. }
  assert (Hacc : accepted adapt_list server_takes article = true)
    by (unfold accepted; rewrite Hp; cbn; exact (Htaken _ Hp)).
  assert (Htrue : (insert article s).1 = Ok true)
    by (by rewrite (insert_returns _ _ _ _ _ Hwf Hroom), Hacc).
  split; [exact Htrue|].
  destruct (Hrow Htrue) as (row & Hrows & Hholds). exists row.
  split; [exact Hrows|].
  destruct Hholds as (Ht & Hl & Hsu & Hau & Hatt & Hda & Hca & Hco & Hso).
  unfold field_holds in *. unfold categories_hold in Hca.
  rewrite Htitle in Ht. rewrite Hlink in Hl. rewrite Hsummary in Hsu.
  rewrite Hauthor in Hau. rewrite Hat in Hatt. rewrite Hdate in Hda.
  rewrite Hcat in Hca. rewrite Hcontent in Hco. rewrite Hsource in Hso.
  injection Ht as ->. injection Hl as ->. by repeat split.
Qed.

(** X15. A record whose title, link or categories is [None] is not
    stored: the call returns [False], the table is as it was, and no
    transaction, failed or not, is left open. *)
Theorem none_is_rejected article s :
  wf s ->
  article !! "title" = Some PNone
  \/ article !! "link" = Some PNone
  \/ article !! "categories" = Some PNone ->
  (insert article s).1 = Ok false
  /\ Db.committed (insert article s).2 = Db.committed s
  /\ wf (insert article s).2.
Proof.
  intros Hwf Hnone.
  assert (Hrej : accepted adapt_list server_takes article = false).
  { unfold accepted.
    destruct (Db.statement_params adapt_list article) as [p|] eqn:Hp;
      [|reflexivity].
    destruct (statement_params_fields adapt_list _ _ Hp)
      as (Ht & Hl & _ & _ & _ & _ & (c & Hc & _) & _).
    destruct Hnone as [Hnone|[Hnone|Hnone]].
    - unfold Db.param in Ht. rewrite Hnone in Ht. cbn in Ht.
      injection Ht as <-. reflexivity.
    - unfold Db.param in Hl. rewrite Hnone in Hl. cbn in Hl.
      injection Hl as <-. by destruct (Db.p_title p).
    - unfold Db.join_categories in Hc. rewrite Hnone in Hc. discriminate. }
  destruct (insert_rejected CURRENT_TIMESTAMP adapt_list server_takes article s)
    as (n & _ & Hrun); [by left|].
  split; [by rewrite Hrun|].
  split; [by rewrite Hrun|by apply insert_wf].
Qed.

(** On a failed transaction the call is refused and rolled back. *)
Lemma insert_on_failed article s :
  insert article (Db.failed s)
  = (Ok false, rolled_back_state s (Db.next_id s)).
Proof.
  unfold Db.insert_multifamilydive_article, try_except.
  rewrite bind_run. unfold lift.
  destruct (Db.statement_params adapt_list article) as [p|]; [|reflexivity].
  rewrite bind_run. reflexivity.
Qed.

(** X19. A failed transaction costs one call. On a connection whose
    transaction has failed, as a refused [get_articles] leaves it, the
    upsert of any record returns [False]; it changes no row and uses no
    id, and it ends the transaction. So a record that is accepted is
    stored by the next call, when an id is left. *)
Theorem failed_transaction_costs_one_call article s :
  wf s ->
  (insert article (Db.failed s)).1 = Ok false
  /\ Db.committed (insert article (Db.failed s)).2 = Db.committed s
  /\ Db.next_id (insert article (Db.failed s)).2 = Db.next_id s
  /\ wf (insert article (Db.failed s)).2
  /\ (accepted adapt_list server_takes article = true -> has_room s 1 ->
      (insert article (insert article (Db.failed s)).2).1 = Ok true).
Proof.
  intros (Hnodup & Hpending & Haborted). rewrite insert_on_failed.
  split; [reflexivity|]. split; [reflexivity|]. split; [reflexivity|].
  assert (Hwf : wf (rolled_back_state s (Db.next_id s))) by (by repeat split).
  split; [exact Hwf|]. intros Hacc Hroom. cbn [snd].
  rewrite insert_returns; [by rewrite Hacc|exact Hwf|exact Hroom].
Qed.

(** X20. With the sequence of ids used up nothing is stored any more:
    every upsert returns [False] and leaves the rows as they were, and a
    batch returns 0 and leaves the rows as they were. *)
Theorem used_up_sequence_stores_nothing articles s :
  wf s -> ~ has_room s 1 ->
  (forall article,
     (insert article s).1 = Ok false
     /\ Db.committed (insert article s).2 = Db.committed s)
  /\ (insert_all articles s).1 = Ok 0
  /\ Db.committed (insert_all articles s).2 = Db.committed s.
Proof.
  intros Hwf Hfull.
  assert (Hone : forall article s0,
             ~ has_room s0 1 ->
             exists n, Db.next_id s0 <= n
                       /\ insert article s0 = (Ok false, rolled_back_state s0 n)).
  { intros article s0 Hfull0.
    destruct (insert_rejected CURRENT_TIMESTAMP adapt_list server_takes article s0)
      as (n & Hn & Hrun); [tauto|].
    exists n. split; [lia|exact Hrun]. }
  split.
  { intros article. destruct (Hone article s Hfull) as (n & _ & ->). by split. }
  unfold Db.insert_multifamilydive_articles.
  assert (Hloop : forall count s0,
             ~ has_room s0 1 ->
             (Db.insert_loop CURRENT_TIMESTAMP adapt_list server_takes articles
                count s0).1 = Ok count
             /\ Db.committed
                  (Db.insert_loop CURRENT_TIMESTAMP adapt_list server_takes
                     articles count s0).2 = Db.committed s0).
  { induction articles as [|article rest IH]; intros count s0 Hfull0;
      [by split|].
    cbn [Db.insert_loop]. rewrite bind_run.
    destruct (Hone article s0 Hfull0) as (n & Hn & ->).
    destruct (IH count (rolled_back_state s0 n)) as [Hcount Hrows].
    - unfold has_room in *. cbn. lia.
    - split; [exact Hcount|]. by rewrite Hrows. }
  by apply Hloop.
Qed.

End TableRows.

(** ** From the pages to the table *)

Lemma storable_empty : storable ∅.
Proof. split; intros *; rewrite ?lookup_empty; done. Qed.

Lemma storable_insert_text k s (d : dict) :
  k ≠ "categories" -> storable d -> storable (<[k := PStr s]> d).
Proof.
  intros Hk [Htext Hcat]. split.
  - intros k' v Hk'. destruct (decide (k = k')) as [<-|Hne].
    + rewrite lookup_insert_eq. intros [= <-]. by exists s.
    + rewrite lookup_insert_ne by done. by apply Htext.
  - intros v. rewrite lookup_insert_ne by done. apply Hcat.
Qed.

Lemma storable_insert_categories l (d : dict) :
  storable d -> storable (<["categories" := PList l]> d).
Proof.
  intros [Htext Hcat]. split.
  - intros k v Hk. rewrite lookup_insert_ne; [by apply Htext|].
    intros <-. unfold text_columns in Hk.
    repeat (apply elem_of_cons in Hk as [[=]|Hk]). by apply elem_of_nil in Hk.
  - intros v. rewrite lookup_insert_eq. intros [= <-]. by exists l.
Qed.

Lemma multifamilydive_record_storable soup (d : dict) :
  storable d -> storable (MfdDetail.record soup d).
Proof.
  intros Hd. unfold MfdDetail.record.
  destruct (Soup.find _ soup) as [container|]; [|exact Hd].
  unfold MfdDetail.apply.
  assert (Hauthor : storable (overwrite "author" (MfdDetail.author container) d)).
  { unfold MfdDetail.author.
    destruct (MfdDetail.author_element container) as [el|];
      match goal with
      | |- context [_ <$> ?found] => destruct found
      end; cbn; by try apply storable_insert_text. }
  assert (Htitle : storable (overwrite "author_title"
                               (MfdDetail.author_title container)
                               (overwrite "author" (MfdDetail.author container) d))).
  { unfold MfdDetail.author_title.
    destruct (MfdDetail.author_element container) as [el|]; [|exact Hauthor].
    match goal with
    | |- context [_ <$> ?found] => destruct found
    end; cbn; by try apply storable_insert_text. }
  assert (Hdate : storable (overwrite "date" (MfdDetail.date container)
                    (overwrite "author_title" (MfdDetail.author_title container)
                       (overwrite "author" (MfdDetail.author container) d)))).
  { unfold MfdDetail.date.
    match goal with
    | |- context [_ <$> ?found] => destruct found
    end; cbn; by try apply storable_insert_text. }
  unfold MfdDetail.categories.
  destruct (Soup.find _ soup) as [topics|]; [|exact Hdate].
  destruct (Soup.find_all _ topics); [exact Hdate|].
  by apply storable_insert_categories.
Qed.

Lemma multifamilydive_item_storable item acc out :
  Multifamilydive.article_item item acc = Ok out ->
  exists new,
    out = acc ++ new
    /\ Forall (fun r => storable r /\ exists link, r !! "link" = Some (PStr link))
         new.
Proof.
  unfold Multifamilydive.article_item.
  destruct (Soup.class_list_has "feed-item-ad" item);
    [intros [= <-]; exists []; split; [by rewrite app_nil_r | constructor]|].
  destruct (Soup.find (Soup.by_class ["h3"] _) item) as [title_element|];
    [|intros [= <-]; exists []; split; [by rewrite app_nil_r | constructor]].
  destruct (Soup.find (Soup.tag_in ["a"]) title_element) as [a|];
    [|intros [= <-]; exists []; split; [by rewrite app_nil_r | constructor]].
  destruct (Soup.getitem "href" a) as [[|href|l]|e]; try discriminate.
  unfold mbind, result_bind, as_str.
  intros [= <-]. eexists [_]. split; [reflexivity|].
  constructor; [|constructor]. split.
  - repeat (apply storable_insert_text; [done|]).
    apply storable_insert_categories.
    apply storable_insert_text; [done|]. apply storable_empty.
  - eexists. apply lookup_insert_eq.
Qed.

Lemma has_nul_append a b :
  Db.has_nul (a +:+ b) = Db.has_nul a || Db.has_nul b.
Proof.
  induction a as [|c a IH]; [reflexivity|].
  change (Db.has_nul (String c (a +:+ b))
          = Db.has_nul (String c a) || Db.has_nul b).
  cbn [Db.has_nul]. by rewrite IH, orb_assoc.
Qed.

(** The categories joined by commas have a NUL when one of them has. *)
Lemma has_nul_join l :
  Db.has_nul (PyStr.join "," l) = existsb nul_in l.
Proof.
  induction l as [|x [|y l] IH]; [reflexivity| |].
  - cbn. by rewrite has_nul_nul_in, orb_false_r.
  - change (Db.has_nul (x +:+ "," +:+ PyStr.join "," (y :: l))
            = nul_in x || existsb nul_in (y :: l)).
    rewrite !has_nul_append, IH, has_nul_nul_in. reflexivity.
Qed.

Lemma forallb_negb_existsb {A} (f : A -> bool) l :
  forallb (fun x => negb (f x)) l = negb (existsb f l).
Proof.
  induction l as [|x l IH]; [reflexivity|].
  cbn. by rewrite IH, negb_orb.
Qed.

Section Pipeline.

Variable BeautifulSoup : string -> result node.
Variable CURRENT_TIMESTAMP : nat -> Z.
Variable adapt_list : list string -> result (option string).
Variable server_takes : Db.params -> bool.

#[local] Abbreviation insert :=
  (Db.insert_multifamilydive_article CURRENT_TIMESTAMP adapt_list server_takes).

(** What is bound for a text field of a storable record. *)
Lemma storable_param (d : dict) k dflt :
  storable d -> k ∈ text_columns -> Db.has_nul dflt = false ->
  exists b v,
    Db.param adapt_list d k dflt
    = (if b : bool then Raise ValueError else Ok (Some v))
    /\ match d !! k with
       | Some (PStr s) => negb (nul_in s)
       | _ => true
       end = negb b
    /\ forall s, d !! k = Some (PStr s) -> v = s.
Proof.
  intros [Htext _] Hk Hdflt. unfold Db.param.
  destruct (d !! k) as [v|] eqn:Hv.
  - destruct (Htext k v Hk Hv) as [s ->]. exists (nul_in s), s. cbn.
    rewrite has_nul_nul_in. split; [reflexivity|]. split; [reflexivity|].
    by intros s' [= <-].
  - exists false, dflt. cbn. rewrite Hdflt. by split.
Qed.

Lemma storable_categories (d : dict) :
  storable d ->
  exists c,
    Db.join_categories d = Ok c
    /\ match d !! "categories" with
       | Some (PList l) => forallb (fun c => negb (nul_in c)) l
       | _ => true
       end = negb (Db.has_nul c).
Proof.
  intros [_ Hcat]. unfold Db.join_categories.
  destruct (d !! "categories") as [v|] eqn:Hv.
  - destruct (Hcat v eq_refl) as [l ->]. eexists. split; [reflexivity|].
    by rewrite has_nul_join, forallb_negb_existsb.
  - by exists "".
Qed.

(** A storable record whose values the server takes is accepted when
    none of its strings has a NUL, and then it is stored under its link. *)
Lemma storable_accepted (d : dict) :
  storable d ->
  taken adapt_list server_takes d ->
  accepted adapt_list server_takes d = nul_free d
  /\ forall link, nul_free d = true -> d !! "link" = Some (PStr link) ->
                  stored_link adapt_list d = Some link.
Proof.
  intros Hd Htaken.
  destruct (storable_categories d Hd) as (c & Hc & Ec).
  destruct (storable_param d "title" "" Hd) as (b1 & v1 & H1 & E1 & _);
    [unfold text_columns; set_solver|reflexivity|].
  destruct (storable_param d "link" "" Hd) as (b2 & v2 & H2 & E2 & Hv2);
    [unfold text_columns; set_solver|reflexivity|].
  destruct (storable_param d "summary" "" Hd) as (b3 & v3 & H3 & E3 & _);
    [unfold text_columns; set_solver|reflexivity|].
  destruct (storable_param d "author" "" Hd) as (b4 & v4 & H4 & E4 & _);
    [unfold text_columns; set_solver|reflexivity|].
  destruct (storable_param d "author_title" "" Hd) as (b5 & v5 & H5 & E5 & _);
    [unfold text_columns; set_solver|reflexivity|].
  destruct (storable_param d "date" "" Hd) as (b6 & v6 & H6 & E6 & _);
    [unfold text_columns; set_solver|reflexivity|].
  destruct (storable_param d "content" "" Hd) as (b7 & v7 & H7 & E7 & _);
    [unfold text_columns; set_solver|reflexivity|].
  destruct (storable_param d "source" "multifamilydive" Hd)
    as (b8 & v8 & H8 & E8 & _);
    [unfold text_columns; set_solver|reflexivity|].
  unfold taken, Db.statement_params in Htaken.
  rewrite Hc, H1, H2, H3, H4, H5, H6, H7, H8 in Htaken.
  cbn [mbind result_bind] in Htaken.
  unfold accepted, stored_link, Db.statement_params, nul_free, text_columns.
  cbn [forallb]. rewrite Hc, H1, H2, H3, H4, H5, H6, H7, H8.
  rewrite E1, E2, E3, E4, E5, E6, E7, E8, Ec.
  unfold Db.adapt in *.
  destruct b1; [by split|]. destruct b2; [by split|].
  destruct b3; [by split|]. destruct b4; [by split|].
  destruct b5; [by split|]. destruct b6; [by split|].
  cbn [mbind result_bind negb andb].
  destruct (Db.has_nul c);
    [split; [by destruct b7, b8 | by destruct b7, b8]|].
  destruct b7; [by split|]. destruct b8; [by split|].
  cbn in *. split; [by apply Htaken|].
  intros link _ Hlink. by rewrite (Hv2 link Hlink).
Qed.

(** X9. From the listing to the table. A record of a MultifamilyDive
    listing page, completed by the content parser from any article page
    (also one the parser rejects), is upserted on a connection between
    two calls with an id left, and the server takes its values. The
    call returns [True] when none of the strings of the record has a
    NUL character, and [False] otherwise; when it returns [True], the
    table has exactly one row with the link the listing gave, which
    holds the values of the fields of the record. *)
Theorem scraped_records_are_accepted
  listing page_num links article page info (h : heap) r h' s :
  Multifamilydive.parse_article_links BeautifulSoup listing page_num = Ok links ->
  article ∈ links ->
  h !! info = Some article ->
  Multifamilydive.parse_article_content BeautifulSoup page info h = (Ok r, h') ->
  wf s -> has_room s 1 ->
  taken adapt_list server_takes (deref h' r) ->
  exists link,
    article !! "link" = Some (PStr link)
    /\ (insert (deref h' r) s).1 = Ok (nul_free (deref h' r))
    /\ (nul_free (deref h' r) = true ->
        exists row,
          rows_with link (Db.committed (insert (deref h' r) s).2) = [row]
          /\ row_holds adapt_list (deref h' r) row).
Proof.
  intros Hlinks Hin Hinfo Hrun Hwf Hroom Htaken.
  assert (Harticle : storable article
                     /\ exists link, article !! "link" = Some (PStr link)).
  { revert Hlinks. unfold Multifamilydive.parse_article_links.
    destruct (Multifamilydive.parse_article_links_try BeautifulSoup listing)
      as [out|e] eqn:Htry; intros [= <-]; [|by apply elem_of_nil in Hin].
    unfold Multifamilydive.parse_article_links_try in Htry.
    destruct (BeautifulSoup listing) as [soup|e]; [|discriminate].
    cbn in Htry.
    destruct (for_each_all _ _ multifamilydive_item_storable _ _ _ Htry)
      as (new & -> & Hall).
    rewrite Forall_forall in Hall. by apply Hall. }
  destruct Harticle as [Hstorable [link Hlink]].
  assert (Hderef : deref h info = article) by (unfold deref; by rewrite Hinfo).
  assert (Hout : storable (deref h' r) /\ deref h' r !! "link" = Some (PStr link)).
  { destruct (BeautifulSoup page) as [soup|e] eqn:Hsoup.
    - destruct (multifamilydive_content_run _ _ _ info h Hsoup)
        as (c & h1 & Hrun1 & _ & _ & Hc).
      rewrite Hrun1 in Hrun. injection Hrun as <- <-.
      rewrite Hc, Hderef. split.
      + apply storable_insert_text; [done|].
        by apply multifamilydive_record_storable.
      + rewrite lookup_insert_ne by done.
        rewrite multifamilydive_record_frame; [exact Hlink|].
        intros Hk. repeat (apply elem_of_cons in Hk as [[=]|Hk]).
        by apply elem_of_nil in Hk.
    - revert Hrun.
      unfold Multifamilydive.parse_article_content, try_except,
        Multifamilydive.parse_article_content_try.
      rewrite bind_run. unfold lift. rewrite Hsoup, content_failed_eq.
      destruct (copy_with_content_result info "" h) as (c & h1 & -> & _ & Hc & _).
      intros [= <- <-]. rewrite Hc, Hderef. split.
      + by apply storable_insert_text.
      + by rewrite lookup_insert_ne. }
  destruct Hout as [Hstorable' Hlink'].
  destruct (storable_accepted _ Hstorable' Htaken) as [Hacc Hstored].
  exists link. split; [exact Hlink|].
  split; [by rewrite (insert_returns _ _ _ _ _ Hwf Hroom), Hacc|].
  intros Hfree. apply (insert_row_holds CURRENT_TIMESTAMP adapt_list server_takes);
    [exact Hwf|exact Hroom|by rewrite Hacc|by apply Hstored].
Qed.

End Pipeline.

(** ** Reading the table by pages *)

Lemma insert_by_id_head r rows :
  Forall (fun x => Db.row_id r < Db.row_id x) rows ->
  Embedding.insert_by_id r rows = r :: rows.
Proof.
  destruct rows as [|x rows]; [reflexivity|].
  intros H. apply Forall_cons in H as [Hx _]. cbn.
  assert (Hle : Nat.leb (Db.row_id r) (Db.row_id x) = true)
    by (apply Nat.leb_le; lia).
  by rewrite Hle.
Qed.

(** A table whose ids grow along the rows is in the order of its ids. *)
Lemma order_by_id_sorted rows :
  StronglySorted lt (Db.row_id <$> rows) -> Embedding.order_by_id rows = rows.
Proof.
  induction rows as [|r rows IH]; [reflexivity|].
  cbn [fmap list_fmap]. intros Hsorted.
  apply StronglySorted_inv in Hsorted as [Hrows Hr].
  unfold Embedding.order_by_id. cbn [foldr].
  fold (Embedding.order_by_id rows). rewrite (IH Hrows).
  apply insert_by_id_head. apply Forall_forall. intros x Hx.
  rewrite Forall_forall in Hr. apply Hr. by apply list_elem_of_fmap_2.
Qed.

(** A call on a table as the connector keeps it. *)
Lemma get_articles_run limit offset s :
  wf s -> ids_ok s ->
  Embedding.get_articles limit offset s
  = if ((Embedding.max_bigint <? limit) || (Embedding.max_bigint <? offset)
        || (limit <? 0) || (offset <? 0))%Z
    then (Ok [], Db.failed s)
    else (Ok (Embedding.article_of "multifamilydive"
                <$> take (Z.to_nat limit)
                      (drop (Z.to_nat offset) (Db.committed s))), s).
Proof.
  intros (_ & Hpending & Haborted) [Hsorted _].
  unfold Embedding.get_articles, try_except. rewrite bind_run.
  unfold Embedding.select_page. rewrite Haborted.
  assert (Htest :
    ((Embedding.max_bigint <? limit) || (Embedding.max_bigint <? offset)
     || (limit <? 0) || (offset <? 0))%Z
    = (negb (Embedding.is_bigint limit && Embedding.is_bigint offset)
       || (offset <? 0) || (limit <? 0))%Z).
  { unfold Embedding.is_bigint, Embedding.min_bigint, Embedding.max_bigint.
    destruct (Z.ltb_spec 9223372036854775807 limit),
      (Z.ltb_spec 9223372036854775807 offset),
      (Z.ltb_spec limit 0), (Z.ltb_spec offset 0),
      (Z.leb_spec (-9223372036854775808) limit),
      (Z.leb_spec (-9223372036854775808) offset),
      (Z.leb_spec limit 9223372036854775807),
      (Z.leb_spec offset 9223372036854775807);
      try reflexivity; lia. }
  rewrite Htest.
  destruct (negb (Embedding.is_bigint limit && Embedding.is_bigint offset));
    [reflexivity|].
  destruct (offset <? 0)%Z; [reflexivity|].
  destruct (limit <? 0)%Z; [reflexivity|].
  by rewrite Hpending, order_by_id_sorted.
Qed.

Lemma in_bigint_test limit offset :
  in_bigint limit -> in_bigint offset ->
  ((Embedding.max_bigint <? limit) || (Embedding.max_bigint <? offset)
   || (limit <? 0) || (offset <? 0))%Z = false.
Proof.
  unfold in_bigint. intros Hl Ho.
  repeat (apply orb_false_iff; split); apply Z.ltb_ge; lia.
Qed.

Lemma not_in_bigint_test limit offset :
  ~ in_bigint limit \/ ~ in_bigint offset ->
  ((Embedding.max_bigint <? limit) || (Embedding.max_bigint <? offset)
   || (limit <? 0) || (offset <? 0))%Z = true.
Proof.
  unfold in_bigint. intros H.
  destruct (Embedding.max_bigint <? limit)%Z eqn:H1; [reflexivity|].
  destruct (Embedding.max_bigint <? offset)%Z eqn:H2; [reflexivity|].
  destruct (limit <? 0)%Z eqn:H3; [reflexivity|].
  destruct (offset <? 0)%Z eqn:H4; [reflexivity|].
  apply Z.ltb_ge in H1, H2, H3, H4. lia.
Qed.

(** On a failed transaction every call gives [[]], and the transaction
    stays failed. *)
Lemma get_articles_failed limit offset s :
  Db.aborted s = true ->
  Embedding.get_articles limit offset s = (Ok [], s).
Proof.
  intros Haborted. unfold Embedding.get_articles, try_except.
  rewrite bind_run. unfold Embedding.select_page. by rewrite Haborted.
Qed.

(** The dict made of a row is the view of the row. *)
Lemma article_of_view r :
  Embedding.article_of "multifamilydive" r = article_view r.
Proof.
  unfold Embedding.article_of, article_view, Embedding.or_empty.
  destruct r as [id title link summary author author_title date categories
                   content source created_at]; cbn.
  f_equal.
  - by destruct title.
  - by destruct summary as [[|]|].
  - by destruct content as [[|]|].
  - by destruct link.
  - by destruct author as [[|]|].
  - by destruct date as [[|]|].
  - by destruct categories as [[|]|].
Qed.

(** X16. [get_articles] by pages, on a connection between two calls
    whose table is as the connector keeps it. With a limit and an offset
    that the server takes (from 0 to the largest [bigint]) the page is
    the [limit] rows after the first [offset] rows of the table, in the
    order of insertion, each as a dict with its id, title and link, the
    other columns with the empty string for [NULL], and the source; no
    row or id changes and no transaction fails or ends; the page that
    starts where a page ends, appended to it, is the page of both
    limits. With any other limit or offset the result is [[]] and the
    transaction has failed; nothing ends it, so that every later call
    gives [[]] too. *)
Theorem get_articles_pages (limit offset : Z) s :
  wf s -> ids_ok s ->
  (in_bigint limit -> in_bigint offset ->
     Embedding.get_articles limit offset s
     = (Ok (article_view
              <$> take (Z.to_nat limit)
                    (drop (Z.to_nat offset) (Db.committed s))), s))
  /\ (in_bigint limit -> in_bigint offset ->
      forall limit' : Z,
        in_bigint limit' -> in_bigint (offset + limit) ->
        in_bigint (limit + limit') ->
        exists first second both,
          Embedding.get_articles limit offset s = (Ok first, s)
          /\ Embedding.get_articles limit' (offset + limit) s = (Ok second, s)
          /\ Embedding.get_articles (limit + limit') offset s = (Ok both, s)
          /\ first ++ second = both)
  /\ (~ in_bigint limit \/ ~ in_bigint offset ->
      Embedding.get_articles limit offset s = (Ok [], Db.failed s)
      /\ forall limit' offset',
           Embedding.get_articles limit' offset' (Db.failed s)
           = (Ok [], Db.failed s)).
Proof.
  intros Hwf Hids.
  assert (Hpage : forall l o, in_bigint l -> in_bigint o ->
            Embedding.get_articles l o s
            = (Ok (article_view
                     <$> take (Z.to_nat l) (drop (Z.to_nat o) (Db.committed s))),
               s)).
  { intros l o Hl Ho.
    rewrite (get_articles_run _ _ _ Hwf Hids), (in_bigint_test _ _ Hl Ho).
    do 2 f_equal. apply list_fmap_ext. intros i r _. apply article_of_view. }
  split; [apply Hpage|]. split.
  - intros Hl Ho limit' Hl' Hol Hll. eexists _, _, _.
    split; [by apply Hpage|]. split; [by apply Hpage|].
    split; [by apply Hpage|].
    unfold in_bigint in *. rewrite <- fmap_app. f_equal.
    rewrite Z2Nat.inj_add, Z2Nat.inj_add by lia.
    rewrite <- drop_drop, <- take_take_drop. reflexivity.
  - intros Hout. split.
    + by rewrite (get_articles_run _ _ _ Hwf Hids), (not_in_bigint_test _ _ Hout).
    + intros limit' offset'. by apply get_articles_failed.
Qed.

(** ** The text to embed *)

Lemma prefix_of_length_length n text :
  String.length (Embedding.prefix_of_length n text) = Nat.min n (String.length text).
Proof.
  revert text. induction n as [|n IH]; intros [|c text]; cbn; try reflexivity.
  by rewrite IH.
Qed.

Lemma prefix_of_length_prefix n text :
  PyStr.startswith (Embedding.prefix_of_length n text) text = true.
Proof.
  revert text. induction n as [|n IH]; intros [|c text]; cbn; try reflexivity.
  by rewrite Ascii.eqb_refl, IH.
Qed.

Lemma startswith_refl text : PyStr.startswith text text = true.
Proof. induction text as [|c text IH]; cbn; [done|]. by rewrite Ascii.eqb_refl. Qed.

(** X17. The text sent to the embedding provider has at most 32000
    characters, is a prefix of the text given, and is the text given when
    that has at most 32000 characters. *)
Theorem embedding_input_bounded text :
  (N.of_nat (String.length (Embedding.embedding_input text)) <= 32000)%N
  /\ PyStr.startswith (Embedding.embedding_input text) text = true
  /\ ((N.of_nat (String.length text) <= 32000)%N ->
      Embedding.embedding_input text = text).
Proof.
  unfold Embedding.embedding_input, Embedding.max_tokens.
  change (8000 * 4)%N with 32000%N.
  destruct (32000 <? N.of_nat (String.length text))%N eqn:Hlong.
  - apply N.ltb_lt in Hlong. split; [|split].
    + rewrite prefix_of_length_length. lia.
    + apply prefix_of_length_prefix.
    + lia.
  - apply N.ltb_ge in Hlong. split; [exact Hlong|].
    split; [apply startswith_refl | done].
Qed.

(** ** The embedding of the table *)

Lemma get_articles_length limit offset s :
  wf s -> ids_ok s ->
  (0 <= offset)%Z ->
  exists articles s',
    Embedding.get_articles limit offset s = (Ok articles, s')
    /\ (articles ≠ [] -> s' = s)
    /\ (Z.of_nat (List.length articles)
        <= Z.max 0 (Z.min limit (Z.of_nat (List.length (Db.committed s)) - offset)))%Z
    /\ (in_bigint limit -> in_bigint offset ->
        Z.of_nat (List.length articles)
        = Z.min limit (Z.of_nat (List.length (Db.committed s)) - offset)
          `max` 0)%Z.
Proof.
  intros Hwf Hids Ho. rewrite (get_articles_run _ _ _ Hwf Hids).
  destruct ((Embedding.max_bigint <? limit) || (Embedding.max_bigint <? offset)
            || (limit <? 0) || (offset <? 0))%Z eqn:Htest.
  - exists [], (Db.failed s). split; [reflexivity|]. split; [done|].
    split; [cbn; lia|]. intros Hl Ho'.
    by rewrite (in_bigint_test _ _ Hl Ho') in Htest.
  - eexists _, s. split; [reflexivity|]. split; [done|].
    apply orb_false_iff in Htest as [Htest H4].
    apply orb_false_iff in Htest as [Htest H3].
    apply Z.ltb_ge in H3, H4.
    rewrite length_fmap, length_take, length_drop. split; lia.
Qed.

Section ProcessorFacts.

Variable float : Type.
Variable World : Type.
Variable embeddings_create : string -> ST World (list float).
Variable qdrant_upsert : string -> list (Embedding.point float) -> ST World unit.

#[local] Abbreviation create_embedding :=
  (Embedding.create_embedding float World embeddings_create).
#[local] Abbreviation save_embedding :=
  (Embedding.save_embedding_to_qdrant float World qdrant_upsert).
#[local] Abbreviation process_batch :=
  (Embedding.process_batch float World embeddings_create qdrant_upsert).
#[local] Abbreviation process_loop :=
  (Embedding.process_loop float World embeddings_create qdrant_upsert).

Lemma create_embedding_run text w :
  create_embedding text w
  = match embeddings_create (Embedding.embedding_input text) w with
    | (Ok v, w') => (Ok (Some v), w')
    | (Raise _, w') => (Ok None, w')
    end.
Proof.
  unfold Embedding.create_embedding, try_except. rewrite bind_run.
  by destruct (embeddings_create _ w) as [[v|e] w'].
Qed.

Lemma save_embedding_run a v collection w :
  exists ok w',
    save_embedding a v collection w = (Ok ok, w')
    /\ (services_up embeddings_create qdrant_upsert -> ok = true).
Proof.
  unfold Embedding.save_embedding_to_qdrant, try_except. cbv zeta.
  rewrite bind_run.
  match goal with
  | |- context [qdrant_upsert ?c ?ps w] =>
      destruct (qdrant_upsert c ps w) as [[[]|e] w'] eqn:Hup
  end.
  - by exists true, w'.
  - exists false, w'. split; [reflexivity|].
    intros [_ Hsave].
    match type of Hup with
    | qdrant_upsert ?c ?ps w = _ => destruct (Hsave c ps w) as [w'' Hok]
    end.
    congruence.
Qed.

Lemma process_batch_run articles collection processed_count w :
  exists count w',
    process_batch articles collection processed_count w = (Ok count, w')
    /\ (processed_count <= count
        <= processed_count + Z.of_nat (List.length articles))%Z
    /\ (services_up embeddings_create qdrant_upsert ->
        count = (processed_count + Z.of_nat (List.length articles))%Z).
Proof.
  revert processed_count w.
  induction articles as [|a rest IH]; intros processed_count w.
  - exists processed_count, w. cbn. split; [reflexivity|]. split; lia.
  - cbn [Embedding.process_batch]. rewrite bind_run, create_embedding_run.
    destruct (embeddings_create _ w) as [[[|x v]|e] w1] eqn:Hembed.
    + destruct (IH processed_count w1) as (count & w' & -> & Hcount & Hup).
      exists count, w'. split; [reflexivity|]. cbn [List.length].
      split; [lia|]. intros [Hcreate _].
      match type of Hembed with
      | embeddings_create ?t w = _ => destruct (Hcreate t w) as (x & v & w'' & Hok)
      end.
      congruence.
    + rewrite bind_run.
      destruct (save_embedding_run a (x :: v) collection w1)
        as (ok & w2 & -> & Hok).
      destruct (IH (if ok then (processed_count + 1)%Z else processed_count) w2)
        as (count & w' & -> & Hcount & Hup).
      exists count, w'. split; [reflexivity|]. cbn [List.length].
      split; [destruct ok; lia|].
      intros Hservices. rewrite (Hup Hservices), (Hok Hservices). lia.
    + destruct (IH processed_count w1) as (count & w' & -> & Hcount & Hup).
      exists count, w'. split; [reflexivity|]. cbn [List.length].
      split; [lia|]. intros [Hcreate _].
      match type of Hembed with
      | embeddings_create ?t w = _ => destruct (Hcreate t w) as (x & v & w'' & Hok)
      end.
      congruence.
Qed.

Lemma process_loop_run s collection limit batch_size :
  wf s -> ids_ok s ->
  let n := Z.of_nat (List.length (Db.committed s)) in
  forall fuel offset processed_count w,
    (0 <= processed_count <= offset)%Z -> (offset <= n)%Z ->
    (processed_count <= Z.max 0 limit)%Z ->
    (n - offset < Z.of_nat fuel)%Z ->
    exists count sw',
      process_loop fuel collection limit batch_size offset processed_count (s, w)
        = (Ok (Some count), sw')
      /\ (0 <= count <= Z.max 0 limit)%Z /\ (count <= n)%Z
      /\ (services_up embeddings_create qdrant_upsert ->
          (1 <= batch_size <= Embedding.max_bigint)%Z ->
          (n <= Embedding.max_bigint)%Z ->
          processed_count = offset ->
          count = Z.min (Z.max 0 limit) n).
Proof.
  intros Hwf Hids n fuel.
  induction fuel as [|fuel IH]; intros offset processed_count w Hpc Ho Hlim Hfuel;
    [lia|].
  cbn [Embedding.process_loop].
  destruct (processed_count <? limit)%Z eqn:Hlt.
  2:{ apply Z.ltb_ge in Hlt. exists processed_count, (s, w).
      split; [reflexivity|]. split; [lia|]. split; [lia|]. lia. }
  apply Z.ltb_lt in Hlt. cbv zeta.
  set (batch_limit := Z.min batch_size (limit - processed_count)).
  destruct (get_articles_length batch_limit offset s Hwf Hids ltac:(lia))
    as (articles & s' & Hget & Hsame & Hlen & Hlen').
  fold n in Hlen, Hlen'.
  rewrite bind_run. unfold Embedding.on_db at 1. cbn [fst snd]. rewrite Hget.
  destruct articles as [|a articles].
  { cbn [nonempty negb]. exists processed_count, (s', w).
    split; [reflexivity|]. split; [lia|]. split; [lia|].
    intros _ Hbatch Hn Heq. cbn [List.length] in Hlen'.
    assert (Hb : in_bigint batch_limit) by (unfold in_bigint, batch_limit; lia).
    assert (Hoff : in_bigint offset) by (unfold in_bigint; lia).
    specialize (Hlen' Hb Hoff). lia. }
  rewrite (Hsame ltac:(done)).
  cbn [nonempty negb]. rewrite bind_run.
  unfold Embedding.on_services at 1. cbn [fst snd].
  destruct (process_batch_run (a :: articles) collection processed_count w)
    as (count1 & w1 & -> & Hcount1 & Hup1).
  set (len := Z.of_nat (List.length (a :: articles))) in *.
  assert (Hpos : (1 <= len)%Z) by (unfold len; cbn [List.length]; lia).
  destruct (len <? batch_limit)%Z eqn:Hshort.
  - apply Z.ltb_lt in Hshort. exists count1, (s, w1).
    split; [reflexivity|]. split; [lia|]. split; [lia|].
    intros Hservices Hbatch Hn Heq. rewrite (Hup1 Hservices).
    assert (Hb : in_bigint batch_limit) by (unfold in_bigint, batch_limit; lia).
    assert (Hoff : in_bigint offset) by (unfold in_bigint; lia).
    specialize (Hlen' Hb Hoff). lia.
  - apply Z.ltb_ge in Hshort.
    destruct (IH (offset + len)%Z count1 w1) as (count & sw' & -> & Hc & Hn & Hup);
      [lia..|].
    exists count, sw'. split; [reflexivity|]. split; [lia|]. split; [lia|].
    intros Hservices Hbatch Hmax Heq. apply Hup; [done..|].
    rewrite (Hup1 Hservices). lia.
Qed.

(** A batch limit the server refuses ends the loop at once, with the
    transaction failed. *)
Lemma process_loop_refused s collection limit batch_size fuel w :
  wf s -> ids_ok s ->
  (0 < limit)%Z ->
  (batch_size < 0 \/ (Embedding.max_bigint < batch_size
                      /\ Embedding.max_bigint < limit))%Z ->
  process_loop (S fuel) collection limit batch_size 0 0 (s, w)
  = (Ok (Some 0%Z), (Db.failed s, w)).
Proof.
  intros Hwf Hids Hlimit Hbad. cbn [Embedding.process_loop].
  assert (Hlt : (0 <? limit)%Z = true) by (apply Z.ltb_lt; lia).
  rewrite Hlt. cbv zeta. rewrite bind_run.
  unfold Embedding.on_db at 1. cbn [fst snd].
  rewrite (get_articles_run _ _ _ Hwf Hids), not_in_bigint_test;
    [reflexivity|].
  left. unfold in_bigint. lia.
Qed.

(** X18. [process_articles] stops: on a connection between two calls
    whose table is as the connector keeps it, with more turns than the
    table has rows the loop returns a count, whatever the services do
    and whatever the limit and the batch size are. The count is between
    0 and the limit (0 for a negative limit) and at most the number of
    rows. When the services answer every call and the batch size is
    from 1 to the largest [bigint], the count is the smaller of the
    limit and the number of rows. With a positive limit and a batch
    limit that the server refuses (a negative batch size, or a batch
    size and a limit above the largest [bigint]) the count is 0 and the
    connection is left with a failed transaction. *)
Theorem process_articles_stops_within_limit s limit batch_size fuel w :
  wf s -> ids_ok s ->
  List.length (Db.committed s) < fuel ->
  exists count sw',
    Embedding.process_articles float World embeddings_create qdrant_upsert
      fuel limit batch_size (s, w) = (Ok (Some count), sw')
    /\ (0 <= count <= Z.max 0 limit)%Z
    /\ (count <= Z.of_nat (List.length (Db.committed s)))%Z
    /\ (services_up embeddings_create qdrant_upsert ->
        (1 <= batch_size <= Embedding.max_bigint)%Z ->
        (Z.of_nat (List.length (Db.committed s)) <= Embedding.max_bigint)%Z ->
        count = Z.min (Z.max 0 limit) (Z.of_nat (List.length (Db.committed s))))
    /\ ((0 < limit)%Z ->
        (batch_size < 0 \/ (Embedding.max_bigint < batch_size
                            /\ Embedding.max_bigint < limit))%Z ->
        count = 0%Z /\ sw' = (Db.failed s, w)).
Proof.
  intros Hwf Hids Hfuel. unfold Embedding.process_articles.
  destruct (process_loop_run s "multifamilydive_articles" limit batch_size
              Hwf Hids fuel 0%Z 0%Z w) as (count & sw' & Hrun & Hc & Hn & Hup);
    [lia..|].
  exists count, sw'. split; [exact Hrun|]. split; [exact Hc|].
  split; [exact Hn|]. split.
  - intros Hservices Hbatch Hmax. by apply Hup.
  - intros Hlimit Hbad. destruct fuel as [|fuel]; [lia|].
    rewrite (process_loop_refused s _ limit batch_size fuel w Hwf Hids Hlimit Hbad)
      in Hrun.
    by injection Hrun as <- <-.
Qed.

End ProcessorFacts.

(** ** The properties on the sample site *)

Lemma wf_one_row : wf Fixture.one_row.
Proof. apply insert_wf, wf_empty. Qed.

Lemma has_room_one_row : has_room Fixture.one_row 1.
Proof. unfold has_room. vm_compute. discriminate. Qed.

Lemma ids_ok_empty : ids_ok SampleDb.empty.
Proof. split; constructor. Qed.

Lemma ids_ok_one_row : ids_ok Fixture.one_row.
Proof. apply insert_ids_ok; [apply wf_empty | apply ids_ok_empty]. Qed.

Lemma heap_of_lookup (d : dict) : Sample.heap_of d !! 0 = Some d.
Proof. apply lookup_singleton_eq. Qed.

Lemma multifamilydive_content_from_stripped_body_witness :
  Soup.find_all Multifamilydive.embedded_ad
    (Soup.decompose_all Multifamilydive.embedded_ad Fixture.ad_body) = []
  /\ exists r h',
       Multifamilydive.parse_article_content (Sample.parser_of Fixture.ad_page)
         "<html>" 0 (Sample.heap_of Sample.multifamilydive_record) = (Ok r, h')
       /\ deref h' r !! "content" = Some (PStr "Lending slowed.").
Proof.
  apply (multifamilydive_content_from_stripped_body
           (Sample.parser_of Fixture.ad_page) "<html>" Fixture.ad_page
           Fixture.ad_container Fixture.ad_body).
  - reflexivity.
  - vm_compute. reflexivity.
  - vm_compute. reflexivity.
  - vm_compute. reflexivity.
  - discriminate.
Defined.

(** The paragraphs of the header and of the footer are left out, and so
    is the short paragraph. *)
Lemma body_fallback_keeps_long_paragraphs_witness :
  (body_fallback Fixture.chrome_page "").2
  = "A paragraph of the article with more than forty characters.".
Proof.
  pose proof (body_fallback_keeps_long_paragraphs Fixture.chrome_page "") as H.
  vm_compute in H. destruct H as [_ H]. vm_compute. exact H.
Defined.

Lemma content_parsers_frame_witness :
  (exists r h' content,
     Credaily.parse_brief_content (Sample.parser_of Sample.credaily_page)
       "<html>" 0 (Sample.heap_of Sample.partial_record) = (Ok r, h')
     /\ deref h' r = <["content" := PStr content]> Sample.partial_record)
  /\ exists r h',
       Multihousing.parse_brief_content
         (Sample.parser_of Sample.multihousing_page) "<html>" 0
         (Sample.heap_of Sample.multihousing_record) = (Ok r, h')
       /\ deref h' r !! "link"
          = Some (PStr "https://www.multihousingnews.com/occupancy/")
       /\ deref h' r !! "image_url" = Some (PStr "").
Proof.
  split.
  - exact (proj1 (content_parsers_frame (Sample.parser_of Sample.credaily_page)
                    "<html>" 0 _ _ (heap_of_lookup Sample.partial_record))).
  - destruct (proj2 (proj2 (content_parsers_frame
                (Sample.parser_of Sample.multihousing_page) "<html>" 0 _ _
                (heap_of_lookup Sample.multihousing_record))))
      as (r & h' & content & Hrun & _ & Hkeep).
    exists r, h'. split; [exact Hrun|].
    split; (rewrite Hkeep; [vm_compute; reflexivity|]);
      intros Hin; repeat (apply elem_of_cons in Hin as [[=]|Hin]);
      by apply elem_of_nil in Hin.
Defined.

Lemma multihousing_fills_missing_fields_witness :
  exists r h',
    Multihousing.parse_brief_content (Sample.parser_of Sample.multihousing_page)
      "<html>" 0 (Sample.heap_of Sample.multihousing_record) = (Ok r, h')
    /\ r ≠ 0
    /\ deref h' r !! "author" = Some (PStr "Jane Doe")
    /\ deref h' 0 !! "author" = Some (PStr "Jane Doe").
Proof.
  destruct (multihousing_fills_missing_fields
              (Sample.parser_of Sample.multihousing_page) "<html>"
              Sample.multihousing_page Fixture.multihousing_main 0
              (Sample.heap_of Sample.multihousing_record)
              Sample.multihousing_record)
    as (r & h' & Hrun & Hne & _ & Hfill).
  - reflexivity.
  - apply heap_of_lookup.
  - vm_compute. reflexivity.
  - exists r, h'. split; [exact Hrun|]. split; [exact Hne|].
    apply (Hfill "author" (Soup.by_class ["a"] "tdb-author-name")
             (Sample.el "a" ["tdb-author-name"] [NText "Jane Doe"])).
    + unfold scalar_fields. do 2 constructor.
    + vm_compute. reflexivity.
    + vm_compute. reflexivity.
Defined.


Lemma anchor_without_href_discards_page_witness :
  Credaily.parse_brief_links (Sample.parser_of Sample.broken_listing) "<html>" 1
  = Ok [].
Proof.
  apply (proj1 (anchor_without_href_discards_page
                  (Sample.parser_of Sample.broken_listing) "<html>" 1
                  Sample.broken_listing Fixture.unlinked_entry
                  Fixture.unlinked_anchor eq_refl eq_refl)).
  - vm_compute. do 2 constructor.
  - vm_compute. reflexivity.
Defined.

Lemma no_paragraph_no_content_witness :
  exists r h',
    Credaily.parse_brief_content (Sample.parser_of Fixture.plain_page)
      "<html>" 0 (Sample.heap_of Sample.partial_record) = (Ok r, h')
    /\ deref h' r !! "content" = Some (PStr "").
Proof.
  apply (no_paragraph_no_content (Sample.parser_of Fixture.plain_page) "<html>"
           Fixture.plain_page 0 (Sample.heap_of Sample.partial_record)).
  - reflexivity.
  - exists Sample.partial_record. apply heap_of_lookup.
  - vm_compute. reflexivity.
Defined.

(** The record of the sample listing, completed from the sample article
    page, is stored; a record whose title has a NUL is not. *)
Lemma scraped_records_are_accepted_witness :
  let parsed :=
    Multifamilydive.parse_article_content Fixture.site_parser "<article>" 0
      (Sample.heap_of Fixture.listed_article) in
  let stored :=
    Db.insert_multifamilydive_article SampleDb.clock SampleDb.adapt_list SampleDb.server_takes
      (deref parsed.2 1) SampleDb.empty in
  stored.1 = Ok true
  /\ exists row,
       rows_with "https://www.multifamilydive.com/news/lending/"
         (Db.committed stored.2) = [row]
       /\ row_holds SampleDb.adapt_list (deref parsed.2 1) row.
Proof.
  cbv zeta.
  destruct (scraped_records_are_accepted Fixture.site_parser SampleDb.clock
              SampleDb.adapt_list SampleDb.server_takes "<ul>" 1 [Fixture.listed_article]
              Fixture.listed_article "<article>" 0
              (Sample.heap_of Fixture.listed_article) 1
              (Multifamilydive.parse_article_content Fixture.site_parser
                 "<article>" 0 (Sample.heap_of Fixture.listed_article)).2
              SampleDb.empty)
    as (link & Hlink & Hret & Hrow).
  - vm_compute. reflexivity.
  - constructor.
  - apply heap_of_lookup.
  - vm_compute. reflexivity.
  - exact wf_empty.
  - apply has_room_empty. lia.
  - intros p _. reflexivity.
  - assert (Hfree : nul_free
                      (deref (Multifamilydive.parse_article_content
                                Fixture.site_parser "<article>" 0
                                (Sample.heap_of Fixture.listed_article)).2 1)
                    = true) by (vm_compute; reflexivity).
    rewrite Hfree in Hret. split; [exact Hret|].
    assert (Hl : link = "https://www.multifamilydive.com/news/lending/")
      by (vm_compute in Hlink; congruence).
    rewrite <- Hl. by apply Hrow.
Defined.

Example nul_title_is_rejected :
  (Db.insert_multifamilydive_article SampleDb.clock SampleDb.adapt_list SampleDb.server_takes
     Fixture.nul_article SampleDb.empty).1 = Ok false.
Proof. vm_compute. reflexivity. Qed.

Lemma upsert_leaves_other_links_alone_witness :
  rows_with "https://www.multifamilydive.com/news/lending/"
    (Db.committed
       (Db.insert_multifamilydive_article SampleDb.clock SampleDb.adapt_list SampleDb.server_takes
          (SampleDb.article "https://www.multifamilydive.com/news/1/" "One" "1" [])
          Fixture.one_row).2)
  = rows_with "https://www.multifamilydive.com/news/lending/"
      (Db.committed Fixture.one_row).
Proof.
  apply (upsert_leaves_other_links_alone SampleDb.clock SampleDb.adapt_list SampleDb.server_takes).
  - exact wf_one_row.
  - vm_compute. discriminate.
Defined.

Lemma upsert_new_link_appends_row_witness :
  exists row,
    Db.committed
      (Db.insert_multifamilydive_article SampleDb.clock SampleDb.adapt_list SampleDb.server_takes
         SampleDb.first_scrape SampleDb.empty).2
    = Db.committed SampleDb.empty ++ [row]
    /\ Db.row_id row = Db.next_id SampleDb.empty
    /\ Db.row_created_at row = SampleDb.clock (Db.txn SampleDb.empty)
    /\ Db.row_link row = "https://www.multifamilydive.com/news/lending/"
    /\ row_holds SampleDb.adapt_list SampleDb.first_scrape row.
Proof.
  apply (upsert_new_link_appends_row SampleDb.clock SampleDb.adapt_list SampleDb.server_takes
           SampleDb.first_scrape SampleDb.empty).
  - exact wf_empty.
  - vm_compute. reflexivity.
  - vm_compute. reflexivity.
  - apply not_elem_of_nil.
Defined.

Lemma upsert_is_idempotent_witness :
  Db.committed
    (Db.insert_multifamilydive_article SampleDb.clock SampleDb.adapt_list SampleDb.server_takes
       SampleDb.first_scrape Fixture.one_row).2
  = Db.committed Fixture.one_row.
Proof.
  apply (upsert_is_idempotent SampleDb.clock SampleDb.adapt_list SampleDb.server_takes
           SampleDb.first_scrape SampleDb.empty).
  exact wf_empty.
Defined.

Lemma batch_keeps_ids_distinct_witness :
  let s :=
    (Db.insert_multifamilydive_articles SampleDb.clock SampleDb.adapt_list SampleDb.server_takes
       SampleDb.batch SampleDb.empty).2 in
  ids_ok s /\ NoDup (Db.row_id <$> Db.committed s).
Proof.
  cbv zeta.
  apply (batch_keeps_ids_distinct SampleDb.clock SampleDb.adapt_list SampleDb.server_takes
           SampleDb.batch SampleDb.empty).
  - exact wf_empty.
  - exact ids_ok_empty.
Defined.

(** The row of the first scrape after a record with its link and nothing
    else: the title and the content are gone. *)
Lemma missing_fields_default_witness :
  let stored :=
    Db.insert_multifamilydive_article SampleDb.clock SampleDb.adapt_list SampleDb.server_takes
      Fixture.bare_article Fixture.one_row in
  stored.1 = Ok true
  /\ exists row,
       Db.committed stored.2 = [row]
       /\ Db.row_id row = 1
       /\ Db.row_title row = ""
       /\ Db.row_content row = Some "".
Proof.
  cbv zeta.
  destruct (missing_fields_default SampleDb.clock SampleDb.adapt_list SampleDb.server_takes
              Fixture.bare_article
              "https://www.multifamilydive.com/news/lending/" Fixture.one_row)
    as (_ & Hbare).
  - exact wf_one_row.
  - exact has_room_one_row.
  - reflexivity.
  - reflexivity.
  - destruct Hbare
      as (Hret & row & Hrow & Htitle & _ & _ & _ & _ & _ & _ & Hcontent & _);
      try reflexivity; [intros p _; reflexivity|].
    split; [exact Hret|]. exists row.
    assert (Hall : rows_with "https://www.multifamilydive.com/news/lending/"
                     (Db.committed
                        (Db.insert_multifamilydive_article SampleDb.clock SampleDb.adapt_list SampleDb.server_takes Fixture.bare_article
                           Fixture.one_row).2)
                   = Db.committed
                       (Db.insert_multifamilydive_article SampleDb.clock SampleDb.adapt_list SampleDb.server_takes Fixture.bare_article
                          Fixture.one_row).2)
      by (vm_compute; reflexivity).
    rewrite Hall in Hrow. split; [exact Hrow|].
    split; [|by split].
    assert (Hid : Db.row_id <$> Db.committed
                    (Db.insert_multifamilydive_article SampleDb.clock SampleDb.adapt_list SampleDb.server_takes Fixture.bare_article
                       Fixture.one_row).2 = [1])
      by (vm_compute; reflexivity).
    rewrite Hrow in Hid. by injection Hid.
Defined.

Lemma none_is_rejected_witness :
  let run :=
    Db.insert_multifamilydive_article SampleDb.clock SampleDb.adapt_list SampleDb.server_takes
      SampleDb.bad_article Fixture.one_row in
  run.1 = Ok false
  /\ Db.committed run.2 = Db.committed Fixture.one_row
  /\ wf run.2.
Proof.
  cbv zeta.
  apply (none_is_rejected SampleDb.clock SampleDb.adapt_list SampleDb.server_takes).
  - exact wf_one_row.
  - left. vm_compute. reflexivity.
Defined.

(** A refused read, a lost upsert, and the same upsert stored. *)
Lemma failed_transaction_costs_one_call_witness :
  let failed := (Embedding.get_articles (-1) 0 Fixture.one_row).2 in
  let lost :=
    Db.insert_multifamilydive_article SampleDb.clock SampleDb.adapt_list
      SampleDb.server_takes SampleDb.second_scrape failed in
  lost.1 = Ok false
  /\ Db.committed lost.2 = Db.committed Fixture.one_row
  /\ (Db.insert_multifamilydive_article SampleDb.clock SampleDb.adapt_list
        SampleDb.server_takes SampleDb.second_scrape lost.2).1 = Ok true.
Proof.
  cbv zeta.
  assert (E : (Embedding.get_articles (-1) 0 Fixture.one_row).2
              = Db.failed Fixture.one_row) by (vm_compute; reflexivity).
  rewrite E.
  destruct (failed_transaction_costs_one_call SampleDb.clock SampleDb.adapt_list
              SampleDb.server_takes SampleDb.second_scrape Fixture.one_row
              wf_one_row)
    as (Hlost & Hrows & _ & _ & Hnext).
  split; [exact Hlost|]. split; [exact Hrows|].
  apply Hnext; [vm_compute; reflexivity | exact has_room_one_row].
Defined.

Lemma used_up_sequence_stores_nothing_witness :
  (Db.insert_multifamilydive_article SampleDb.clock SampleDb.adapt_list
     SampleDb.server_takes SampleDb.first_scrape Fixture.full).1 = Ok false
  /\ (Db.insert_multifamilydive_articles SampleDb.clock SampleDb.adapt_list
        SampleDb.server_takes SampleDb.batch Fixture.full).1 = Ok 0.
Proof.
  destruct (used_up_sequence_stores_nothing SampleDb.clock SampleDb.adapt_list
              SampleDb.server_takes SampleDb.batch Fixture.full)
    as (Hone & Hall & _).
  - split; [constructor | by split].
  - unfold has_room, Fixture.full. cbn [Db.next_id]. rewrite N2Nat.id.
    intros H. vm_compute in H. by apply H.
  - split; [apply Hone | exact Hall].
Defined.

Lemma in_bigint_small (x : Z) : (0 <= x <= 1000)%Z -> in_bigint x.
Proof. unfold in_bigint, Embedding.max_bigint. lia. Qed.

Lemma get_articles_pages_witness :
  (exists first second both,
     Embedding.get_articles 1 0 Fixture.one_row = (Ok first, Fixture.one_row)
     /\ Embedding.get_articles 2 1 Fixture.one_row = (Ok second, Fixture.one_row)
     /\ Embedding.get_articles 3 0 Fixture.one_row = (Ok both, Fixture.one_row)
     /\ first ++ second = both)
  /\ Embedding.get_articles (-1) 0 Fixture.one_row
     = (Ok [], Db.failed Fixture.one_row)
  /\ Embedding.get_articles 1 0 (Db.failed Fixture.one_row)
     = (Ok [], Db.failed Fixture.one_row).
Proof.
  destruct (get_articles_pages 1 0 Fixture.one_row wf_one_row ids_ok_one_row)
    as (_ & Hcompose & _).
  destruct (get_articles_pages (-1) 0 Fixture.one_row wf_one_row ids_ok_one_row)
    as (_ & _ & Hout).
  split.
  - apply (Hcompose (in_bigint_small 1 ltac:(lia)) (in_bigint_small 0 ltac:(lia))
             2%Z); apply in_bigint_small; lia.
  - destruct Hout as [Hfail Hlater].
    + left. unfold in_bigint. lia.
    + split; [exact Hfail | apply Hlater].
Defined.

Lemma process_articles_stops_within_limit_witness :
  exists count sw',
    Embedding.process_articles nat (list (Embedding.point nat))
      Fixture.embeddings_create Fixture.qdrant_upsert
      2 10 5 (Fixture.one_row, []) = (Ok (Some count), sw')
    /\ count = 1%Z.
Proof.
  destruct (process_articles_stops_within_limit nat (list (Embedding.point nat))
              Fixture.embeddings_create Fixture.qdrant_upsert
              Fixture.one_row 10 5 2 [] wf_one_row ids_ok_one_row)
    as (count & sw' & Hrun & _ & _ & Hup & _).
  - vm_compute. lia.
  - exists count, sw'. split; [exact Hrun|].
    rewrite Hup.
    + vm_compute. reflexivity.
    + split.
      * intros text w. by eexists _, _, _.
      * intros collection points w. by eexists.
    + unfold Embedding.max_bigint. lia.
    + vm_compute. discriminate.
Defined.
